(** * pymrio.tools.ntnu: the NTNU mat-file parser [parse_mat]

    A shallow embedding of [src/pymrio/tools/ntnu.py] and the properties of
    its one function, [parse_mat].

    The module is ordinary dynamically typed Python, so the embedding is a
    small value universe ([pyval]), an exception type ([exn]), a pure error
    monad ([outcome]) for the expressions that read the loaded container,
    and a state-and-error monad ([M]) for the statements that touch the
    interpreter state: the module namespace, the object heap, the files
    [scipy.io.loadmat] can read and the trace of input/output events. *)

From stdpp Require Import gmap strings list.
From Stdlib Require Import ZArith Ascii.

Set Warnings "-register-all".
Set Default Proof Using "Type".
Open Scope Z_scope.

(** ** Values *)

(** The Python values [parse_mat] meets.  [PArr1] and [PArr2] are numpy
    arrays of one and two dimensions (an object array holds arbitrary
    values, a numeric one holds [PNum]); a two-dimensional array carries its
    column count, so that the shape of an array without rows is still
    known.  [PSparse] is a scipy sparse matrix given by its shape and its
    stored (row, column, value) triples.  [PStruct] is a [mat_struct], the
    object [loadmat(struct_as_record=False)] builds for a MATLAB struct:
    only its [__dict__] is used.  [PSliceAll] is [slice(None, None, None)],
    so that [np.index_exp[:, k]] is [PTuple [PSliceAll; PNum k]].
    [PMultiIndex] and [PFrame] are the pandas values the function builds,
    [PLib] is an imported library object and [PRef] a reference to a
    mutable object on the heap.  The entries of the numeric matrices are
    only moved around, never computed with; [Z] stands for their type. *)
Inductive pyval :=
| PNone
| PStr (s : string)
| PNum (z : Z)
| PSliceAll
| PTuple (items : list pyval)
| PList (items : list pyval)
| PArr1 (items : list pyval)
| PArr2 (ncols : nat) (rows : list (list pyval))
| PSparse (nrows ncols : nat) (entries : list (nat * nat * Z))
| PStruct (fields : gmap string pyval)
| PMultiIndex (names : list string) (tuples : list pyval)
| PFrame (ncols : nat) (values : list (list pyval)) (index columns : pyval)
| PLib (qualname : string)
| PRef (loc : nat).

(** Mutable objects: a [dict] with string keys, or a class instance with its
    attribute dictionary. *)
Inductive hobj :=
| HDict (items : gmap string pyval)
| HObj (cls : string) (attrs : gmap string pyval).

(** ** Exceptions and the two monads *)

Inductive exn :=
| NameError (name : string)
| KeyError (key : pyval)
| IndexError
| TypeError
| AttributeError (attr : string)
| ValueError
| OSError.

Inductive outcome (A : Type) :=
| Ret (a : A)
| Raise (e : exn).
Arguments Ret {A} a.
Arguments Raise {A} e.

#[global] Instance outcome_ret : MRet outcome := @Ret.
#[global] Instance outcome_bind : MBind outcome := λ A B f m,
  match m with
  | Ret a => f a
  | Raise e => Raise e
  end.

(** Input/output events, in the order they happen. *)
Inductive event :=
| EvLoadmat (path : string)
| EvLog (level msg : string).

(** [st_files] is the file system as [scipy.io.loadmat] sees it: for a path,
    the top-level dictionary of the container stored there, or the
    exception [loadmat] raises (missing, unreadable, truncated or not a mat
    file). *)
Record state := State {
  st_globals : gmap string pyval;
  st_heap : list hobj;
  st_files : string → outcome (gmap string pyval);
  st_events : list event
}.

Definition M (A : Type) : Type := state → outcome A * state.

#[global] Instance M_ret : MRet M := λ A a σ, (Ret a, σ).
#[global] Instance M_bind : MBind M := λ A B f m σ,
  match m σ with
  | (Ret a, σ') => f a σ'
  | (Raise e, σ') => (Raise e, σ')
  end.

Definition lift {A} (o : outcome A) : M A := λ σ, (o, σ).

(** ** Name resolution *)

(** The names of the [builtins] module: a global name that the module
    namespace does not bind is looked up here before [NameError] is raised.
    [parse_mat] uses [str], [len], [type] and [zip] from it. *)
Definition py_builtins : list string :=
  [ "abs"; "all"; "any"; "ascii"; "bin"; "bool"; "breakpoint"; "bytearray";
    "bytes"; "callable"; "chr"; "classmethod"; "compile"; "complex";
    "delattr"; "dict"; "dir"; "divmod"; "enumerate"; "eval"; "exec";
    "filter"; "float"; "format"; "frozenset"; "getattr"; "globals";
    "hasattr"; "hash"; "help"; "hex"; "id"; "input"; "int"; "isinstance";
    "issubclass"; "iter"; "len"; "list"; "locals"; "map"; "max";
    "memoryview"; "min"; "next"; "object"; "oct"; "open"; "ord"; "pow";
    "print"; "property"; "range"; "repr"; "reversed"; "round"; "set";
    "setattr"; "slice"; "sorted"; "staticmethod"; "str"; "sum"; "super";
    "tuple"; "type"; "vars"; "zip"; "__import__"; "__build_class__";
    "__debug__"; "__doc__"; "__name__"; "__package__"; "__loader__";
    "__spec__"; "None"; "True"; "False"; "Ellipsis"; "NotImplemented";
    "copyright"; "credits"; "license"; "exit"; "quit";
    "BaseException"; "Exception"; "ArithmeticError"; "AssertionError";
    "AttributeError"; "BlockingIOError"; "BrokenPipeError"; "BufferError";
    "BytesWarning"; "ChildProcessError"; "ConnectionAbortedError";
    "ConnectionError"; "ConnectionRefusedError"; "ConnectionResetError";
    "DeprecationWarning"; "EOFError"; "EnvironmentError";
    "FileExistsError"; "FileNotFoundError"; "FloatingPointError";
    "FutureWarning"; "GeneratorExit"; "IOError"; "ImportError";
    "ImportWarning"; "IndentationError"; "IndexError";
    "InterruptedError"; "IsADirectoryError"; "KeyError";
    "KeyboardInterrupt"; "LookupError"; "MemoryError";
    "ModuleNotFoundError"; "NameError"; "NotADirectoryError";
    "NotImplementedError"; "OSError"; "OverflowError";
    "PendingDeprecationWarning"; "PermissionError"; "ProcessLookupError";
    "RecursionError"; "ReferenceError"; "ResourceWarning"; "RuntimeError";
    "RuntimeWarning"; "StopAsyncIteration"; "StopIteration"; "SyntaxError";
    "SyntaxWarning"; "SystemError"; "SystemExit"; "TabError";
    "TimeoutError"; "TypeError"; "UnboundLocalError"; "UnicodeDecodeError";
    "UnicodeEncodeError"; "UnicodeError"; "UnicodeTranslateError";
    "UnicodeWarning"; "UserWarning"; "ValueError"; "Warning";
    "ZeroDivisionError" ].

(** Loading a global name: the module namespace first, then the builtins.
    A name the namespace binds is taken to denote the object recorded for
    it. *)
Definition lookup_name (G : gmap string pyval) (x : string) : outcome pyval :=
  match G !! x with
  | Some v => Ret v
  | None =>
      if bool_decide (x ∈ py_builtins) then Ret (PLib ("builtins." +:+ x))
      else Raise (NameError x)
  end.

Definition resolve (x : string) : M pyval :=
  λ σ, (lookup_name (st_globals σ) x, σ).

(** ** The module's top level (lines 1-62) *)

Inductive top_stmt :=
| Import (module : string)
| ImportAs (module alias : string)
| FromImport (module name : string)
| AssignDict (name : string) (items : gmap string pyval)
| Def (name : string).

(** [import a.b] binds the top-level package [a]. *)
Fixpoint top_package (s : string) : string :=
  match s with
  | EmptyString => EmptyString
  | String c rest =>
      if Ascii.eqb c "."%char then EmptyString else String c (top_package rest)
  end.

Definition bind_global (x : string) (v : pyval) (σ : state) : state :=
  State (<[x := v]> (st_globals σ)) (st_heap σ) (st_files σ) (st_events σ).

Definition exec_top (s : top_stmt) (σ : state) : state :=
  match s with
  | Import m => bind_global (top_package m) (PLib (top_package m)) σ
  | ImportAs m a => bind_global a (PLib m) σ
  | FromImport m x => bind_global x (PLib (m +:+ "." +:+ x)) σ
  | AssignDict x items =>
      bind_global x (PRef (length (st_heap σ)))
        (State (st_globals σ) (st_heap σ ++ [HDict items]) (st_files σ)
           (st_events σ))
  | Def x => bind_global x (PLib ("pymrio.tools.ntnu." +:+ x)) σ
  end.

(** [np.index_exp[:, k]]: the tuple [(slice(None, None, None), k)]. *)
Definition index_exp_col (k : Z) : pyval := PTuple [PSliceAll; PNum k].

(** The dictionary literal of lines 22-59. *)
Definition MAT_STRUCTURE : gmap string pyval :=
  list_to_map
    [ ("data", PStr "IO");
      ("meta", PStr "meta");
      ("Z", PStr "Z");
      ("Y", PStr "Y");
      ("F", PStr "F");
      ("F_hh", PStr "F_hh");
      ("mon_labels", PStr "labsZ");
      ("mon_sec_slice", index_exp_col 1);
      ("mon_reg_slice", index_exp_col 5);
      ("mon_unit", PStr "unit");
      ("fd_labels", PStr "labsY");
      ("fd_cat_slice", index_exp_col 1);
      ("fd_reg_slice", index_exp_col 4);
      ("stress_labels", PStr "labsF");
      ("stress_name_slice", index_exp_col 0);
      ("stress_comp_slice", index_exp_col 1);
      ("stress_unit_slice", index_exp_col 2);
      ("version", PStr "ver");
      ("year", PStr "years");
      ("empty_comp", PStr "n/a") ].

(** The statements of the module that bind a name, in source order. *)
Definition module_source : list top_stmt :=
  [ Import "os";
    FromImport "pathlib" "Path";
    ImportAs "pandas" "pd";
    ImportAs "numpy" "np";
    Import "scipy.io";
    FromImport "pymrio.core.mriosystem" "IOSystem";
    FromImport "pymrio.core.mriosystem" "Extension";
    FromImport "pymrio.tools.iometadata" "MRIOMetaData";
    FromImport "pymrio.core.constants" "PYMRIO_PATH";
    AssignDict "MAT_STRUCTURE" MAT_STRUCTURE;
    Def "parse_mat" ].

(** The names every module starts with. *)
Definition fresh_module_globals : gmap string pyval :=
  list_to_map
    [ ("__name__", PStr "pymrio.tools.ntnu");
      ("__doc__", PStr " NTNU specific tools for using pymrio
");
      ("__package__", PStr "pymrio.tools");
      ("__loader__", PLib "importlib.SourceFileLoader");
      ("__spec__", PLib "importlib.ModuleSpec");
      ("__file__", PStr "pymrio/tools/ntnu.py");
      ("__cached__", PStr "pymrio/tools/__pycache__/ntnu.pyc");
      ("__builtins__", PLib "builtins") ].

(** Importing the module into an interpreter with heap [h], files [fs] and
    event trace [ev]. *)
Definition import_module (h : list hobj)
    (fs : string → outcome (gmap string pyval)) (ev : list event) : state :=
  foldl (λ σ s, exec_top s σ) (State fresh_module_globals h fs ev)
    module_source.

(** The object [MAT_STRUCTURE] is bound to in [import_module h fs ev], which
    is also the default value of the parameter [struct], evaluated once when
    [def] is executed. *)
Definition MAT_STRUCTURE_ref (h : list hobj) : pyval := PRef (length h).

(** ** Statements with an effect *)

Definition log_debug (msg : string) : M unit :=
  λ σ, (Ret (),
        State (st_globals σ) (st_heap σ) (st_files σ)
          (st_events σ ++ [EvLog "DEBUG" msg])).

(** [scipy.io.loadmat(path, struct_as_record=False, squeeze_me=True)]. *)
Definition loadmat (path : string) : M (gmap string pyval) :=
  λ σ, (st_files σ path,
        State (st_globals σ) (st_heap σ) (st_files σ)
          (st_events σ ++ [EvLoadmat path])).

(** A new object gets the next free location. *)
Definition alloc (o : hobj) : M pyval :=
  λ σ, (Ret (PRef (length (st_heap σ))),
        State (st_globals σ) (st_heap σ ++ [o]) (st_files σ) (st_events σ)).

(** [target.a = v]. *)
Definition setattr (target : pyval) (a : string) (v : pyval) : M unit :=
  λ σ,
    match target with
    | PRef l =>
        match st_heap σ !! l with
        | Some (HObj cls attrs) =>
            (Ret (),
             State (st_globals σ)
               (<[l := HObj cls (<[a := v]> attrs)]> (st_heap σ))
               (st_files σ) (st_events σ))
        | _ => (Raise (AttributeError a), σ)
        end
    | _ => (Raise (AttributeError a), σ)
    end.

(** The items of the dictionary [target] refers to; subscripting anything
    else with a string is a [TypeError]. *)
Definition heap_dict (h : list hobj) (target : pyval)
    : outcome (gmap string pyval) :=
  match target with
  | PRef l =>
      match h !! l with
      | Some (HDict items) => Ret items
      | _ => Raise TypeError
      end
  | _ => Raise TypeError
  end.

Definition dict_items (target : pyval) : M (gmap string pyval) :=
  λ σ, (heap_dict (st_heap σ) target, σ).

(** ** Expressions *)

(** [d[k]] for a string [k]. *)
Definition dict_get (d : gmap string pyval) (k : string) : outcome pyval :=
  match d !! k with
  | Some v => Ret v
  | None => Raise (KeyError (PStr k))
  end.

(** Whether [hash(v)] succeeds (a [slice] is not hashable, so a tuple that
    holds one is not either; a reference is taken to be to a class
    instance). *)
Fixpoint hashable (v : pyval) : bool :=
  match v with
  | PNone | PStr _ | PNum _ | PStruct _ | PLib _ | PRef _ => true
  | PTuple items => forallb hashable items
  | PSliceAll | PList _ | PArr1 _ | PArr2 _ _ | PSparse _ _ _
  | PMultiIndex _ _ | PFrame _ _ _ _ => false
  end.

(** [d[k]] for the dictionary [loadmat] returns, or the [__dict__] of a
    [mat_struct]: all its keys are strings. *)
Definition dict_getitem (d : gmap string pyval) (k : pyval) : outcome pyval :=
  match k with
  | PStr s => dict_get d s
  | _ => if hashable k then Raise (KeyError k) else Raise TypeError
  end.

(** [v.__dict__]: of the values a container holds, it is the [mat_struct]
    whose [__dict__] holds the MATLAB fields. *)
Definition get_dict (v : pyval) : outcome (gmap string pyval) :=
  match v with
  | PStruct fields => Ret fields
  | _ => Raise (AttributeError "__dict__")
  end.

(** A Python index [k] into a sequence of length [n]. *)
Definition norm_index (k : Z) (n : nat) : option nat :=
  if decide (0 ≤ k < Z.of_nat n) then Some (Z.to_nat k)
  else if decide (- Z.of_nat n ≤ k < 0) then Some (Z.to_nat (k + Z.of_nat n))
  else None.

(** Column [j] of the rows of a two-dimensional array, each of which has
    more than [j] elements. *)
Definition column (j : nat) (rows : list (list pyval)) : list pyval :=
  (λ row, default PNone (row !! j)) <$> rows.

(** The parts of a basic index: an integer or [:]. *)
Inductive basic_index :=
| BInt (k : Z)
| BAll.

Definition basic_of (v : pyval) : option basic_index :=
  match v with
  | PNum k => Some (BInt k)
  | PSliceAll => Some BAll
  | _ => None
  end.

(** An index as numpy reads it: a tuple gives one index per axis, and
    [a[x]] is [a[(x,)]].  [None] for an index with a part that is neither
    an integer nor [:]. *)
Definition basics_of (idx : pyval) : option (list basic_index) :=
  match idx with
  | PTuple items => mapM basic_of items
  | _ => b ← basic_of idx; Some [b]
  end.

(** Row [i] of the rows of a two-dimensional array that has more than [i]
    rows. *)
Definition row (i : nat) (rows : list (list pyval)) : list pyval :=
  default [] (rows !! i).

(** [a[idx]], where this value universe can say what it is.

    An array takes the basic indexes: integers (negative ones count from
    the end, one out of range raises [IndexError]) and [:], one per axis,
    missing ones standing for [:] and more of them than the array has
    dimensions raising [IndexError].  So for a two-dimensional [a],
    [a[k]] and [a[k, :]] are row [k], [a[:, k]] is column [k], and
    [a[:]], [a[()]] and [a[:, :]] are [a]; a string is no index
    ([IndexError]).  Of the other tables only the column selector
    [np.index_exp[:, k]], the form [MAT_STRUCTURE] uses, is spelled out: a
    sparse matrix gives its column as a sparse matrix, and a value that is
    no array raises [TypeError].

    [PNum k] as an index is the Python integer [k].  The result is [None]
    where it is left open: a single element of an
    array (a scalar of numpy or a Python object, which this universe does
    not tell apart), an index with [None], a list or an array in it, and
    any other index into a table that is no array. *)
Definition ndarray_getitem (a idx : pyval) : option (outcome pyval) :=
  match a with
  | PArr2 ncols rows =>
      match basics_of idx with
      | Some [] | Some [BAll] | Some [BAll; BAll] => Some (Ret a)
      | Some [BInt k] | Some [BInt k; BAll] =>
          Some (match norm_index k (length rows) with
               | Some i => Ret (PArr1 (row i rows))
               | None => Raise IndexError
               end)
      | Some [BAll; BInt k] =>
          Some (match norm_index k ncols with
               | Some j => Ret (PArr1 (column j rows))
               | None => Raise IndexError
               end)
      | Some [BInt i; BInt j] =>
          match norm_index i (length rows), norm_index j ncols with
          | Some _, Some _ => None
          | _, _ => Some (Raise IndexError)
          end
      | Some _ => Some (Raise IndexError)
      | None =>
          match idx with
          | PStr _ => Some (Raise IndexError)
          | _ => None
          end
      end
  | PArr1 items =>
      match basics_of idx with
      | Some [] | Some [BAll] => Some (Ret a)
      | Some [BInt k] =>
          match norm_index k (length items) with
          | Some _ => None
          | None => Some (Raise IndexError)
          end
      | Some _ => Some (Raise IndexError)
      | None =>
          match idx with
          | PStr _ => Some (Raise IndexError)
          | _ => None
          end
      end
  | PSparse nrows ncols entries =>
      match idx with
      | PTuple [PSliceAll; PNum k] =>
          Some (match norm_index k ncols with
               | Some j =>
                   Ret (PSparse nrows 1
                          (omap (λ '(r, c, x),
                             if decide (c = j) then Some (r, 0%nat, x)
                             else None)
                            entries))
               | None => Raise IndexError
               end)
      | _ => None
      end
  | _ =>
      match idx with
      | PTuple [PSliceAll; PNum k] => Some (Raise TypeError)
      | _ => None
      end
  end.

(** [a.tolist()]: an object array keeps its elements as they are. *)
Definition tolist (a : pyval) : outcome (list pyval) :=
  match a with
  | PArr1 items => Ret items
  | PArr2 _ rows => Ret (PList <$> rows)
  | _ => Raise (AttributeError "tolist")
  end.

(** [len(v)]. *)
Definition py_len (v : pyval) : outcome nat :=
  match v with
  | PStr s => Ret (String.length s)
  | PTuple items | PList items | PArr1 items => Ret (length items)
  | PArr2 _ rows => Ret (length rows)
  | PMultiIndex _ tuples => Ret (length tuples)
  | PFrame _ values _ _ => Ret (length values)
  | _ => Raise TypeError
  end.

(** [type(v) is str]. *)
Definition type_is_str (v : pyval) : bool :=
  match v with
  | PStr _ => true
  | _ => false
  end.

(** ** The library calls *)

(** [scipy.sparse.issparse(v)]. *)
Definition issparse (v : pyval) : bool :=
  match v with
  | PSparse _ _ _ => true
  | _ => false
  end.

(** The value a sparse matrix holds at [(i, j)]: stored entries at the same
    position add up, a position without entry holds zero. *)
Definition sparse_entry (entries : list (nat * nat * Z)) (i j : nat) : Z :=
  foldr (λ '(r, c, x) acc, if decide (r = i ∧ c = j) then x + acc else acc)
    0 entries.

(** The rows of the dense matrix with the same values. *)
Definition dense_rows (nrows ncols : nat) (entries : list (nat * nat * Z))
    : list (list pyval) :=
  (λ i, (λ j, PNum (sparse_entry entries i j)) <$> seq 0 ncols) <$> seq 0 nrows.

(** [v.todense()]. *)
Definition todense (v : pyval) : outcome pyval :=
  match v with
  | PSparse nrows ncols entries =>
      Ret (PArr2 ncols (dense_rows nrows ncols entries))
  | _ => Raise (AttributeError "todense")
  end.

(** The pairs [(x, y)] of two lists, in order. *)
Definition label_pairs (a b : list pyval) : list pyval :=
  zip_with (λ x y, PTuple [x; y]) a b.

(** [pd.MultiIndex.from_arrays([a, b], names=names)]: the labels are the
    pairs of the two lists, in order; the arrays must be of the same length
    and their values hashable. *)
Definition MultiIndex_from_arrays (a b : list pyval) (names : list string)
    : outcome pyval :=
  if decide (length a = length b) then
    if forallb hashable (a ++ b) then Ret (PMultiIndex names (label_pairs a b))
    else Raise TypeError
  else Raise ValueError.

Definition index_len (ix : pyval) : outcome nat :=
  match ix with
  | PMultiIndex _ tuples => Ret (length tuples)
  | PList items => Ret (length items)
  | _ => Raise TypeError
  end.

(** [pd.DataFrame(data=data, index=index, columns=columns)] for the kinds
    of data [parse_mat] passes: a two-dimensional array must have the shape
    the labels imply; a one-dimensional array or a list of scalars is one
    column; a scalar fills the table. *)
Definition DataFrame (data index columns : pyval) : outcome pyval :=
  n ← index_len index;
  m ← index_len columns;
  match data with
  | PArr2 ncols rows =>
      if decide (length rows = n ∧ ncols = m)
      then Ret (PFrame ncols rows index columns)
      else Raise ValueError
  | PArr1 items | PList items =>
      if decide (length items = n ∧ 1%nat = m)
      then Ret (PFrame 1 ((λ x, [x]) <$> items) index columns)
      else Raise ValueError
  | PStr _ | PNum _ =>
      Ret (PFrame m (replicate n (replicate m data)) index columns)
  | _ => Raise ValueError
  end.

(** ** [parse_mat], lines 104-192: the label lists and the tables *)

(** [obj.__dict__[struct[key]]]. *)
Definition struct_field (struct : gmap string pyval) (obj : pyval)
    (key : string) : outcome pyval :=
  d ← get_dict obj;
  k ← dict_get struct key;
  dict_getitem d k.

(** What [a[idx].tolist()] gives where [ndarray_getitem] leaves [a[idx]]
    open.  It is a parameter of the development: every property holds
    whatever numpy does there. *)
Class numpy_other := NumpyOther {
  getitem_tolist : pyval → pyval → outcome (list pyval)
}.

(** [obj.__dict__[struct[labels]][struct[slice]].tolist()]. *)
Definition label_column `{!numpy_other} (struct : gmap string pyval)
    (obj : pyval) (labels slice : string) : outcome (list pyval) :=
  table ← struct_field struct obj labels;
  idx ← dict_get struct slice;
  match ndarray_getitem table idx with
  | Some col => col ← col; tolist col
  | None => getitem_tolist table idx
  end.

(** The comprehension of lines 126-128 over the rows
    [zip(_ll_stress_unit, _ll_stress_comp)].  [empty_comp] is
    [struct['empty_comp']], which is evaluated only in a row whose unit has
    length zero. *)
Fixpoint comp_fallback (empty_comp : outcome pyval)
    (rows : list (pyval * pyval)) : outcome (list pyval) :=
  match rows with
  | [] => Ret []
  | (unit, orig_comp) :: rest =>
      n ← py_len unit;
      c ← (if decide (n = 0%nat) then empty_comp else Ret orig_comp);
      cs ← comp_fallback empty_comp rest;
      Ret (c :: cs)
  end.

(** The comprehension of lines 129-131 over the same rows. *)
Definition unit_fallback (rows : list (pyval * pyval)) : list pyval :=
  (λ '(unit_orig, unit_in_comp),
     if type_is_str unit_orig then unit_orig else unit_in_comp) <$> rows.

(** The locals of lines 104-131. *)
Record labels := Labels {
  mat_io : pyval;
  mat_meta : pyval;
  ll_sec : list pyval;
  ll_reg : list pyval;
  ll_fd_cat : list pyval;
  ll_fd_reg : list pyval;
  ll_stress_names : list pyval;
  _ll_stress_comp : list pyval;
  _ll_stress_unit : list pyval;
  ll_stress_comp : list pyval;
  ll_stress_unit : list pyval
}.

(** Lines 104-131: the two sections of the container and the label
    lists. *)
Definition parse_mat_labels `{!numpy_other}
    (struct mat_all : gmap string pyval) : outcome labels :=
  k_data ← dict_get struct "data";
  mat_io ← dict_getitem mat_all k_data;
  k_meta ← dict_get struct "meta";
  mat_meta ← dict_getitem mat_all k_meta;

  ll_sec ← label_column struct mat_meta "mon_labels" "mon_sec_slice";
  ll_reg ← label_column struct mat_meta "mon_labels" "mon_reg_slice";

  ll_fd_cat ← label_column struct mat_meta "fd_labels" "fd_cat_slice";
  ll_fd_reg ← label_column struct mat_meta "fd_labels" "fd_reg_slice";

  ll_stress_names ←
    label_column struct mat_meta "stress_labels" "stress_name_slice";
  _ll_stress_comp ←
    label_column struct mat_meta "stress_labels" "stress_comp_slice";
  _ll_stress_unit ←
    label_column struct mat_meta "stress_labels" "stress_unit_slice";
  ll_stress_comp ←
    comp_fallback (dict_get struct "empty_comp")
      (zip _ll_stress_unit _ll_stress_comp);
  let ll_stress_unit := unit_fallback (zip _ll_stress_unit _ll_stress_comp) in
  Ret (Labels mat_io mat_meta ll_sec ll_reg ll_fd_cat ll_fd_reg
         ll_stress_names _ll_stress_comp _ll_stress_unit ll_stress_comp
         ll_stress_unit).

(** [m.todense() if scipy.sparse.issparse(m) else m]. *)
Definition densify (G : gmap string pyval) (m : pyval) : outcome pyval :=
  lookup_name G "scipy";;
  if issparse m then todense m else Ret m.

(** The four statements that build the table of one matrix (lines 147-153
    for [Z], and the same for [Y], [F] and [F_hh]):
    [m = mat_io.__dict__[struct[key]]], the dense conversion and
    [pd.DataFrame(data=m, index=index, columns=columns)]. *)
Definition matrix_frame (G struct : gmap string pyval) (mat_io : pyval)
    (key : string) (index columns : pyval) : outcome pyval :=
  m ← struct_field struct mat_io key;
  m ← densify G m;
  lookup_name G "pd";;
  DataFrame m index columns.

(** The locals of [parse_mat] that its last part uses. *)
Record tables := Tables {
  ss_version : pyval;
  ss_year : pyval;
  df_Z : pyval;
  df_Y : pyval;
  df_F : pyval;
  df_F_hh : pyval;
  df_mon_unit : pyval;
  df_F_unit : pyval
}.

(** Lines 133-192: the three label indexes, the two scalars and the six
    tables. *)
Definition parse_mat_frames (G struct : gmap string pyval) (ls : labels)
    : outcome tables :=
  lookup_name G "pd";;
  multiind_mon ←
    MultiIndex_from_arrays (ll_reg ls) (ll_sec ls) ["region"; "sector"];
  lookup_name G "pd";;
  multiind_fd_col ←
    MultiIndex_from_arrays (ll_fd_reg ls) (ll_fd_cat ls)
      ["region"; "category"];
  lookup_name G "pd";;
  multiind_stress_row ←
    MultiIndex_from_arrays (ll_stress_names ls) (ll_stress_comp ls)
      ["stressor"; "compartment"];

  ss_version ← struct_field struct (mat_meta ls) "version";
  ss_year ← struct_field struct (mat_meta ls) "year";

  df_Z ← matrix_frame G struct (mat_io ls) "Z" multiind_mon multiind_mon;
  df_Y ← matrix_frame G struct (mat_io ls) "Y" multiind_mon multiind_fd_col;
  df_F ←
    matrix_frame G struct (mat_io ls) "F" multiind_stress_row multiind_mon;
  df_F_hh ←
    matrix_frame G struct (mat_io ls) "F_hh" multiind_stress_row
      multiind_fd_col;

  lookup_name G "pd";;
  mon_unit ← struct_field struct (mat_meta ls) "mon_unit";
  df_mon_unit ← DataFrame mon_unit multiind_mon (PList [PStr "unit"]);
  lookup_name G "pd";;
  df_F_unit ←
    DataFrame (PList (ll_stress_unit ls)) multiind_stress_row
      (PList [PStr "unit"]);
  Ret (Tables ss_version ss_year df_Z df_Y df_F df_F_hh df_mon_unit df_F_unit).

(** Lines 104-192, which only read: the namespace [G], the items of
    [struct] and the loaded container [mat_all]. *)
Definition parse_mat_tables `{!numpy_other}
    (G struct mat_all : gmap string pyval) : outcome tables :=
  ls ← parse_mat_labels struct mat_all;
  parse_mat_frames G struct ls.

(** ** The collaborating classes *)

(** Modelled from the spec: the class [IOSystem] of
    [pymrio.core.mriosystem], which is not among the sources.  The spec
    gives the economic-accounting container as an attribute surface
    (identifier, version, year, system tag, three tables and a nested
    satellite-accounts object) that accepts what is assigned to it;
    [IOSystem()] is a new object on which nothing is set yet. *)
Definition IOSystem_new : M pyval := alloc (HObj "IOSystem" ∅).

(** Modelled from the spec: the class [Extension] of
    [pymrio.core.mriosystem], which is not among the sources: the
    satellite-accounts object with its own table attributes,
    [Extension(name=.., F=.., F_hh=.., unit=..)]. *)
Definition Extension_new (name F F_hh unit : pyval) : M pyval :=
  alloc (HObj "Extension"
           (list_to_map
              [("name", name); ("F", F); ("F_hh", F_hh); ("unit", unit)])).

(** Modelled from the spec: the class [MRIOMetaData] of
    [pymrio.tools.iometadata], which is not among the sources: a
    constructor accepting location, description, name, system tag and
    version, whose record starts with an empty log. *)
Definition MRIOMetaData_new (location description name system version : pyval)
    : M pyval :=
  alloc (HObj "MRIOMetaData"
           (list_to_map
              [("location", location); ("description", description);
               ("name", name); ("system", system); ("version", version);
               ("history", PList [])])).

(** Modelled from the spec: the method [_add_fileio] of [MRIOMetaData],
    which is not among the sources: it appends one free-text log line to
    the record. *)
Definition add_fileio (target : pyval) (note : string) : M unit :=
  λ σ,
    match target with
    | PRef l =>
        match st_heap σ !! l with
        | Some (HObj cls attrs) =>
            match attrs !! "history" with
            | Some (PList entries) =>
                (Ret (),
                 State (st_globals σ)
                   (<[l := HObj cls
                             (<["history" := PList (entries ++ [PStr note])]>
                                attrs)]> (st_heap σ))
                   (st_files σ) (st_events σ))
            | _ => (Raise (AttributeError "history"), σ)
            end
        | _ => (Raise (AttributeError "_add_fileio"), σ)
        end
    | _ => (Raise (AttributeError "_add_fileio"), σ)
    end.

(** ** [os.path] *)

(** The two functions of [os.path] the parser calls; which module [os.path]
    is depends on the platform. *)
Class os_path := OsPath {
  normpath : string → string;
  dirname : string → string
}.

(** ** [parse_mat] *)

Definition get_globals : M (gmap string pyval) :=
  λ σ, (Ret (st_globals σ), σ).

Section parser.
Context `{!os_path} `{!numpy_other}.

(** [parse_mat(mat_file, name, io_system, struct)].  [mat_file] is the
    value of [str(mat_file)].  [struct] refers to a dictionary that no
    statement of the function writes to, so its items are read once,
    where line 104 first subscripts it. *)
Definition parse_mat (mat_file : string) (name io_system struct : pyval)
    : M pyval :=
  resolve "os";;
  let mat_file := normpath mat_file in

  resolve "logging";;
  log_debug ("PARSER: Read matlab data from " +:+ mat_file);;
  resolve "scipy";;
  mat_all ← loadmat mat_file;
  items ← dict_items struct;
  G ← get_globals;
  t ← lift (parse_mat_tables G items mat_all);
  let ss_io_system := io_system in

  resolve "logging";;
  log_debug "PARSER: Build pymrio system";;
  resolve "IOSystem";;
  io_to_py ← IOSystem_new;
  setattr io_to_py "name" name;;
  setattr io_to_py "version" (ss_version t);;
  setattr io_to_py "year" (ss_year t);;
  setattr io_to_py "iosystem" ss_io_system;;

  resolve "logging";;
  log_debug "PARSER: Build extension system";;
  setattr io_to_py "Z" (df_Z t);;
  setattr io_to_py "Y" (df_Y t);;
  setattr io_to_py "unit" (df_mon_unit t);;
  resolve "Extension";;
  satellite ←
    Extension_new (PStr "Satellite Accounts") (df_F t) (df_F_hh t)
      (df_F_unit t);
  setattr io_to_py "satellite" satellite;;

  resolve "MRIOMetaData";;
  resolve "os";;
  meta_rec ←
    MRIOMetaData_new (PStr (dirname mat_file))
      (PStr "MRIO parsed from NTNU mat structure") name ss_io_system
      (ss_version t);
  add_fileio meta_rec ("MAT MRIO structure parsed from " +:+ mat_file);;
  mret io_to_py.

End parser.

(** ** [posixpath], the [os.path] of a POSIX platform *)

Module posixpath.

Fixpoint split (sep : ascii) (s : list ascii) : list (list ascii) :=
  match s with
  | [] => [[]]
  | c :: rest =>
      if Ascii.eqb c sep then [] :: split sep rest
      else
        match split sep rest with
        | comp :: comps => (c :: comp) :: comps
        | [] => [[c]]
        end
  end.

Fixpoint join (sep : ascii) (comps : list (list ascii)) : list ascii :=
  match comps with
  | [] => []
  | [comp] => comp
  | comp :: comps => (comp ++ sep :: join sep comps)%list
  end.

Definition slash : ascii := "/"%char.
Definition dot : list ascii := ["."%char].
Definition dotdot : list ascii := ["."%char; "."%char].

(** The number of leading slashes [normpath] keeps: two exactly when
    the path starts with two slashes and not with three. *)
Definition initial_slashes (s : list ascii) : nat :=
  match s with
  | c1 :: c2 :: c3 :: _ =>
      if Ascii.eqb c1 slash then
        if Ascii.eqb c2 slash then if Ascii.eqb c3 slash then 1 else 2
        else 1
      else 0
  | [c1; c2] =>
      if Ascii.eqb c1 slash then if Ascii.eqb c2 slash then 2 else 1
      else 0
  | [c1] => if Ascii.eqb c1 slash then 1 else 0
  | [] => 0
  end%nat.

(** One turn of the loop over the components; [new_comps] is kept in
    reverse. *)
Definition norm_step (rooted : bool) (new_comps : list (list ascii))
    (comp : list ascii) : list (list ascii) :=
  if bool_decide (comp = [] ∨ comp = dot) then new_comps
  else if bool_decide (comp ≠ dotdot
                       ∨ (rooted = false ∧ new_comps = [])
                       ∨ head new_comps = Some dotdot)
  then comp :: new_comps
  else tail new_comps.

Definition normpath (path : string) : string :=
  let s := String.list_ascii_of_string path in
  match s with
  | [] => "."
  | _ =>
      let n := initial_slashes s in
      let comps :=
        reverse (foldl (norm_step (bool_decide (n ≠ 0%nat))) []
                   (split slash s)) in
      match (replicate n slash ++ join slash comps)%list with
      | [] => "."
      | p => String.string_of_list_ascii p
      end
  end.

Fixpoint lstrip (c : ascii) (s : list ascii) : list ascii :=
  match s with
  | x :: rest => if Ascii.eqb x c then lstrip c rest else s
  | [] => []
  end.

Fixpoint drop_until (c : ascii) (s : list ascii) : list ascii :=
  match s with
  | x :: rest => if Ascii.eqb x c then s else drop_until c rest
  | [] => []
  end.

(** The path up to its last slash, without trailing slashes unless it
    consists of slashes only. *)
Definition dirname (p : string) : string :=
  let head_rev := drop_until slash (reverse (String.list_ascii_of_string p)) in
  match lstrip slash head_rev with
  | [] => String.string_of_list_ascii (reverse head_rev)
  | stripped => String.string_of_list_ascii (reverse stripped)
  end.

End posixpath.

Definition posix_path : os_path :=
  OsPath posixpath.normpath posixpath.dirname.

(** ** A small container *)

(** The container of the spec's scenarios: two monetary labels (regions
    R1, R2; sectors S1, S2), the flow matrix [[1,2],[3,4]], two
    final-demand columns and three stressors, two of them with an empty
    unit cell, which [loadmat] delivers as an empty array. *)
Module example.

Definition labsZ : pyval :=
  PArr2 6
    [ [PStr "1"; PStr "S1"; PStr "Sector one"; PStr "i"; PStr "-"; PStr "R1"];
      [PStr "2"; PStr "S2"; PStr "Sector two"; PStr "i"; PStr "-"; PStr "R2"] ].

Definition labsY : pyval :=
  PArr2 5
    [ [PStr "1"; PStr "Households"; PStr "hh"; PStr "-"; PStr "R1"];
      [PStr "2"; PStr "Households"; PStr "hh"; PStr "-"; PStr "R2"] ].

Definition labsF : pyval :=
  PArr2 3
    [ [PStr "CO2"; PStr "air"; PStr "kg"];
      [PStr "CH4"; PStr "air"; PArr1 []];
      [PStr "Value added"; PStr "M.EUR"; PArr1 []] ].

(** The same table with the empty string, a [str], as the unit of the
    second stressor. *)
Definition labsF_empty_str : pyval :=
  PArr2 3
    [ [PStr "CO2"; PStr "air"; PStr "kg"];
      [PStr "CH4"; PStr "air"; PStr ""];
      [PStr "Value added"; PStr "M.EUR"; PArr1 []] ].

Definition Z : pyval := PArr2 2 [[PNum 1; PNum 2]; [PNum 3; PNum 4]].

(** A flow matrix of three rows and columns, for two monetary labels. *)
Definition Z_3x3 : pyval :=
  PArr2 3
    [ [PNum 1; PNum 2; PNum 0]; [PNum 3; PNum 4; PNum 0];
      [PNum 0; PNum 0; PNum 0] ].

Definition Y_sparse : pyval :=
  PSparse 2 2 [(0%nat, 0%nat, 5); (1%nat, 1%nat, 6); (1%nat, 0%nat, 7)].

Definition Y_dense : pyval := PArr2 2 [[PNum 5; PNum 0]; [PNum 7; PNum 6]].

Definition F : pyval :=
  PArr2 2 [[PNum 10; PNum 20]; [PNum 30; PNum 40]; [PNum 50; PNum 60]].

Definition F_hh : pyval :=
  PArr2 2 [[PNum 1; PNum 1]; [PNum 2; PNum 2]; [PNum 0; PNum 0]].

Definition io_section (Z Y : pyval) : gmap string pyval :=
  list_to_map [("Z", Z); ("Y", Y); ("F", F); ("F_hh", F_hh)].

Definition meta_section (labsF : pyval) : gmap string pyval :=
  list_to_map
    [ ("labsZ", labsZ); ("labsY", labsY); ("labsF", labsF);
      ("unit", PArr1 [PStr "M.EUR"; PStr "M.EUR"]);
      ("ver", PStr "2.2"); ("years", PNum 2007) ].

Definition container (Z Y labsF : pyval) : gmap string pyval :=
  list_to_map
    [ ("__header__", PStr "MATLAB 5.0 MAT-file");
      ("__version__", PStr "1.0");
      ("__globals__", PList []);
      ("IO", PStruct (io_section Z Y));
      ("meta", PStruct (meta_section labsF)) ].

(** The container of the scenarios. *)
Definition mrio : gmap string pyval := container Z Y_sparse labsF.

(** The locals of lines 104-131 for it, with the default field map. *)
Definition mrio_labels : labels :=
  Labels (PStruct (io_section Z Y_sparse)) (PStruct (meta_section labsF))
    [PStr "S1"; PStr "S2"] [PStr "R1"; PStr "R2"]
    [PStr "Households"; PStr "Households"] [PStr "R1"; PStr "R2"]
    [PStr "CO2"; PStr "CH4"; PStr "Value added"]
    [PStr "air"; PStr "air"; PStr "M.EUR"]
    [PStr "kg"; PArr1 []; PArr1 []]
    [PStr "air"; PStr "n/a"; PStr "n/a"]
    [PStr "kg"; PStr "air"; PStr "M.EUR"].

Definition mat_path : string := "data/2007/mrio.mat".

(** One readable file, holding [c]. *)
Definition files (c : gmap string pyval) (path : string)
    : outcome (gmap string pyval) :=
  if decide (path = mat_path) then Ret c else Raise OSError.

(** The interpreter right after [import pymrio.tools.ntnu]: the heap
    holds the dictionary [MAT_STRUCTURE] at location 0. *)
Definition imported (c : gmap string pyval) : state :=
  import_module [] (files c) [].

(** The same after [pymrio.tools.ntnu.logging = logging], which binds the
    name the module itself never imports. *)
Definition patched (c : gmap string pyval) : state :=
  bind_global "logging" (PLib "logging") (imported c).

(** The namespace of [patched c], which is the same for every [c]. *)
Definition patched_globals : gmap string pyval := st_globals (patched ∅).

(** A field map without the key ['Z']. *)
Definition struct_without_Z : gmap string pyval := delete "Z" MAT_STRUCTURE.

(** The caller builds an object of its own, which gets location 1. *)
Definition with_object (o : hobj) (σ : state) : state :=
  State (st_globals σ) (st_heap σ ++ [o]) (st_files σ) (st_events σ).

(** No run of the scenarios indexes a table in a way [ndarray_getitem]
    leaves open: for them any instance will do.  This one rejects every
    such index. *)
Definition basic_numpy : numpy_other := NumpyOther (λ _ _, Raise IndexError).

(** The call of the scenarios, on a POSIX platform: the path is given
    unnormalised, and [struct] refers to the object at [struct_loc]
    (location 0 holds the default field map). *)
Abbreviation scenario_call struct_loc σ :=
  (@parse_mat posix_path basic_numpy "data//2007/./mrio.mat" (PStr "test")
     (PStr "pxp") (PRef struct_loc) σ).

End example.

(** ** Reading the result *)

(** [target.a], read from the heap of [σ]. *)
Definition getattr (σ : state) (target : pyval) (a : string) : option pyval :=
  match target with
  | PRef l =>
      match st_heap σ !! l with
      | Some (HObj _ attrs) => attrs !! a
      | _ => None
      end
  | _ => None
  end.

(** The class of the object [target] refers to. *)
Definition class_of (σ : state) (target : pyval) : option string :=
  match target with
  | PRef l =>
      match st_heap σ !! l with
      | Some (HObj cls _) => Some cls
      | _ => None
      end
  | _ => None
  end.

(** The names of the attributes set on the object [target] refers to. *)
Definition attr_names (σ : state) (target : pyval) : gset string :=
  match target with
  | PRef l =>
      match st_heap σ !! l with
      | Some (HObj _ attrs) => dom attrs
      | _ => ∅
      end
  | _ => ∅
  end.

(** ** What a run leaves behind *)

(** The attributes lines 196-205 set on the [IOSystem] object, the last
    one set outermost. *)
Definition io_attrs_core (name io_system : pyval) (t : tables)
    : gmap string pyval :=
  <["unit" := df_mon_unit t]>
    (<["Y" := df_Y t]>
       (<["Z" := df_Z t]>
          (<["iosystem" := io_system]>
             (<["year" := ss_year t]>
                (<["version" := ss_version t]> (<["name" := name]> ∅)))))).

Definition io_obj_core (name io_system : pyval) (t : tables) : hobj :=
  HObj "IOSystem" (io_attrs_core name io_system t).

Definition io_obj (name io_system satellite : pyval) (t : tables) : hobj :=
  HObj "IOSystem"
    (<["satellite" := satellite]> (io_attrs_core name io_system t)).

Definition ext_obj (t : tables) : hobj :=
  HObj "Extension"
    (list_to_map
       [("name", PStr "Satellite Accounts"); ("F", df_F t);
        ("F_hh", df_F_hh t); ("unit", df_F_unit t)]).

Definition meta_attrs (location : string) (name io_system version : pyval)
    (history : list pyval) : gmap string pyval :=
  <["history" := PList history]>
    (list_to_map
       [("location", PStr location);
        ("description", PStr "MRIO parsed from NTNU mat structure");
        ("name", name); ("system", io_system); ("version", version);
        ("history", PList [])]).

Definition meta_obj (location : string) (name io_system version : pyval)
    (history : list pyval) : hobj :=
  HObj "MRIOMetaData" (meta_attrs location name io_system version history).

Definition msg_read (path : string) : event :=
  EvLog "DEBUG" ("PARSER: Read matlab data from " +:+ path).
Definition msg_build : event := EvLog "DEBUG" "PARSER: Build pymrio system".
Definition msg_extension : event :=
  EvLog "DEBUG" "PARSER: Build extension system".
Definition note_parsed (path : string) : pyval :=
  PStr ("MAT MRIO structure parsed from " +:+ path).

(** ** Notions the properties are stated with *)

(** The rows of a stored matrix, dense or sparse. *)
Definition stored_rows (m : pyval) : option (list (list pyval)) :=
  match m with
  | PArr2 _ rows => Some rows
  | PSparse nrows ncols entries => Some (dense_rows nrows ncols entries)
  | _ => None
  end.

(** The dense array with the values of [m]; a value that is not a sparse
    matrix is its own dense form. *)
Definition dense_form (m : pyval) : pyval :=
  match m with
  | PSparse nrows ncols entries => PArr2 ncols (dense_rows nrows ncols entries)
  | _ => m
  end.

(** Two sections of a container that hold, key by key, encodings of the
    same values. *)
Definition same_values (d1 d2 : gmap string pyval) : Prop :=
  ∀ k, dense_form <$> d1 !! k = dense_form <$> d2 !! k.

(** The three label indexes of a run with label lists [ls]. *)
Definition mon_index (ls : labels) : pyval :=
  PMultiIndex ["region"; "sector"] (label_pairs (ll_reg ls) (ll_sec ls)).
Definition fd_index (ls : labels) : pyval :=
  PMultiIndex ["region"; "category"]
    (label_pairs (ll_fd_reg ls) (ll_fd_cat ls)).
Definition stress_index (ls : labels) : pyval :=
  PMultiIndex ["stressor"; "compartment"]
    (label_pairs (ll_stress_names ls) (ll_stress_comp ls)).
Definition unit_columns : pyval := PList [PStr "unit"].

(** [f] is a table with row labels [index] and column labels [columns]
    whose values have exactly the shape the labels give. *)
Definition well_shaped (f index columns : pyval) : Prop :=
  ∃ ncols rows n m,
    f = PFrame ncols rows index columns ∧
    index_len index = Ret n ∧ index_len columns = Ret m ∧
    length rows = n ∧ ncols = m.

(** [f] is the table of the matrix stored under [struct[key]] in the
    section [sec]: it has the given labels, and its values are the rows of
    the stored matrix. *)
Definition table_of_matrix (struct : gmap string pyval) (sec : pyval)
    (key : string) (f : option pyval) (index columns : pyval) : Prop :=
  ∃ stored ncols rows,
    struct_field struct sec key = Ret stored ∧
    f = Some (PFrame ncols rows index columns) ∧
    ∀ r, stored_rows stored = Some r → rows = r.

(** The list [l] is column [struct[slice]] of the table stored under
    [struct[labels]] in the section [sec], in the order of its rows. *)
Definition column_of_table (struct : gmap string pyval) (sec : pyval)
    (labels slice : string) (l : list pyval) : Prop :=
  ∃ ncols rows k j,
    struct_field struct sec labels = Ret (PArr2 ncols rows) ∧
    dict_get struct slice = Ret (index_exp_col k) ∧
    norm_index k ncols = Some j ∧
    l = column j rows.

(** Every attribute the parser sets is set on the object [io] refers to,
    and on its satellite account. *)
Definition complete (σ : state) (io : pyval) : Prop :=
  class_of σ io = Some "IOSystem" ∧
  attr_names σ io =
    {["name"; "version"; "year"; "iosystem"; "Z"; "Y"; "unit"; "satellite"]} ∧
  ∃ sat,
    getattr σ io "satellite" = Some sat ∧
    class_of σ sat = Some "Extension" ∧
    attr_names σ sat = {["name"; "F"; "F_hh"; "unit"]}.

(** The six tables of the object [io] refers to share three label indexes
    and each has the shape its labels give. *)
Definition consistent (σ : state) (io : pyval) : Prop :=
  ∃ mon fd stress sat Z Y U F F_hh FU,
    getattr σ io "Z" = Some Z ∧ well_shaped Z mon mon ∧
    getattr σ io "Y" = Some Y ∧ well_shaped Y mon fd ∧
    getattr σ io "unit" = Some U ∧ well_shaped U mon unit_columns ∧
    getattr σ io "satellite" = Some sat ∧
    getattr σ sat "F" = Some F ∧ well_shaped F stress mon ∧
    getattr σ sat "F_hh" = Some F_hh ∧ well_shaped F_hh stress fd ∧
    getattr σ sat "unit" = Some FU ∧ well_shaped FU stress unit_columns.

(** From [σ] to [σ'] the namespace and the files are the same and every
    object of [σ] is as it was: what [σ'] has in addition is out of reach
    of everything that existed in [σ]. *)
Definition untouched (σ σ' : state) : Prop :=
  st_globals σ' = st_globals σ ∧
  st_files σ' = st_files σ ∧
  st_heap σ `prefix_of` st_heap σ'.

(** The events a call with path [path] may add to the trace: reading
    [path] and debug log records. *)
Definition reads_only (path : string) (new : list event) : Prop :=
  ∀ e, e ∈ new → e = EvLoadmat path ∨ ∃ msg, e = EvLog "DEBUG" msg.

(** What a successful run of lines 104-131 says about its locals. *)
Definition labels_ok `{!numpy_other} (struct mat_all : gmap string pyval)
    (ls : labels)
    : Prop :=
  (∃ k, dict_get struct "data" = Ret k ∧ dict_getitem mat_all k = Ret (mat_io ls)) ∧
  (∃ k, dict_get struct "meta" = Ret k ∧
        dict_getitem mat_all k = Ret (mat_meta ls)) ∧
  label_column struct (mat_meta ls) "mon_labels" "mon_sec_slice"
    = Ret (ll_sec ls) ∧
  label_column struct (mat_meta ls) "mon_labels" "mon_reg_slice"
    = Ret (ll_reg ls) ∧
  label_column struct (mat_meta ls) "fd_labels" "fd_cat_slice"
    = Ret (ll_fd_cat ls) ∧
  label_column struct (mat_meta ls) "fd_labels" "fd_reg_slice"
    = Ret (ll_fd_reg ls) ∧
  label_column struct (mat_meta ls) "stress_labels" "stress_name_slice"
    = Ret (ll_stress_names ls) ∧
  label_column struct (mat_meta ls) "stress_labels" "stress_comp_slice"
    = Ret (_ll_stress_comp ls) ∧
  label_column struct (mat_meta ls) "stress_labels" "stress_unit_slice"
    = Ret (_ll_stress_unit ls) ∧
  comp_fallback (dict_get struct "empty_comp")
    (zip (_ll_stress_unit ls) (_ll_stress_comp ls)) = Ret (ll_stress_comp ls) ∧
  ll_stress_unit ls = unit_fallback (zip (_ll_stress_unit ls) (_ll_stress_comp ls)).

(** What a successful run of lines 133-192 says about its locals. *)
Definition frames_ok (struct : gmap string pyval) (ls : labels) (t : tables)
    : Prop :=
  struct_field struct (mat_meta ls) "version" = Ret (ss_version t) ∧
  struct_field struct (mat_meta ls) "year" = Ret (ss_year t) ∧
  (well_shaped (df_Z t) (mon_index ls) (mon_index ls) ∧
   table_of_matrix struct (mat_io ls) "Z" (Some (df_Z t))
     (mon_index ls) (mon_index ls)) ∧
  (well_shaped (df_Y t) (mon_index ls) (fd_index ls) ∧
   table_of_matrix struct (mat_io ls) "Y" (Some (df_Y t))
     (mon_index ls) (fd_index ls)) ∧
  (well_shaped (df_F t) (stress_index ls) (mon_index ls) ∧
   table_of_matrix struct (mat_io ls) "F" (Some (df_F t))
     (stress_index ls) (mon_index ls)) ∧
  (well_shaped (df_F_hh t) (stress_index ls) (fd_index ls) ∧
   table_of_matrix struct (mat_io ls) "F_hh" (Some (df_F_hh t))
     (stress_index ls) (fd_index ls)) ∧
  well_shaped (df_mon_unit t) (mon_index ls) unit_columns ∧
  well_shaped (df_F_unit t) (stress_index ls) unit_columns ∧
  df_F_unit t =
    PFrame 1 ((λ u, [u]) <$> ll_stress_unit ls) (stress_index ls) unit_columns.

(** The state a call that returns leaves behind. *)
Definition final_state `{!os_path} (mat_file : string)
    (name io_system : pyval) (t : tables) (σ : state) : state :=
  let path := normpath mat_file in
  let n := length (st_heap σ) in
  State (st_globals σ)
    (st_heap σ ++
       [io_obj name io_system (PRef (S n)) t; ext_obj t;
        meta_obj (dirname path) name io_system (ss_version t)
          [note_parsed path]])
    (st_files σ)
    (st_events σ ++
       [msg_read path; EvLoadmat path; msg_build; msg_extension]).

(** The dictionary [target] refers to in [σ] is the same in [σ']. *)
Definition same_dict (σ σ' : state) (target : pyval) : Prop :=
  ∀ items,
    heap_dict (st_heap σ) target = Ret items →
    heap_dict (st_heap σ') target = Ret items.

(** The name [x] is bound in [σ'] to what it is bound to in [σ], and if
    that is a dictionary, to the same items. *)
Definition same_global (σ σ' : state) (x : string) : Prop :=
  st_globals σ' !! x = st_globals σ !! x ∧
  ∀ v, st_globals σ !! x = Some v → same_dict σ σ' v.

(** The shape of a stored matrix, dense or sparse. *)
Definition matrix_shape (m : pyval) : option (nat * nat) :=
  match m with
  | PArr2 ncols rows => Some (length rows, ncols)
  | PSparse nrows ncols _ => Some (nrows, ncols)
  | _ => None
  end.

(** A [str] with at least one character. *)
Definition nonempty_str (v : pyval) : Prop :=
  ∃ c s, v = PStr (String c s).


(** The seven keys of the field map that hold a slice specification. *)
Definition slice_keys : list string :=
  [ "mon_sec_slice"; "mon_reg_slice"; "fd_cat_slice"; "fd_reg_slice";
    "stress_name_slice"; "stress_comp_slice"; "stress_unit_slice" ].

(** The field map holds under [slice] a column selector
    [np.index_exp[:, k]], as [MAT_STRUCTURE] does. *)
Definition is_column_slice (struct : gmap string pyval) (slice : string)
    : Prop :=
  ∃ k, struct !! slice = Some (index_exp_col k).

(** Every slice specification of the field map is a column selector. *)
Definition column_slices (struct : gmap string pyval) : Prop :=
  ∀ slice, slice ∈ slice_keys → is_column_slice struct slice.

(** The value a stored matrix, dense or sparse, holds in row [i] and
    column [j]; [None] outside the matrix. *)
Definition matrix_cell (m : pyval) (i j : nat) : option pyval :=
  match m with
  | PArr2 _ rows => row ← rows !! i; row !! j
  | PSparse nrows ncols entries =>
      if decide (i < nrows ∧ j < ncols)%nat
      then Some (PNum (sparse_entry entries i j))
      else None
  | _ => None
  end.

(** The same for a table, if [f] is one. *)
Definition frame_shape (f : option pyval) : option (nat * nat) :=
  match f with
  | Some (PFrame ncols rows _ _) => Some (length rows, ncols)
  | _ => None
  end.

Definition frame_cell (f : option pyval) (i j : nat) : option pyval :=
  match f with
  | Some (PFrame _ rows _ _) => row ← rows !! i; row !! j
  | _ => None
  end.

(** The table [f] has the shape of the stored matrix [m] and holds, cell
    by cell, its values. *)
Definition holds_matrix (f : option pyval) (m : pyval) : Prop :=
  ∀ s,
    matrix_shape m = Some s →
    frame_shape f = Some s ∧ ∀ i j, frame_cell f i j = matrix_cell m i j.

(** [f] holds the values of the matrix the section [sec] stores under
    [struct[key]]. *)
Definition table_of_stored (struct : gmap string pyval) (sec : pyval)
    (key : string) (f : option pyval) : Prop :=
  ∃ m, struct_field struct sec key = Ret m ∧ holds_matrix f m.

(** Two stored values that encode the same: the same value, or two
    matrices, each dense or sparse, of the same shape and with the same
    value in every cell. *)
Definition same_matrix (m1 m2 : pyval) : Prop :=
  m1 = m2 ∨
  ∃ s,
    matrix_shape m1 = Some s ∧ matrix_shape m2 = Some s ∧
    ∀ i j, matrix_cell m1 i j = matrix_cell m2 i j.

(** Two data sections that encode, key by key, the same. *)
Definition same_logical (d1 d2 : gmap string pyval) : Prop :=
  ∀ k,
    match d1 !! k, d2 !! k with
    | Some m1, Some m2 => same_matrix m1 m2
    | None, None => True
    | _, _ => False
    end.

(** The event is a read of a file. *)
Definition is_read (e : event) : bool :=
  match e with
  | EvLoadmat _ => true
  | EvLog _ _ => false
  end.

(** The namespace binds the names the function loads to what the imports
    of the module bind them to, and [logging] to the [logging] module. *)
Definition library_names (G : gmap string pyval) : Prop :=
  lookup_name G "os" = Ret (PLib "os") ∧
  lookup_name G "logging" = Ret (PLib "logging") ∧
  lookup_name G "scipy" = Ret (PLib "scipy") ∧
  lookup_name G "pd" = Ret (PLib "pandas") ∧
  lookup_name G "IOSystem" = Ret (PLib "pymrio.core.mriosystem.IOSystem") ∧
  lookup_name G "Extension" = Ret (PLib "pymrio.core.mriosystem.Extension") ∧
  lookup_name G "MRIOMetaData"
    = Ret (PLib "pymrio.tools.iometadata.MRIOMetaData").

(** ** Further notions *)

(** The keys of the field map that every call dereferences, in the order
    of their first use; ['empty_comp'] is not among them, since it is read
    only when a stressor unit is empty. *)
Definition required_keys : list string :=
  [ "data"; "meta"; "mon_labels"; "mon_sec_slice"; "mon_reg_slice";
    "fd_labels"; "fd_cat_slice"; "fd_reg_slice"; "stress_labels";
    "stress_name_slice"; "stress_comp_slice"; "stress_unit_slice";
    "version"; "year"; "Z"; "Y"; "F"; "F_hh"; "mon_unit" ].

(** The global names the function loads, in the order of their first
    use. *)
Definition required_names : list string :=
  [ "os"; "logging"; "scipy"; "pd"; "IOSystem"; "Extension"; "MRIOMetaData" ].

(** The matrix stored under [struct[key]] in the section [sec], if it is
    one, has [r] rows and [k] columns. *)
Definition stored_shape_is (struct : gmap string pyval) (sec : pyval)
    (key : string) (r k : nat) : Prop :=
  ∀ m s,
    struct_field struct sec key = Ret m → matrix_shape m = Some s → s = (r, k).

(** The label table stored under [struct[key]] in the section [sec] has
    two dimensions and [n] rows. *)
Definition table_rows_is (struct : gmap string pyval) (sec : pyval)
    (key : string) (n : nat) : Prop :=
  ∃ ncols rows,
    struct_field struct sec key = Ret (PArr2 ncols rows) ∧ length rows = n.

(** A value whose [len] is defined and not zero. *)
Definition has_items (v : pyval) : Prop := ∃ n, py_len v = Ret (S n).

(** The names lines 97-100 load resolve. *)
Definition opens_file (G : gmap string pyval) : Prop :=
  (∃ v, lookup_name G "os" = Ret v) ∧
  (∃ v, lookup_name G "logging" = Ret v) ∧
  (∃ v, lookup_name G "scipy" = Ret v).

(** The state after the file was read and before anything is built. *)
Definition read_state `{!os_path} (mat_file : string) (σ : state) : state :=
  State (st_globals σ) (st_heap σ) (st_files σ)
    (st_events σ
       ++ [msg_read (normpath mat_file); EvLoadmat (normpath mat_file)]).

(** Every key of the field map the function can read. *)
Definition all_keys : list string := "empty_comp" :: required_keys.

(** Two field maps that hold the same under every key the function can
    read. *)
Definition same_fields (s1 s2 : gmap string pyval) : Prop :=
  ∀ k, k ∈ all_keys → s1 !! k = s2 !! k.

(** The dictionary [d] holds [v] under the name the field map gives for
    [key]. *)
Definition stored_under (struct d : gmap string pyval) (key : string)
    (v : pyval) : Prop :=
  ∃ k, struct !! key = Some (PStr k) ∧ d !! k = Some v.

(** The slice specification under [slice] is [np.index_exp[:, k]] for a
    [k] that is column [j] of a table with [ncols] columns. *)
Definition selects (struct : gmap string pyval) (slice : string)
    (ncols j : nat) : Prop :=
  ∃ k, struct !! slice = Some (index_exp_col k) ∧ norm_index k ncols = Some j.

(** A stressor unit lines 126-128 can handle: it has a length, and if the
    length is zero the field map has the sentinel. *)
Definition unit_ok (struct : gmap string pyval) (u : pyval) : Prop :=
  ∃ n, py_len u = Ret n ∧ (n = 0%nat → is_Some (struct !! "empty_comp")).

(** Further containers for the edge cases. *)
Module edge.

(** A label table for a single monetary label: with [squeeze_me=True] such
    a table arrives with one dimension. *)
Definition labsZ_single : pyval :=
  PArr1 [PStr "1"; PStr "S1"; PStr "Sector one"; PStr "i"; PStr "-"; PStr "R1"].

(** A stressor table without empty cells. *)
Definition labsF_clean : pyval :=
  PArr2 3
    [ [PStr "CO2"; PStr "air"; PStr "kg"];
      [PStr "CH4"; PStr "air"; PStr "kg"] ].

Definition meta_section (labsZ labsF : pyval) : gmap string pyval :=
  list_to_map
    [ ("labsZ", labsZ); ("labsY", example.labsY); ("labsF", labsF);
      ("unit", PArr1 [PStr "M.EUR"; PStr "M.EUR"]);
      ("ver", PStr "2.2"); ("years", PNum 2007) ].

Definition container (labsZ labsF : pyval) : gmap string pyval :=
  list_to_map
    [ ("IO", PStruct (example.io_section example.Z example.Y_sparse));
      ("meta", PStruct (meta_section labsZ labsF)) ].

(** A container without the data section. *)
Definition container_no_data : gmap string pyval :=
  list_to_map [ ("meta", PStruct (example.meta_section example.labsF)) ].

(** The locals of lines 104-131 for the container with the stressor table
    without empty cells, and a field map without ['empty_comp']. *)
Definition clean_labels : labels :=
  Labels (PStruct (example.io_section example.Z example.Y_sparse))
    (PStruct (meta_section example.labsZ labsF_clean))
    [PStr "S1"; PStr "S2"] [PStr "R1"; PStr "R2"]
    [PStr "Households"; PStr "Households"] [PStr "R1"; PStr "R2"]
    [PStr "CO2"; PStr "CH4"]
    [PStr "air"; PStr "air"]
    [PStr "kg"; PStr "kg"]
    [PStr "air"; PStr "air"]
    [PStr "kg"; PStr "kg"].

(** The locals of lines 104-131 for the container of the scenarios with
    the flow matrix of three rows and columns. *)
Definition labels_3x3 : labels :=
  Labels (PStruct (example.io_section example.Z_3x3 example.Y_sparse))
    (PStruct (example.meta_section example.labsF))
    [PStr "S1"; PStr "S2"] [PStr "R1"; PStr "R2"]
    [PStr "Households"; PStr "Households"] [PStr "R1"; PStr "R2"]
    [PStr "CO2"; PStr "CH4"; PStr "Value added"]
    [PStr "air"; PStr "air"; PStr "M.EUR"]
    [PStr "kg"; PArr1 []; PArr1 []]
    [PStr "air"; PStr "n/a"; PStr "n/a"]
    [PStr "kg"; PStr "air"; PStr "M.EUR"].

(** The rows of the three label tables of the scenarios. *)
Definition rowsZ : list (list pyval) :=
  [ [PStr "1"; PStr "S1"; PStr "Sector one"; PStr "i"; PStr "-"; PStr "R1"];
    [PStr "2"; PStr "S2"; PStr "Sector two"; PStr "i"; PStr "-"; PStr "R2"] ].

Definition rowsY : list (list pyval) :=
  [ [PStr "1"; PStr "Households"; PStr "hh"; PStr "-"; PStr "R1"];
    [PStr "2"; PStr "Households"; PStr "hh"; PStr "-"; PStr "R2"] ].

Definition rowsF : list (list pyval) :=
  [ [PStr "CO2"; PStr "air"; PStr "kg"];
    [PStr "CH4"; PStr "air"; PArr1 []];
    [PStr "Value added"; PStr "M.EUR"; PArr1 []] ].

(** The default field map with a key the function does not know. *)
Definition struct_with_comment : gmap string pyval :=
  <["comment" := PStr "EXIOBASE 2"]> MAT_STRUCTURE.

End edge.
(** * Properties *)

(** ** Running the statements *)

Lemma run_bind {A B} (m : M A) (f : A → M B) σ :
  (m ≫= f) σ =
  match m σ with
  | (Ret a, σ') => f a σ'
  | (Raise e, σ') => (Raise e, σ')
  end.
Proof. reflexivity. Qed.

Lemma run_resolve {B} x (f : pyval → M B) G h fs ev :
  (resolve x ≫= f) (State G h fs ev) =
  match lookup_name G x with
  | Ret a => f a (State G h fs ev)
  | Raise e => (Raise e, State G h fs ev)
  end.
Proof. rewrite run_bind. unfold resolve. simpl. by destruct (lookup_name G x). Qed.

Lemma run_log_debug {B} msg (f : () → M B) G h fs ev :
  (log_debug msg ≫= f) (State G h fs ev) =
  f () (State G h fs (ev ++ [EvLog "DEBUG" msg])).
Proof. reflexivity. Qed.

Lemma run_loadmat {B} path (f : gmap string pyval → M B) G h fs ev :
  (loadmat path ≫= f) (State G h fs ev) =
  match fs path with
  | Ret c => f c (State G h fs (ev ++ [EvLoadmat path]))
  | Raise e => (Raise e, State G h fs (ev ++ [EvLoadmat path]))
  end.
Proof. rewrite run_bind. unfold loadmat. simpl. by destruct (fs path). Qed.

Lemma run_dict_items {B} target (f : gmap string pyval → M B) G h fs ev :
  (dict_items target ≫= f) (State G h fs ev) =
  match heap_dict h target with
  | Ret d => f d (State G h fs ev)
  | Raise e => (Raise e, State G h fs ev)
  end.
Proof. rewrite run_bind. unfold dict_items. simpl. by destruct (heap_dict h target). Qed.

Lemma run_get_globals {B} (f : gmap string pyval → M B) G h fs ev :
  (get_globals ≫= f) (State G h fs ev) = f G (State G h fs ev).
Proof. reflexivity. Qed.

Lemma run_lift {A B} (o : outcome A) (f : A → M B) σ :
  (lift o ≫= f) σ =
  match o with
  | Ret a => f a σ
  | Raise e => (Raise e, σ)
  end.
Proof. rewrite run_bind. unfold lift. by destruct o. Qed.

Lemma run_alloc {B} o (f : pyval → M B) G h objs fs ev :
  (alloc o ≫= f) (State G (h ++ objs) fs ev) =
  f (PRef (length h + length objs)) (State G (h ++ (objs ++ [o])) fs ev).
Proof.
  rewrite run_bind. unfold alloc. simpl. by rewrite length_app, (assoc_L (++)).
Qed.

Lemma run_setattr {B} i a v (f : () → M B) G h objs cls attrs fs ev :
  objs !! i = Some (HObj cls attrs) →
  (setattr (PRef (length h + i)) a v ≫= f) (State G (h ++ objs) fs ev) =
  f () (State G (h ++ <[i := HObj cls (<[a := v]> attrs)]> objs) fs ev).
Proof.
  intros Hi. rewrite run_bind. unfold setattr. simpl.
  rewrite lookup_app_r by lia.
  replace (length h + i - length h)%nat with i by lia. rewrite Hi.
  by rewrite insert_app_r.
Qed.

Lemma run_add_fileio {B} i note (f : () → M B) G h objs cls attrs entries fs ev :
  objs !! i = Some (HObj cls attrs) →
  attrs !! "history" = Some (PList entries) →
  (add_fileio (PRef (length h + i)) note ≫= f) (State G (h ++ objs) fs ev) =
  f () (State G
          (h ++ <[i := HObj cls
                         (<["history" := PList (entries ++ [PStr note])]> attrs)]>
                  objs) fs ev).
Proof.
  intros Hi Hh. rewrite run_bind. unfold add_fileio. simpl.
  rewrite lookup_app_r by lia.
  replace (length h + i - length h)%nat with i by lia. rewrite Hi, Hh.
  by rewrite insert_app_r.
Qed.

Section run.
Context `{!os_path} `{!numpy_other}.

Lemma parse_mat_run mat_file name io_system struct G h fs ev :
let path := normpath mat_file in
let n := length h in
let ev1 := ev ++ [msg_read path] in
let ev2 := ev1 ++ [EvLoadmat path] in
let ev3 := ev2 ++ [msg_build] in
let ev4 := ev3 ++ [msg_extension] in
parse_mat mat_file name io_system struct (State G h fs ev) =
match lookup_name G "os" with
| Raise e => (Raise e, State G h fs ev)
| Ret _ =>
match lookup_name G "logging" with
| Raise e => (Raise e, State G h fs ev)
| Ret _ =>
match lookup_name G "scipy" with
| Raise e => (Raise e, State G h fs ev1)
| Ret _ =>
match fs path with
| Raise e => (Raise e, State G h fs ev2)
| Ret mat_all =>
match heap_dict h struct with
| Raise e => (Raise e, State G h fs ev2)
| Ret items =>
match parse_mat_tables G items mat_all with
| Raise e => (Raise e, State G h fs ev2)
| Ret t =>
match lookup_name G "IOSystem" with
| Raise e => (Raise e, State G h fs ev3)
| Ret _ =>
match lookup_name G "Extension" with
| Raise e =>
    (Raise e, State G (h ++ [io_obj_core name io_system t]) fs ev4)
| Ret _ =>
match lookup_name G "MRIOMetaData" with
| Raise e =>
    (Raise e,
     State G (h ++ [io_obj name io_system (PRef (S n)) t; ext_obj t]) fs ev4)
| Ret _ =>
    (Ret (PRef n),
     State G
       (h ++ [io_obj name io_system (PRef (S n)) t; ext_obj t;
              meta_obj (dirname path) name io_system (ss_version t)
                [note_parsed path]])
       fs ev4)
end end end end end end end end end.
Proof.
intros path n ev1 ev2 ev3 ev4. unfold parse_mat.
rewrite run_resolve. destruct (lookup_name G "os") as [?|?] eqn:Hos; [|done].
rewrite run_resolve. destruct (lookup_name G "logging") as [?|?] eqn:Hlog; [|done].
rewrite run_log_debug, run_resolve.
destruct (lookup_name G "scipy"); [|done].
rewrite run_loadmat. fold path. destruct (fs path) as [mat_all|]; [|done].
rewrite run_dict_items. destruct (heap_dict h struct) as [items|]; [|done].
rewrite run_get_globals, run_lift.
destruct (parse_mat_tables G items mat_all) as [t|]; [|done].
rewrite run_resolve, Hlog, run_log_debug, run_resolve.
destruct (lookup_name G "IOSystem"); [|done].
unfold IOSystem_new. rewrite <- (app_nil_r h) at 1. rewrite run_alloc.
simpl length. simpl app.
do 4 (erewrite run_setattr by reflexivity; simpl).
rewrite run_resolve, Hlog, run_log_debug.
do 3 (erewrite run_setattr by reflexivity; simpl).
rewrite run_resolve. destruct (lookup_name G "Extension").
2:{ reflexivity. }
unfold Extension_new. rewrite run_alloc. simpl length. simpl app.
erewrite run_setattr by reflexivity; simpl.
rewrite run_resolve. destruct (lookup_name G "MRIOMetaData").
2:{ rewrite ?Nat.add_0_r, ?Nat.add_1_r. reflexivity. }
rewrite run_resolve, Hos.
unfold MRIOMetaData_new. rewrite run_alloc. simpl length. simpl app.
erewrite run_add_fileio by reflexivity. simpl.
rewrite ?Nat.add_0_r, ?Nat.add_1_r. reflexivity.
Qed.
End run.

(** ** The expressions *)

Lemma outcome_bind_Ret {A B} (m : outcome A) (f : A → outcome B) b :
  m ≫= f = Ret b → ∃ a, m = Ret a ∧ f a = Ret b.
Proof. destruct m as [a|e]; [|done]. intros Hf. by exists a. Qed.

(** Splits a successful sequence into its steps. *)
Ltac inv_ret H :=
  repeat
    match type of H with
    | mbind _ _ = Ret _ =>
        let a := fresh "v" in
        let Ha := fresh "Hv" in
        apply outcome_bind_Ret in H as (a & Ha & H)
    end.

Lemma MultiIndex_from_arrays_Ret a b names ix :
  MultiIndex_from_arrays a b names = Ret ix →
  length a = length b ∧ ix = PMultiIndex names (label_pairs a b).
Proof.
  unfold MultiIndex_from_arrays. case_decide; [|done].
  destruct (forallb _ _); [|done]. by intros [= <-].
Qed.

Lemma length_label_pairs a b :
  length a = length b → length (label_pairs a b) = length a.
Proof. intros Hlen. unfold label_pairs. rewrite length_zip_with. lia. Qed.

Lemma DataFrame_Ret data index columns f :
  DataFrame data index columns = Ret f →
  well_shaped f index columns ∧
  ∃ ncols rows,
    f = PFrame ncols rows index columns ∧
    ∀ r, stored_rows data = Some r → rows = r.
Proof.
  unfold DataFrame, well_shaped. intros Hf.
  apply outcome_bind_Ret in Hf as (n & Hn & Hf).
  apply outcome_bind_Ret in Hf as (m & Hm & Hf).
  rewrite Hn, Hm.
  destruct data; try done.
  - injection Hf as <-. split.
    + exists m, (replicate n (replicate m (PStr s))), n, m.
      by rewrite length_replicate.
    + by eexists _, _.
  - injection Hf as <-. split.
    + exists m, (replicate n (replicate m (PNum z))), n, m.
      by rewrite length_replicate.
    + by eexists _, _.
  - case_decide as Hs; [|done]. destruct Hs as [<- <-]. injection Hf as <-.
    split.
    + exists 1%nat, ((λ x, [x]) <$> items), (length items), 1%nat.
      by rewrite length_fmap.
    + by eexists _, _.
  - case_decide as Hs; [|done]. destruct Hs as [<- <-]. injection Hf as <-.
    split.
    + exists 1%nat, ((λ x, [x]) <$> items), (length items), 1%nat.
      by rewrite length_fmap.
    + by eexists _, _.
  - case_decide as Hs; [|done]. destruct Hs as [<- <-]. injection Hf as <-.
    split.
    + by eexists _, _, _, _.
    + eexists _, _. split; [done|]. by intros r [= <-].
Qed.

Lemma densify_Ret G m d : densify G m = Ret d → d = dense_form m.
Proof.
  unfold densify. intros Hd. apply outcome_bind_Ret in Hd as (? & _ & Hd).
  destruct m; simpl in Hd; by injection Hd as <-.
Qed.

Lemma stored_rows_dense_form m : stored_rows (dense_form m) = stored_rows m.
Proof. by destruct m. Qed.

Lemma densify_dense_form G m : densify G (dense_form m) = densify G m.
Proof. unfold densify. by destruct m. Qed.

Lemma matrix_frame_Ret G struct sec key index columns f :
  matrix_frame G struct sec key index columns = Ret f →
  well_shaped f index columns ∧
  table_of_matrix struct sec key (Some f) index columns.
Proof.
  unfold matrix_frame. intros Hf. inv_ret Hf.
  apply DataFrame_Ret in Hf as (Hshape & ncols & rows & -> & Hrows).
  split; [done|]. exists v, ncols, rows. repeat split; [done|].
  intros r Hr. apply Hrows.
  apply densify_Ret in Hv0 as ->. by rewrite stored_rows_dense_form.
Qed.

(** The two stressor comprehensions, row by row. *)
Lemma comp_fallback_Ret empty_comp rows cs :
  comp_fallback empty_comp rows = Ret cs →
  length cs = length rows ∧
  ∀ i unit comp,
    rows !! i = Some (unit, comp) →
    ∃ n c,
      py_len unit = Ret n ∧ cs !! i = Some c ∧
      (n = 0%nat → empty_comp = Ret c) ∧ (n ≠ 0%nat → c = comp).
Proof.
  revert cs. induction rows as [|[unit comp] rows IH]; intros cs Hcs.
  - injection Hcs as <-. split; [done|]. by intros [|i].
  - simpl in Hcs. inv_ret Hcs. injection Hcs as <-.
    destruct (IH _ Hv1) as [Hlen Hrows]. split; [simpl; lia|].
    intros [|i] unit' comp' Hi; simpl in Hi.
    + injection Hi as <- <-. exists v, v0. repeat split; [done|..].
      * intros ->. by rewrite decide_True in Hv0.
      * intros Hn. rewrite decide_False in Hv0 by done. by injection Hv0.
    + by apply Hrows.
Qed.


Section labels.
Context `{!numpy_other}.

(** With a column selector as slice specification a label list is a column
    of a table of two dimensions. *)
Lemma label_column_Ret struct sec labels slice l :
  is_column_slice struct slice →
  label_column struct sec labels slice = Ret l →
  column_of_table struct sec labels slice l.
Proof.
  unfold label_column, column_of_table. intros [k Hk] Hl.
  apply outcome_bind_Ret in Hl as (table & Htable & Hl).
  unfold dict_get in Hl at 1. rewrite Hk in Hl. simpl in Hl.
  destruct table as [| | | | | | |ncols rows|nrows ncols entries| | | | |];
    try done; simpl in Hl.
  - destruct (norm_index k ncols) as [j|] eqn:Hj; [|done].
    injection Hl as <-. exists ncols, rows, k, j.
    repeat split; try done. unfold dict_get. by rewrite Hk.
  - by destruct (norm_index k ncols).
Qed.

End labels.

Section labels_run.
Context `{!numpy_other}.

Lemma parse_mat_labels_Ret struct mat_all ls :
  parse_mat_labels struct mat_all = Ret ls → labels_ok struct mat_all ls.
Proof.
  unfold parse_mat_labels, labels_ok. intros Hls. inv_ret Hls.
  injection Hls as <-. simpl. eauto 20.
Qed.

End labels_run.

Lemma parse_mat_frames_Ret G struct ls t :
  parse_mat_frames G struct ls = Ret t → frames_ok struct ls t.
Proof.
  unfold parse_mat_frames, frames_ok. intros Ht.
  apply outcome_bind_Ret in Ht as (_ & _ & Ht).
  apply outcome_bind_Ret in Ht as (mon & Hmon & Ht).
  apply outcome_bind_Ret in Ht as (_ & _ & Ht).
  apply outcome_bind_Ret in Ht as (fd & Hfd & Ht).
  apply outcome_bind_Ret in Ht as (_ & _ & Ht).
  apply outcome_bind_Ret in Ht as (stress & Hstress & Ht).
  apply outcome_bind_Ret in Ht as (ver & Hver & Ht).
  apply outcome_bind_Ret in Ht as (year & Hyear & Ht).
  apply outcome_bind_Ret in Ht as (Z & HZ & Ht).
  apply outcome_bind_Ret in Ht as (Y & HY & Ht).
  apply outcome_bind_Ret in Ht as (F & HF & Ht).
  apply outcome_bind_Ret in Ht as (F_hh & HF_hh & Ht).
  apply outcome_bind_Ret in Ht as (_ & _ & Ht).
  apply outcome_bind_Ret in Ht as (mon_unit & _ & Ht).
  apply outcome_bind_Ret in Ht as (U & HU & Ht).
  apply outcome_bind_Ret in Ht as (_ & _ & Ht).
  apply outcome_bind_Ret in Ht as (FU & HFU & Ht).
  injection Ht as <-. simpl.
  apply MultiIndex_from_arrays_Ret in Hmon as [_ ->].
  apply MultiIndex_from_arrays_Ret in Hfd as [_ ->].
  apply MultiIndex_from_arrays_Ret in Hstress as [_ ->].
  fold (mon_index ls) (fd_index ls) (stress_index ls) unit_columns in *.
  repeat split; try done; try by eapply matrix_frame_Ret.
  - by apply DataFrame_Ret in HU as [? _].
  - by apply DataFrame_Ret in HFU as [? _].
  - unfold DataFrame in HFU. simpl in HFU. by case_decide; [injection HFU|].
Qed.

(** The dense conversion in one equation. *)
Lemma densify_eq G m :
  densify G m = (lookup_name G "scipy";; Ret (dense_form m)).
Proof. unfold densify. by destruct m. Qed.

Lemma outcome_bind_ext {A B} (m : outcome A) (f g : A → outcome B) :
  (∀ a, f a = g a) → m ≫= f = m ≫= g.
Proof. intros Hfg. destruct m; [apply Hfg|done]. Qed.

(** The table of a matrix is the same for two sections that hold the same
    values. *)
Lemma matrix_frame_same_values G struct d1 d2 key index columns :
  same_values d1 d2 →
  matrix_frame G struct (PStruct d1) key index columns
  = matrix_frame G struct (PStruct d2) key index columns.
Proof.
  intros Hd. unfold matrix_frame, struct_field. simpl.
  destruct (dict_get struct key) as [k|]; [simpl|done].
  destruct k as [|s| | | | | | | | | | | |]; try done. simpl.
  unfold dict_get. specialize (Hd s).
  destruct (d1 !! s) as [v1|], (d2 !! s) as [v2|]; try done. simpl.
  rewrite !densify_eq. injection Hd as ->. done.
Qed.

Lemma parse_mat_frames_same_values G struct d1 d2 meta l1 l2 l3 l4 l5 l6 l7 l8 l9 :
  same_values d1 d2 →
  parse_mat_frames G struct (Labels (PStruct d1) meta l1 l2 l3 l4 l5 l6 l7 l8 l9)
  = parse_mat_frames G struct
      (Labels (PStruct d2) meta l1 l2 l3 l4 l5 l6 l7 l8 l9).
Proof.
  intros Hd. unfold parse_mat_frames. simpl.
  do 8 (apply outcome_bind_ext; intros ?).
  rewrite (matrix_frame_same_values G struct d1 d2 "Z") by done.
  apply outcome_bind_ext; intros ?.
  rewrite (matrix_frame_same_values G struct d1 d2 "Y") by done.
  apply outcome_bind_ext; intros ?.
  rewrite (matrix_frame_same_values G struct d1 d2 "F") by done.
  apply outcome_bind_ext; intros ?.
  rewrite (matrix_frame_same_values G struct d1 d2 "F_hh") by done.
  done.
Qed.

Section tables.
Context `{!numpy_other}.

(** Lines 104-192 give the same tables for two containers that differ
    only in how the data section encodes its values. *)
Lemma parse_mat_tables_same_values G struct c1 c2 kd km d1 d2 :
  dict_get struct "data" = Ret (PStr kd) →
  dict_get struct "meta" = Ret (PStr km) →
  kd ≠ km →
  c1 !! kd = Some (PStruct d1) →
  c2 !! kd = Some (PStruct d2) →
  same_values d1 d2 →
  (∀ k, k ≠ kd → c1 !! k = c2 !! k) →
  parse_mat_tables G struct c1 = parse_mat_tables G struct c2.
Proof.
  intros Hkd Hkm Hne H1 H2 Hd Hrest.
  unfold parse_mat_tables, parse_mat_labels.
  rewrite Hkd, Hkm. simpl.
  assert (dict_get c1 kd = Ret (PStruct d1)) as -> by (unfold dict_get; by rewrite H1).
  assert (dict_get c2 kd = Ret (PStruct d2)) as -> by (unfold dict_get; by rewrite H2).
  assert (dict_get c1 km = dict_get c2 km) as ->
    by (unfold dict_get; by rewrite (Hrest km)).
  simpl. destruct (dict_get c2 km) as [meta|]; [simpl|done].
  repeat
    match goal with
    | |- context [label_column ?s ?m ?a ?b] =>
        destruct (label_column s m a b); [simpl|done]
    end.
  destruct (comp_fallback _ _); [simpl|done].
  by apply parse_mat_frames_same_values.
Qed.

End tables.

(** ** The call as a whole *)

Section call.
Context `{!os_path} `{!numpy_other}.

(** A call that returns went through every step. *)
Lemma parse_mat_Ret mat_file name io_system struct σ io σ' :
  parse_mat mat_file name io_system struct σ = (Ret io, σ') →
  ∃ mat_all items ls t,
    st_files σ (normpath mat_file) = Ret mat_all ∧
    heap_dict (st_heap σ) struct = Ret items ∧
    parse_mat_labels items mat_all = Ret ls ∧
    parse_mat_frames (st_globals σ) items ls = Ret t ∧
    io = PRef (length (st_heap σ)) ∧
    σ' = final_state mat_file name io_system t σ.
Proof.
  destruct σ as [G h fs ev]. rewrite parse_mat_run. simpl.
  repeat
    match goal with
    | |- context [match ?o with Ret _ => _ | Raise _ => _ end] =>
        destruct o eqn:?; [|done]
    end.
  intros [= <- <-].
  match goal with
  | Ht : parse_mat_tables _ _ _ = Ret _ |- _ =>
      apply outcome_bind_Ret in Ht as (ls & Hls & Ht)
  end.
  eexists _, _, ls, _. repeat split; try done.
  unfold final_state. simpl. by rewrite <- !(assoc_L (++)).
Qed.

(** Whatever the outcome, the call leaves the namespace, the files and
    the existing objects alone, and adds to the trace only the read of
    its file and debug records. *)
Lemma parse_mat_frame mat_file name io_system struct σ :
  let σ' := (parse_mat mat_file name io_system struct σ).2 in
  untouched σ σ' ∧
  ∃ new, st_events σ' = st_events σ ++ new ∧
         reads_only (normpath mat_file) new.
Proof.
  destruct σ as [G h fs ev]. rewrite parse_mat_run. simpl.
  assert (Hlog : ∀ new : list event,
            Forall (λ e, e = EvLoadmat (normpath mat_file)
                         ∨ ∃ msg, e = EvLog "DEBUG" msg) new →
            reads_only (normpath mat_file) new).
  { intros new Hnew e He. by eapply Forall_forall in Hnew. }
  repeat
    match goal with
    | |- context [match ?o with Ret _ => _ | Raise _ => _ end] =>
        destruct o
    end;
    simpl; (split; [repeat split; try done; by apply prefix_app_r|]);
    rewrite <- ?(assoc_L (++)); simpl;
    try (eexists; split; [reflexivity|];
         apply Hlog; repeat constructor; by eauto).
  all: exists []; split; [by rewrite app_nil_r|]; by apply Hlog.
Qed.

Lemma untouched_same_dict σ σ' target :
  untouched σ σ' → same_dict σ σ' target.
Proof.
  unfold same_dict, heap_dict. intros (_ & _ & k & Hk) items. rewrite Hk.
  destruct target as [| | | | | | | | | | | | |l]; try done.
  destruct (st_heap σ !! l) as [o|] eqn:Hl; [|done].
  by rewrite (lookup_app_l_Some _ _ _ _ Hl).
Qed.

(** The objects of a call that returned. *)
Lemma final_state_io mat_file name io_system t σ :
  st_heap (final_state mat_file name io_system t σ) !! length (st_heap σ) =
  Some (io_obj name io_system (PRef (S (length (st_heap σ)))) t).
Proof. unfold final_state. simpl. by rewrite list_lookup_middle. Qed.

Lemma final_state_ext mat_file name io_system t σ :
  st_heap (final_state mat_file name io_system t σ)
    !! S (length (st_heap σ)) = Some (ext_obj t).
Proof.
  unfold final_state. simpl. rewrite lookup_app_r by lia.
  by replace (S (length (st_heap σ)) - length (st_heap σ))%nat with 1%nat
    by lia.
Qed.

Lemma final_state_meta mat_file name io_system t σ :
  st_heap (final_state mat_file name io_system t σ)
    !! S (S (length (st_heap σ))) =
  Some (meta_obj (dirname (normpath mat_file)) name io_system
          (ss_version t) [note_parsed (normpath mat_file)]).
Proof.
  unfold final_state. simpl. rewrite lookup_app_r by lia.
  by replace (S (S (length (st_heap σ))) - length (st_heap σ))%nat
    with 2%nat by lia.
Qed.

Lemma final_state_complete mat_file name io_system t σ :
  complete (final_state mat_file name io_system t σ)
    (PRef (length (st_heap σ))).
Proof.
  pose proof (final_state_io mat_file name io_system t σ) as Hio.
  pose proof (final_state_ext mat_file name io_system t σ) as Hext.
  set (σ' := final_state mat_file name io_system t σ) in *. clearbody σ'.
  unfold complete, class_of, attr_names, getattr. rewrite Hio.
  split; [done|]. split.
  { unfold io_obj, io_attrs_core. rewrite !dom_insert_L. set_solver. }
  exists (PRef (S (length (st_heap σ)))). rewrite Hext.
  split; [apply lookup_insert_eq|]. split; [done|].
  unfold ext_obj. simpl. rewrite !dom_insert_L. set_solver.
Qed.

Lemma final_state_consistent mat_file name io_system struct ls t σ :
  frames_ok struct ls t →
  consistent (final_state mat_file name io_system t σ)
    (PRef (length (st_heap σ))).
Proof.
  intros (_ & _ & [HZ _] & [HY _] & [HF _] & [HFhh _] & HU & HFU & _).
  pose proof (final_state_io mat_file name io_system t σ) as Hio.
  pose proof (final_state_ext mat_file name io_system t σ) as Hext.
  set (σ' := final_state mat_file name io_system t σ) in *. clearbody σ'.
  exists (mon_index ls), (fd_index ls), (stress_index ls),
    (PRef (S (length (st_heap σ)))), (df_Z t), (df_Y t), (df_mon_unit t),
    (df_F t), (df_F_hh t), (df_F_unit t).
  unfold getattr. rewrite Hio, Hext. repeat split; done.
Qed.

End call.
(** ** The values of the stored matrices *)

Lemma parse_mat_frames_Ret_matrices G struct ls t :
  parse_mat_frames G struct ls = Ret t →
  (length (ll_reg ls) = length (ll_sec ls) ∧
   length (ll_fd_reg ls) = length (ll_fd_cat ls) ∧
   length (ll_stress_names ls) = length (ll_stress_comp ls)) ∧
  matrix_frame G struct (mat_io ls) "Z" (mon_index ls) (mon_index ls)
    = Ret (df_Z t) ∧
  matrix_frame G struct (mat_io ls) "Y" (mon_index ls) (fd_index ls)
    = Ret (df_Y t) ∧
  matrix_frame G struct (mat_io ls) "F" (stress_index ls) (mon_index ls)
    = Ret (df_F t) ∧
  matrix_frame G struct (mat_io ls) "F_hh" (stress_index ls) (fd_index ls)
    = Ret (df_F_hh t) ∧
  ∃ mon_unit, struct_field struct (mat_meta ls) "mon_unit" = Ret mon_unit.
Proof.
  unfold parse_mat_frames. intros Ht.
  apply outcome_bind_Ret in Ht as (_ & _ & Ht).
  apply outcome_bind_Ret in Ht as (mon & Hmon & Ht).
  apply outcome_bind_Ret in Ht as (_ & _ & Ht).
  apply outcome_bind_Ret in Ht as (fd & Hfd & Ht).
  apply outcome_bind_Ret in Ht as (_ & _ & Ht).
  apply outcome_bind_Ret in Ht as (stress & Hstress & Ht).
  apply outcome_bind_Ret in Ht as (ver & Hver & Ht).
  apply outcome_bind_Ret in Ht as (year & Hyear & Ht).
  apply outcome_bind_Ret in Ht as (Z & HZ & Ht).
  apply outcome_bind_Ret in Ht as (Y & HY & Ht).
  apply outcome_bind_Ret in Ht as (F & HF & Ht).
  apply outcome_bind_Ret in Ht as (F_hh & HF_hh & Ht).
  apply outcome_bind_Ret in Ht as (_ & _ & Ht).
  apply outcome_bind_Ret in Ht as (mon_unit & Hmon_unit & Ht).
  apply outcome_bind_Ret in Ht as (U & HU & Ht).
  apply outcome_bind_Ret in Ht as (_ & _ & Ht).
  apply outcome_bind_Ret in Ht as (FU & HFU & Ht).
  injection Ht as <-. simpl.
  apply MultiIndex_from_arrays_Ret in Hmon as [? ->].
  apply MultiIndex_from_arrays_Ret in Hfd as [? ->].
  apply MultiIndex_from_arrays_Ret in Hstress as [? ->].
  repeat split; try done. by exists mon_unit.
Qed.

(** Rows are determined by their number and their cells. *)
Lemma rows_ext (r1 r2 : list (list pyval)) :
  length r1 = length r2 →
  (∀ i j, (r ← r1 !! i; r !! j) = (r ← r2 !! i; r !! j)) →
  r1 = r2.
Proof.
  intros Hlen Hcells. apply list_eq. intros i. specialize (Hcells i).
  destruct (r1 !! i) as [a|] eqn:H1, (r2 !! i) as [b|] eqn:H2; simpl in *.
  - f_equal. apply list_eq, Hcells.
  - apply lookup_lt_Some in H1. apply lookup_ge_None in H2. lia.
  - apply lookup_ge_None in H1. apply lookup_lt_Some in H2. lia.
  - done.
Qed.

Lemma length_dense_rows nrows ncols entries :
  length (dense_rows nrows ncols entries) = nrows.
Proof. unfold dense_rows. by rewrite length_fmap, length_seq. Qed.

(** The dense rows of a sparse matrix hold its values, cell by cell. *)
Lemma dense_rows_cell nrows ncols entries i j :
  (r ← dense_rows nrows ncols entries !! i; r !! j)
  = matrix_cell (PSparse nrows ncols entries) i j.
Proof.
  unfold dense_rows. simpl. rewrite list_lookup_fmap.
  destruct (decide (i < nrows)%nat) as [Hi|Hi].
  - rewrite lookup_seq_lt by done. simpl. rewrite list_lookup_fmap.
    destruct (decide (j < ncols)%nat) as [Hj|Hj].
    + rewrite lookup_seq_lt by done. simpl. by rewrite decide_True.
    + rewrite lookup_seq_ge by lia. simpl. rewrite decide_False; [done|lia].
  - rewrite lookup_seq_ge by lia. simpl. rewrite decide_False; [done|lia].
Qed.

(** Two encodings of the same values have the same dense form. *)
Lemma same_matrix_dense_form m1 m2 :
  same_matrix m1 m2 → dense_form m1 = dense_form m2.
Proof.
  intros [->|([r c] & H1 & H2 & Hc)]; [done|].
  destruct m1 as [| | | | | | |c1 rs1|nr1 nc1 e1| | | | |]; try done;
    destruct m2 as [| | | | | | |c2 rs2|nr2 nc2 e2| | | | |]; try done;
    simpl in H1, H2; injection H1 as <- <-; injection H2 as Hr <-; simpl.
  - f_equal. by apply rows_ext.
  - f_equal. apply rows_ext; [by rewrite length_dense_rows|].
    intros i j. rewrite dense_rows_cell. apply Hc.
  - f_equal. apply rows_ext; [by rewrite length_dense_rows|].
    intros i j. rewrite dense_rows_cell. apply Hc.
  - subst. f_equal. apply rows_ext; [by rewrite !length_dense_rows|].
    intros i j. rewrite !dense_rows_cell. apply Hc.
Qed.

Lemma same_logical_same_values d1 d2 :
  same_logical d1 d2 → same_values d1 d2.
Proof.
  intros Hd k. specialize (Hd k).
  destruct (d1 !! k), (d2 !! k); try done. simpl. f_equal.
  by apply same_matrix_dense_form.
Qed.

(** The table of a stored matrix holds its values: a dense matrix is
    taken as it is, a sparse one cell by cell. *)
Lemma matrix_frame_holds G struct sec key index columns f :
  matrix_frame G struct sec key index columns = Ret f →
  table_of_stored struct sec key (Some f).
Proof.
  unfold matrix_frame. intros Hf.
  apply outcome_bind_Ret in Hf as (m & Hm & Hf).
  apply outcome_bind_Ret in Hf as (d & Hd & Hf).
  apply densify_Ret in Hd as ->.
  apply outcome_bind_Ret in Hf as (_ & _ & Hf).
  unfold DataFrame in Hf.
  apply outcome_bind_Ret in Hf as (n & _ & Hf).
  apply outcome_bind_Ret in Hf as (q & _ & Hf).
  exists m. split; [done|]. intros s Hs.
  destruct m as [| | | | | | |ncols rows|nrows ncols entries| | | | |];
    try done; simpl in Hf, Hs; injection Hs as <-;
    (case_decide; [|done]); injection Hf as <-; simpl.
  - done.
  - rewrite length_dense_rows. split; [done|].
    intros i j. apply dense_rows_cell.
Qed.

Lemma parse_mat_frames_holds G struct ls t :
  parse_mat_frames G struct ls = Ret t →
  table_of_stored struct (mat_io ls) "Z" (Some (df_Z t)) ∧
  table_of_stored struct (mat_io ls) "Y" (Some (df_Y t)) ∧
  table_of_stored struct (mat_io ls) "F" (Some (df_F t)) ∧
  table_of_stored struct (mat_io ls) "F_hh" (Some (df_F_hh t)).
Proof.
  intros Ht.
  destruct (parse_mat_frames_Ret_matrices _ _ _ _ Ht)
    as (_ & HZ & HY & HF & HFhh & _).
  repeat split; by eapply matrix_frame_holds.
Qed.

(** ** The two kinds of stressor unit *)

Lemma nonempty_str_has_items v : nonempty_str v → has_items v.
Proof. intros (c & s & ->). by exists (String.length s). Qed.

Lemma nonempty_str_is_str v : nonempty_str v → type_is_str v = true.
Proof. by intros (c & s & ->). Qed.

Lemma getattr_heap σ1 σ2 target a :
  st_heap σ1 = st_heap σ2 → getattr σ1 target a = getattr σ2 target a.
Proof. unfold getattr. by intros ->. Qed.

Section values.
Context `{!os_path} `{!numpy_other}.

(** The four numeric tables of a returned object hold the values of the
    matrices the data section of the file stores. *)
Lemma parse_mat_Ret_values mat_file name io_system struct σ io σ' :
  parse_mat mat_file name io_system struct σ = (Ret io, σ') →
  ∃ mat_all items ls sat,
    st_files σ (normpath mat_file) = Ret mat_all ∧
    heap_dict (st_heap σ) struct = Ret items ∧
    parse_mat_labels items mat_all = Ret ls ∧
    getattr σ' io "satellite" = Some sat ∧
    table_of_stored items (mat_io ls) "Z" (getattr σ' io "Z") ∧
    table_of_stored items (mat_io ls) "Y" (getattr σ' io "Y") ∧
    table_of_stored items (mat_io ls) "F" (getattr σ' sat "F") ∧
    table_of_stored items (mat_io ls) "F_hh" (getattr σ' sat "F_hh").
Proof.
  intros Hrun. apply parse_mat_Ret in Hrun
    as (mat_all & items & ls & t & Hfile & Hitems & Hls & Ht & -> & ->).
  destruct (parse_mat_frames_holds _ _ _ _ Ht) as (HZ & HY & HF & HFhh).
  pose proof (final_state_io mat_file name io_system t σ) as Hio.
  pose proof (final_state_ext mat_file name io_system t σ) as Hext.
  set (σ' := final_state mat_file name io_system t σ) in *. clearbody σ'.
  exists mat_all, items, ls, (PRef (S (length (st_heap σ)))).
  unfold getattr. rewrite Hio, Hext.
  split; [done|]. split; [done|]. split; [done|].
  split; [apply lookup_insert_eq|]. repeat split; done.
Qed.

(** Two containers that differ only in how the data section encodes its
    values give the same outcome, the same objects and the same trace. *)
Lemma parse_mat_same_values mat_file name io_system struct
    G h fs1 fs2 ev items c1 c2 kd km d1 d2 :
  heap_dict h struct = Ret items →
  dict_get items "data" = Ret (PStr kd) →
  dict_get items "meta" = Ret (PStr km) →
  kd ≠ km →
  fs1 (normpath mat_file) = Ret c1 →
  fs2 (normpath mat_file) = Ret c2 →
  c1 !! kd = Some (PStruct d1) →
  c2 !! kd = Some (PStruct d2) →
  same_values d1 d2 →
  (∀ k, k ≠ kd → c1 !! k = c2 !! k) →
  (parse_mat mat_file name io_system struct (State G h fs1 ev)).1
  = (parse_mat mat_file name io_system struct (State G h fs2 ev)).1 ∧
  st_heap (parse_mat mat_file name io_system struct (State G h fs1 ev)).2
  = st_heap (parse_mat mat_file name io_system struct (State G h fs2 ev)).2 ∧
  st_events (parse_mat mat_file name io_system struct (State G h fs1 ev)).2
  = st_events (parse_mat mat_file name io_system struct (State G h fs2 ev)).2.
Proof.
  intros Hitems Hkd Hkm Hne Hf1 Hf2 H1 H2 Hd Hrest.
  rewrite !parse_mat_run. simpl. rewrite Hf1, Hf2, Hitems.
  rewrite (parse_mat_tables_same_values G items c1 c2 kd km d1 d2) by done.
  repeat
    match goal with
    | |- context [match ?o with Ret _ => _ | Raise _ => _ end] =>
        destruct o
    end; done.
Qed.

(** The data section of a run is the one the field map names. *)
Lemma parse_mat_labels_mat_io struct c ls kd d :
  parse_mat_labels struct c = Ret ls →
  dict_get struct "data" = Ret (PStr kd) →
  c !! kd = Some (PStruct d) →
  mat_io ls = PStruct d.
Proof.
  intros Hls Hkd Hd.
  destruct (parse_mat_labels_Ret _ _ _ Hls) as ((k & Hk & Hio) & _).
  rewrite Hkd in Hk. injection Hk as <-. simpl in Hio.
  unfold dict_get in Hio. rewrite Hd in Hio. by injection Hio.
Qed.

End values.

(** ** The properties of [parse_mat] *)

Section claims.
Context `{!os_path} `{!numpy_other}.

(** The module never binds [logging], and no builtin has that name. *)
Lemma module_logging_unbound h fs ev :
  lookup_name (st_globals (import_module h fs ev)) "logging"
  = Raise (NameError "logging").
Proof. reflexivity. Qed.

Lemma module_os_bound h fs ev :
  lookup_name (st_globals (import_module h fs ev)) "os" = Ret (PLib "os").
Proof. reflexivity. Qed.

(** C1.  In the namespace the module's own top level builds, every call
    of [parse_mat], whatever the path, the name, the system tag and the
    field map, raises [NameError] for [logging] at line 99, right after
    the path is normalised: the module never imports [logging].  The
    state is the one the call started in, so no file was opened, nothing
    was built and nothing is returned. *)
Theorem parse_mat_raises_NameError h fs ev σ mat_file name io_system struct :
  st_globals σ = st_globals (import_module h fs ev) →
  parse_mat mat_file name io_system struct σ
  = (Raise (NameError "logging"), σ).
Proof.
  destruct σ as [G h' fs' ev']. intros Hg.
  change (G = st_globals (import_module h fs ev)) in Hg. subst G.
  by rewrite parse_mat_run, module_os_bound, module_logging_unbound.
Qed.

(** C3.  A call either returns a reference to an [IOSystem] object on
    which every attribute is set, the satellite account included, and
    whose six tables share their label indexes and have the shapes the
    labels give; or it raises, and then the caller holds no reference to
    what was built so far: there is no return value, and the namespace
    and every object that existed before the call are as they were. *)
Theorem parse_mat_all_or_nothing mat_file name io_system struct σ :
  match parse_mat mat_file name io_system struct σ with
  | (Ret io, σ') => complete σ' io ∧ consistent σ' io
  | (Raise e, σ') => untouched σ σ'
  end.
Proof.
  destruct (parse_mat mat_file name io_system struct σ) as [[io|e] σ']
    eqn:Hrun.
  - apply parse_mat_Ret in Hrun
      as (mat_all & items & ls & t & _ & _ & _ & Ht & -> & ->).
    split; [apply final_state_complete|].
    eapply final_state_consistent, parse_mat_frames_Ret, Ht.
  - pose proof (parse_mat_frame mat_file name io_system struct σ) as Hf.
    rewrite Hrun in Hf. apply Hf.
Qed.

(** C4 (what the code does).  A call that returns has built the
    provenance record, with the directory of the source file, the fixed
    description, the caller's name and system tag, the version read from
    the file and one log entry that names the file; but it returns the
    [IOSystem] object alone.  The record is a third object, which is
    neither the returned one nor its satellite account, and the returned
    object has no attribute besides the eight that lines 196-205 set. *)
Theorem parse_mat_drops_meta_rec mat_file name io_system struct σ io σ' :
  parse_mat mat_file name io_system struct σ = (Ret io, σ') →
  ∃ meta_rec,
    class_of σ' meta_rec = Some "MRIOMetaData" ∧
    getattr σ' meta_rec "location"
      = Some (PStr (dirname (normpath mat_file))) ∧
    getattr σ' meta_rec "description"
      = Some (PStr "MRIO parsed from NTNU mat structure") ∧
    getattr σ' meta_rec "name" = Some name ∧
    getattr σ' meta_rec "system" = Some io_system ∧
    getattr σ' meta_rec "version" = getattr σ' io "version" ∧
    getattr σ' meta_rec "history"
      = Some (PList [note_parsed (normpath mat_file)]) ∧
    io ≠ meta_rec ∧
    getattr σ' io "satellite" ≠ Some meta_rec ∧
    getattr σ' io "meta" = None ∧
    attr_names σ' io =
      {["name"; "version"; "year"; "iosystem"; "Z"; "Y"; "unit";
        "satellite"]}.
Proof.
  intros Hrun. apply parse_mat_Ret in Hrun
    as (mat_all & items & ls & t & _ & _ & _ & _ & -> & ->).
  pose proof (final_state_io mat_file name io_system t σ) as Hio.
  pose proof (final_state_meta mat_file name io_system t σ) as Hmeta.
  destruct (final_state_complete mat_file name io_system t σ)
    as (_ & Hnames & _).
  set (σ' := final_state mat_file name io_system t σ) in *. clearbody σ'.
  exists (PRef (S (S (length (st_heap σ))))).
  unfold class_of, getattr. rewrite Hio, Hmeta.
  repeat split; try done.
  - intros [= Heq]. lia.
  - unfold io_obj. rewrite lookup_insert_eq. intros [= Heq]. lia.
Qed.

(** C8.  The system tag of a returned object is the argument
    [io_system]: whatever the file holds, what the call sets is the
    caller's value. *)
Theorem parse_mat_iosystem_is_argument
    mat_file name io_system struct σ io σ' :
  parse_mat mat_file name io_system struct σ = (Ret io, σ') →
  getattr σ' io "iosystem" = Some io_system.
Proof.
  intros Hrun. apply parse_mat_Ret in Hrun
    as (mat_all & items & ls & t & _ & _ & _ & _ & -> & ->).
  unfold getattr. by rewrite final_state_io.
Qed.

(** C10.  Whatever its outcome, a call changes no binding of the module
    namespace, no file and no object that existed before it; it only
    adds objects of its own.  The trace grows by the read of the one
    file and by debug log records, nothing else.  In particular the
    dictionary bound to [MAT_STRUCTURE] and the one [struct] refers to
    hold the same items after the call. *)
Theorem parse_mat_no_side_effects mat_file name io_system struct σ :
  let σ' := (parse_mat mat_file name io_system struct σ).2 in
  untouched σ σ' ∧
  (∃ new, st_events σ' = st_events σ ++ new ∧
          reads_only (normpath mat_file) new) ∧
  same_global σ σ' "MAT_STRUCTURE" ∧
  same_dict σ σ' struct.
Proof.
  intros σ'.
  destruct (parse_mat_frame mat_file name io_system struct σ)
    as [Hun Hev].
  fold σ' in Hun, Hev.
  split; [done|]. split; [done|]. split; [split|].
  - by destruct Hun as [-> _].
  - intros v _. by apply untouched_same_dict.
  - by apply untouched_same_dict.
Qed.


(** C7.  Two containers that differ only in how their data section
    encodes its values, each matrix dense or sparse with the same shape
    and the same value in every cell, give the same outcome: the same
    return value or exception, the same objects and the same trace.  And
    when they return, the dense conversion has changed no value: each of
    the four numeric tables of the returned object has the shape of the
    stored matrix and holds, cell by cell, its values, those of the one
    encoding and of the other. *)
Theorem parse_mat_sparse_or_dense mat_file name io_system struct
    G h fs1 fs2 ev items c1 c2 kd km d1 d2 :
  heap_dict h struct = Ret items →
  dict_get items "data" = Ret (PStr kd) →
  dict_get items "meta" = Ret (PStr km) →
  kd ≠ km →
  fs1 (normpath mat_file) = Ret c1 →
  fs2 (normpath mat_file) = Ret c2 →
  c1 !! kd = Some (PStruct d1) →
  c2 !! kd = Some (PStruct d2) →
  same_logical d1 d2 →
  (∀ k, k ≠ kd → c1 !! k = c2 !! k) →
  let r1 := parse_mat mat_file name io_system struct (State G h fs1 ev) in
  let r2 := parse_mat mat_file name io_system struct (State G h fs2 ev) in
  r1.1 = r2.1 ∧ st_heap r1.2 = st_heap r2.2 ∧ st_events r1.2 = st_events r2.2 ∧
  ∀ io,
    r1.1 = Ret io →
    ∃ sat,
      getattr r1.2 io "satellite" = Some sat ∧
      ∀ d,
        d = d1 ∨ d = d2 →
        table_of_stored items (PStruct d) "Z" (getattr r1.2 io "Z") ∧
        table_of_stored items (PStruct d) "Y" (getattr r1.2 io "Y") ∧
        table_of_stored items (PStruct d) "F" (getattr r1.2 sat "F") ∧
        table_of_stored items (PStruct d) "F_hh" (getattr r1.2 sat "F_hh").
Proof.
  intros Hitems Hkd Hkm Hne Hf1 Hf2 H1 H2 Hd Hrest r1 r2. subst r1 r2.
  pose proof (parse_mat_same_values mat_file name io_system struct G h fs1
                fs2 ev items c1 c2 kd km d1 d2 Hitems Hkd Hkm Hne Hf1 Hf2
                H1 H2 (same_logical_same_values _ _ Hd) Hrest)
    as (Ho & Hh & He).
  destruct (parse_mat mat_file name io_system struct (State G h fs1 ev))
    as [o1 σ1] eqn:E1.
  destruct (parse_mat mat_file name io_system struct (State G h fs2 ev))
    as [o2 σ2] eqn:E2.
  simpl in *. subst o2.
  split; [done|]. split; [done|]. split; [done|].
  intros io ->.
  apply parse_mat_Ret_values in E1
    as (a1 & i1 & ls1 & sat & Ha1 & Hi1 & Hls1 & Hsat & HZ & HY & HF & HFhh).
  apply parse_mat_Ret_values in E2
    as (a2 & i2 & ls2 & sat2 & Ha2 & Hi2 & Hls2 & Hsat2 & HZ2 & HY2 & HF2
        & HFhh2).
  simpl in *.
  rewrite Hf1 in Ha1. injection Ha1 as <-.
  rewrite Hf2 in Ha2. injection Ha2 as <-.
  rewrite Hitems in Hi1, Hi2. injection Hi1 as <-. injection Hi2 as <-.
  rewrite (parse_mat_labels_mat_io _ _ _ _ _ Hls1 Hkd H1) in *.
  rewrite (parse_mat_labels_mat_io _ _ _ _ _ Hls2 Hkd H2) in *.
  rewrite <- (getattr_heap σ1 σ2) in * by done.
  rewrite Hsat in Hsat2. injection Hsat2 as <-.
  exists sat. split; [done|]. by intros d [->| ->].
Qed.

End claims.

Section extras.
Context {Hos_path : os_path} {Hnumpy : numpy_other}.

(** A key is one of the slice keys. *)
Ltac in_slice_keys := unfold slice_keys; repeat constructor.

(** The call raised after the file was read and before anything was
    built. *)
Ltac raised_after_read :=
  simpl; unfold read_state; simpl; by rewrite <- (assoc_L (++)).

(** ** Further properties: the stressor comprehensions *)

Lemma comp_fallback_app_items empty_comp pre rest :
  Forall (λ r, has_items r.1) pre →
  comp_fallback empty_comp (pre ++ rest)
  = (cs ← comp_fallback empty_comp rest; Ret (pre.*2 ++ cs)).
Proof.
  induction 1 as [|[unit comp] pre [n Hn] _ IH]; simpl.
  - by destruct (comp_fallback empty_comp rest).
  - simpl in Hn. rewrite Hn. simpl. rewrite IH.
    by destruct (comp_fallback empty_comp rest).
Qed.

Lemma length_column j rows : length (column j rows) = length rows.
Proof. unfold column. by rewrite length_fmap. Qed.

(** Two columns sliced from the same label table have the length of the
    table. *)
Lemma column_of_table_length struct sec labels slice l ncols rows :
  column_of_table struct sec labels slice l →
  struct_field struct sec labels = Ret (PArr2 ncols rows) →
  length l = length rows.
Proof.
  intros (ncols' & rows' & k & j & Htable & _ & _ & ->) Htable'.
  rewrite Htable in Htable'. injection Htable' as _ <-. apply length_column.
Qed.

Lemma column_of_table_same_length struct sec labels slice1 slice2 l1 l2 :
  column_of_table struct sec labels slice1 l1 →
  column_of_table struct sec labels slice2 l2 →
  length l1 = length l2.
Proof.
  intros H1 (ncols & rows & k & j & Htable & _ & _ & ->).
  rewrite (column_of_table_length _ _ _ _ _ _ _ H1 Htable).
  by rewrite length_column.
Qed.

Lemma snd_zip_take {A B} (l : list A) (k : list B) :
  (zip l k).*2 = take (length l) k.
Proof. revert k. induction l; intros [|? ?]; simpl; by f_equal. Qed.

Lemma fst_zip_take {A B} (l : list A) (k : list B) :
  (zip l k).*1 = take (length k) l.
Proof. revert k. induction l; intros [|? ?]; simpl; by f_equal. Qed.

(** X1.  When every sliced stressor unit is a [str] with at least one
    character, lines 126-131 change no value, whether or not the field map
    has the key ['empty_comp']: the compartments and the units are the
    sliced lists, cut to the length of the shorter one as [zip] does; so
    they are the sliced lists themselves when these have the same
    length. *)
Theorem parse_mat_labels_clean_units struct mat_all ls :
  parse_mat_labels struct mat_all = Ret ls →
  Forall nonempty_str (_ll_stress_unit ls) →
  ll_stress_comp ls
    = take (length (_ll_stress_unit ls)) (_ll_stress_comp ls) ∧
  ll_stress_unit ls
    = take (length (_ll_stress_comp ls)) (_ll_stress_unit ls) ∧
  (length (_ll_stress_unit ls) = length (_ll_stress_comp ls) →
   ll_stress_comp ls = _ll_stress_comp ls ∧
   ll_stress_unit ls = _ll_stress_unit ls).
Proof.
  intros Hls Hclean.
  destruct (parse_mat_labels_Ret _ _ _ Hls)
    as (_ & _ & _ & _ & _ & _ & _ & _ & _ & Hfall & Hunits).
  assert (Forall (λ r : pyval * pyval, nonempty_str r.1)
            (zip (_ll_stress_unit ls) (_ll_stress_comp ls))) as Hrows.
  { apply Forall_forall. intros [u c] Hin.
    apply elem_of_zip_l in Hin. by eapply Forall_forall in Hclean. }
  assert (ll_stress_comp ls
          = take (length (_ll_stress_unit ls)) (_ll_stress_comp ls)) as Hc.
  { rewrite <- (app_nil_r (zip _ _)) in Hfall.
    rewrite comp_fallback_app_items in Hfall.
    - simpl in Hfall. injection Hfall as <-.
      rewrite app_nil_r. apply snd_zip_take.
    - eapply Forall_impl; [exact Hrows|].
      intros r Hr. by apply nonempty_str_has_items. }
  assert (ll_stress_unit ls
          = take (length (_ll_stress_comp ls)) (_ll_stress_unit ls)) as Hu.
  { rewrite Hunits, <- fst_zip_take. unfold unit_fallback.
    apply Forall_fmap_ext, (Forall_impl _ _ _ Hrows).
    intros [u c] Hr. simpl in *. by rewrite (nonempty_str_is_str u). }
  split; [done|]. split; [done|].
  intros Hlen. rewrite Hc, Hu, Hlen.
  by rewrite <- Hlen at 2; rewrite !firstn_all.
Qed.

(** X2.  The field map needs the key ['empty_comp'] as soon as one
    stressor unit is empty: if the rows before it have units with a length
    that is not zero, the comprehension of lines 126-128 raises what
    [struct['empty_comp']] raises, which is [KeyError] for a missing
    key. *)
Theorem comp_fallback_missing_sentinel e pre unit comp post :
  Forall (λ r, has_items r.1) pre →
  py_len unit = Ret 0%nat →
  comp_fallback (Raise e) (pre ++ (unit, comp) :: post) = Raise e.
Proof.
  intros Hpre Hunit. rewrite comp_fallback_app_items by done.
  simpl. by rewrite Hunit.
Qed.

(** X3.  A stressor unit that has no length, such as a number, makes the
    comprehension of lines 126-128 raise the error of [len], whatever the
    sentinel is and whatever the rows after it hold. *)
Theorem comp_fallback_unit_without_len empty_comp e pre unit comp post :
  Forall (λ r, has_items r.1) pre →
  py_len unit = Raise e →
  comp_fallback empty_comp (pre ++ (unit, comp) :: post) = Raise e.
Proof.
  intros Hpre Hunit. rewrite comp_fallback_app_items by done.
  simpl. by rewrite Hunit.
Qed.

(** ** Further properties: keys and shapes *)

Lemma dict_get_Ret d k v : dict_get d k = Ret v → d !! k = Some v.
Proof. unfold dict_get. destruct (d !! k); [by intros [= ->]|done]. Qed.

Lemma dict_get_None d k : d !! k = None → dict_get d k = Raise (KeyError (PStr k)).
Proof. unfold dict_get. by intros ->. Qed.

Lemma dict_get_Some d k v : d !! k = Some v → dict_get d k = Ret v.
Proof. unfold dict_get. by intros ->. Qed.

Lemma struct_field_Ret_key struct sec key v :
  struct_field struct sec key = Ret v → is_Some (struct !! key).
Proof.
  unfold struct_field. intros Hv.
  apply outcome_bind_Ret in Hv as (d & _ & Hv).
  apply outcome_bind_Ret in Hv as (k & Hk & _).
  apply dict_get_Ret in Hk. by exists k.
Qed.

Lemma label_column_Ret_keys struct sec labels slice l :
  label_column struct sec labels slice = Ret l →
  is_Some (struct !! labels) ∧ is_Some (struct !! slice).
Proof.
  unfold label_column. intros Hl.
  apply outcome_bind_Ret in Hl as (table & Htable & Hl).
  apply outcome_bind_Ret in Hl as (idx & Hidx & _).
  split; [by eapply struct_field_Ret_key|].
  apply dict_get_Ret in Hidx. by exists idx.
Qed.

(** A second look at a successful run of lines 133-192: the index lists
    pair up, and each table is the table of its matrix. *)
(** The table of a stored matrix exists only if the matrix has the shape
    the two indexes give. *)
Lemma matrix_frame_Ret_shape G struct sec key index columns f m r k :
  matrix_frame G struct sec key index columns = Ret f →
  struct_field struct sec key = Ret m →
  matrix_shape m = Some (r, k) →
  index_len index = Ret r ∧ index_len columns = Ret k.
Proof.
  unfold matrix_frame. intros Hf Hm Hshape. rewrite Hm in Hf. simpl in Hf.
  apply outcome_bind_Ret in Hf as (d & Hd & Hf).
  apply densify_Ret in Hd as ->.
  apply outcome_bind_Ret in Hf as (_ & _ & Hf).
  unfold DataFrame in Hf.
  apply outcome_bind_Ret in Hf as (n & Hn & Hf).
  apply outcome_bind_Ret in Hf as (q & Hq & Hf).
  rewrite Hn, Hq.
  destruct m as [| | | | | | |ncols rows|nrows ncols entries| | | | |];
    try done; simpl in Hf, Hshape; injection Hshape as <- <-;
    case_decide as Hs; try done; destruct Hs as [<- <-]; [done|].
  unfold dense_rows. by rewrite length_fmap, length_seq.
Qed.

(** A stored matrix of another shape than the indexes give makes
    [pd.DataFrame] raise [ValueError]. *)
Lemma matrix_frame_shape_mismatch G struct sec key index columns m r k n q :
  (∃ v, lookup_name G "scipy" = Ret v) →
  (∃ v, lookup_name G "pd" = Ret v) →
  struct_field struct sec key = Ret m →
  matrix_shape m = Some (r, k) →
  index_len index = Ret n →
  index_len columns = Ret q →
  (r, k) ≠ (n, q) →
  matrix_frame G struct sec key index columns = Raise ValueError.
Proof.
  intros [? Hscipy] [? Hpd] Hm Hshape Hn Hq Hne.
  unfold matrix_frame. rewrite Hm. simpl. rewrite densify_eq, Hscipy. simpl.
  rewrite Hpd. simpl. unfold DataFrame. rewrite Hn, Hq. simpl.
  destruct m as [| | | | | | |ncols rows|nrows ncols entries| | | | |];
    try done; simpl in *; injection Hshape as <- <-.
  - case_decide as Hs; [|done]. destruct Hs as [<- <-]. done.
  - case_decide as Hs; [|done]. destruct Hs as [Hs <-].
    unfold dense_rows in Hs. rewrite length_fmap, length_seq in Hs.
    by subst.
Qed.

Lemma label_column_IndexError struct md labels slice kl table k :
  struct !! labels = Some (PStr kl) →
  md !! kl = Some table →
  struct !! slice = Some (index_exp_col k) →
  (∃ l, table = PArr1 l)
  ∨ (∃ ncols rows, table = PArr2 ncols rows ∧ norm_index k ncols = None) →
  label_column struct (PStruct md) labels slice = Raise IndexError.
Proof.
  intros Hlabels Htable Hslice Hbad. unfold label_column, struct_field. simpl.
  rewrite (dict_get_Some _ _ _ Hlabels). simpl.
  rewrite (dict_get_Some _ _ _ Htable). simpl.
  rewrite (dict_get_Some _ _ _ Hslice). simpl.
  destruct Hbad as [[l ->]|(ncols & rows & -> & Hk)]; simpl; [done|].
  by rewrite Hk.
Qed.

(** ** Further properties: the call *)


Lemma parse_mat_tables_pd G struct mat_all t :
  parse_mat_tables G struct mat_all = Ret t → ∃ v, lookup_name G "pd" = Ret v.
Proof.
  unfold parse_mat_tables. intros Ht.
  apply outcome_bind_Ret in Ht as (ls & _ & Ht).
  unfold parse_mat_frames in Ht.
  apply outcome_bind_Ret in Ht as (v & Hv & _). by exists v.
Qed.

(** X4.  A call returns only if the namespace binds every global name the
    function loads: [os], [logging], [scipy], [pd], [IOSystem],
    [Extension] and [MRIOMetaData]. *)
Theorem parse_mat_Ret_names mat_file name io_system struct σ io σ' x :
  parse_mat mat_file name io_system struct σ = (Ret io, σ') →
  x ∈ required_names →
  ∃ v, lookup_name (st_globals σ) x = Ret v.
Proof.
  destruct σ as [G h fs ev]. rewrite parse_mat_run. simpl.
  destruct (lookup_name G "os") as [v1|] eqn:H1; [|done].
  destruct (lookup_name G "logging") as [v2|] eqn:H2; [|done].
  destruct (lookup_name G "scipy") as [v3|] eqn:H3; [|done].
  destruct (fs (normpath mat_file)) as [mat_all|]; [|done].
  destruct (heap_dict h struct) as [items|]; [|done].
  destruct (parse_mat_tables G items mat_all) as [t|] eqn:Ht; [|done].
  destruct (lookup_name G "IOSystem") as [v4|] eqn:H4; [|done].
  destruct (lookup_name G "Extension") as [v5|] eqn:H5; [|done].
  destruct (lookup_name G "MRIOMetaData") as [v6|] eqn:H6; [|done].
  intros _ Hx. apply parse_mat_tables_pd in Ht.
  unfold required_names in Hx.
  repeat (apply elem_of_cons in Hx as [->|Hx]); eauto.
  by apply elem_of_nil in Hx.
Qed.

(** X5.  A call returns only if the field map has every key of
    [required_keys]: with one of them missing there is no return value,
    whatever the file holds. *)
Theorem parse_mat_needs_every_key mat_file name io_system struct σ items k :
  k ∈ required_keys →
  heap_dict (st_heap σ) struct = Ret items →
  items !! k = None →
  ∃ e, (parse_mat mat_file name io_system struct σ).1 = Raise e.
Proof.
  intros Hk Hitems Hnone.
  destruct (parse_mat mat_file name io_system struct σ) as [[io|e] σ']
    eqn:Hrun; [exfalso|by exists e].
  apply parse_mat_Ret in Hrun
    as (mat_all & items' & ls & t & _ & Hitems' & Hls & Ht & _).
  rewrite Hitems in Hitems'. injection Hitems' as <-.
  destruct (parse_mat_labels_Ret _ _ _ Hls)
    as ((kd & Hkd%dict_get_Ret & _) & (km & Hkm%dict_get_Ret & _)
        & [? ?]%label_column_Ret_keys & [_ ?]%label_column_Ret_keys
        & [? ?]%label_column_Ret_keys & [_ ?]%label_column_Ret_keys
        & [? ?]%label_column_Ret_keys & [_ ?]%label_column_Ret_keys
        & [_ ?]%label_column_Ret_keys & _).
  destruct (parse_mat_frames_Ret _ _ _ _ Ht)
    as (?%struct_field_Ret_key & ?%struct_field_Ret_key
        & [_ (? & ? & ? & ?%struct_field_Ret_key & _)]
        & [_ (? & ? & ? & ?%struct_field_Ret_key & _)]
        & [_ (? & ? & ? & ?%struct_field_Ret_key & _)]
        & [_ (? & ? & ? & ?%struct_field_Ret_key & _)] & _).
  destruct (parse_mat_frames_Ret_matrices _ _ _ _ Ht)
    as (_ & _ & _ & _ & _ & (? & ?%struct_field_Ret_key)).
  assert (is_Some (items !! k)) as [v Hv]; [|congruence].
  unfold required_keys in Hk.
  repeat (apply elem_of_cons in Hk as [->|Hk]); eauto.
  by apply elem_of_nil in Hk.
Qed.

(** X6.  When [loadmat] raises, for a file that is missing or is no mat
    file, the call raises the same exception; by then it has written one
    debug record and tried the normalised path once, and it has built
    nothing. *)
Theorem parse_mat_unreadable_file mat_file name io_system struct σ e :
  opens_file (st_globals σ) →
  st_files σ (normpath mat_file) = Raise e →
  parse_mat mat_file name io_system struct σ
  = (Raise e, read_state mat_file σ).
Proof.
  destruct σ as [G h fs ev]. intros ([? Hos] & [? Hlog] & [? Hsp]) Hfile.
  simpl in *. rewrite parse_mat_run, Hos, Hlog, Hsp, Hfile.
  unfold read_state. simpl. by rewrite <- (assoc_L (++)).
Qed.

(** X7.  A field map without the key ['data'] makes the call raise
    [KeyError] for ['data'] at line 104, after the file was read. *)
Theorem parse_mat_missing_data_key mat_file name io_system struct σ c items :
  opens_file (st_globals σ) →
  st_files σ (normpath mat_file) = Ret c →
  heap_dict (st_heap σ) struct = Ret items →
  items !! "data" = None →
  parse_mat mat_file name io_system struct σ
  = (Raise (KeyError (PStr "data")), read_state mat_file σ).
Proof.
  destruct σ as [G h fs ev].
  intros ([? Hos] & [? Hlog] & [? Hsp]) Hfile Hitems Hdata.
  simpl in *. rewrite parse_mat_run, Hos, Hlog, Hsp, Hfile, Hitems.
  unfold parse_mat_tables, parse_mat_labels.
  rewrite (dict_get_None _ _ Hdata). simpl.
  unfold read_state. simpl. by rewrite <- (assoc_L (++)).
Qed.

(** X8.  A container without the section the field map names as its data
    section makes the call raise [KeyError] for the name of that section at
    line 104, after the file was read. *)
Theorem parse_mat_missing_section mat_file name io_system struct σ c items kd :
  opens_file (st_globals σ) →
  st_files σ (normpath mat_file) = Ret c →
  heap_dict (st_heap σ) struct = Ret items →
  items !! "data" = Some (PStr kd) →
  c !! kd = None →
  parse_mat mat_file name io_system struct σ
  = (Raise (KeyError (PStr kd)), read_state mat_file σ).
Proof.
  destruct σ as [G h fs ev].
  intros ([? Hos] & [? Hlog] & [? Hsp]) Hfile Hitems Hdata Hsec.
  simpl in *. rewrite parse_mat_run, Hos, Hlog, Hsp, Hfile, Hitems.
  unfold parse_mat_tables, parse_mat_labels.
  rewrite (dict_get_Some _ _ _ Hdata). simpl.
  rewrite (dict_get_None _ _ Hsec). simpl.
  unfold read_state. simpl. by rewrite <- (assoc_L (++)).
Qed.

(** X9.  The monetary label table must have two dimensions and the column
    that ['mon_sec_slice'] selects: a table of one dimension, which is what
    [squeeze_me=True] makes of the table of a single label, or a table with
    too few columns makes the call raise [IndexError] at line 107. *)
Theorem parse_mat_label_table_IndexError
    mat_file name io_system struct σ c items kd km dv md kl table k :
  opens_file (st_globals σ) →
  st_files σ (normpath mat_file) = Ret c →
  heap_dict (st_heap σ) struct = Ret items →
  items !! "data" = Some (PStr kd) →
  c !! kd = Some dv →
  items !! "meta" = Some (PStr km) →
  c !! km = Some (PStruct md) →
  items !! "mon_labels" = Some (PStr kl) →
  md !! kl = Some table →
  items !! "mon_sec_slice" = Some (index_exp_col k) →
  (∃ l, table = PArr1 l)
  ∨ (∃ ncols rows, table = PArr2 ncols rows ∧ norm_index k ncols = None) →
  parse_mat mat_file name io_system struct σ
  = (Raise IndexError, read_state mat_file σ).
Proof.
  destruct σ as [G h fs ev].
  intros ([? Hos] & [? Hlog] & [? Hsp]) Hfile Hitems Hdata Hdv Hmeta Hmd
    Hlabels Htable Hslice Hbad.
  simpl in *. rewrite parse_mat_run, Hos, Hlog, Hsp, Hfile, Hitems.
  unfold parse_mat_tables, parse_mat_labels.
  rewrite (dict_get_Some _ _ _ Hdata). simpl.
  rewrite (dict_get_Some _ _ _ Hdv). simpl.
  rewrite (dict_get_Some _ _ _ Hmeta). simpl.
  rewrite (dict_get_Some _ _ _ Hmd). simpl.
  rewrite (label_column_IndexError items md "mon_labels" "mon_sec_slice"
             kl table k) by done.
  simpl. unfold read_state. simpl. by rewrite <- (assoc_L (++)).
Qed.

Lemma index_len_pairs names a b :
  length a = length b →
  index_len (PMultiIndex names (label_pairs a b)) = Ret (length a).
Proof. intros Hlen. simpl. by rewrite length_label_pairs. Qed.

(** X10.  With column selectors as slice specifications, as in
    [MAT_STRUCTURE], a call returns only if the stored matrices have the
    shapes of the label tables of the file: the three label tables have
    two dimensions, and with [n], [m] and [s] their numbers of rows (the
    monetary, the final-demand and the stressor table) a [Z] stored dense
    or sparse is [n] by [n], [Y] is [n] by [m], [F] is [s] by [n] and
    [F_hh] is [s] by [m]. *)
Theorem parse_mat_shapes_match_tables
    mat_file name io_system struct σ io σ' items :
  parse_mat mat_file name io_system struct σ = (Ret io, σ') →
  heap_dict (st_heap σ) struct = Ret items →
  column_slices items →
  ∃ mat_all ls n m s,
    st_files σ (normpath mat_file) = Ret mat_all ∧
    parse_mat_labels items mat_all = Ret ls ∧
    table_rows_is items (mat_meta ls) "mon_labels" n ∧
    table_rows_is items (mat_meta ls) "fd_labels" m ∧
    table_rows_is items (mat_meta ls) "stress_labels" s ∧
    stored_shape_is items (mat_io ls) "Z" n n ∧
    stored_shape_is items (mat_io ls) "Y" n m ∧
    stored_shape_is items (mat_io ls) "F" s n ∧
    stored_shape_is items (mat_io ls) "F_hh" s m.
Proof.
  intros Hrun Hitems Hcs. apply parse_mat_Ret in Hrun
    as (mat_all & items' & ls & t & Hfile & Hitems' & Hls & Ht & _).
  rewrite Hitems in Hitems'. injection Hitems' as <-.
  destruct (parse_mat_labels_Ret _ _ _ Hls)
    as (_ & _ & _ & Hreg & _ & Hfd & Hnames & _).
  apply label_column_Ret in Hreg; [|apply Hcs; in_slice_keys].
  apply label_column_Ret in Hfd; [|apply Hcs; in_slice_keys].
  apply label_column_Ret in Hnames; [|apply Hcs; in_slice_keys].
  destruct (parse_mat_frames_Ret_matrices _ _ _ _ Ht)
    as ((Hl1 & Hl2 & Hl3) & HZ & HY & HF & HFhh & _).
  pose proof Hreg as (c1 & rows1 & ? & ? & Ht1 & _ & _ & Hreg').
  pose proof Hfd as (c2 & rows2 & ? & ? & Ht2 & _ & _ & Hfd').
  pose proof Hnames as (c3 & rows3 & ? & ? & Ht3 & _ & _ & Hnames').
  assert (index_len (mon_index ls) = Ret (length rows1)) as Hmon.
  { unfold mon_index. rewrite index_len_pairs by done.
    by rewrite Hreg', length_column. }
  assert (index_len (fd_index ls) = Ret (length rows2)) as Hfdi.
  { unfold fd_index. rewrite index_len_pairs by done.
    by rewrite Hfd', length_column. }
  assert (index_len (stress_index ls) = Ret (length rows3)) as Hst.
  { unfold stress_index. rewrite index_len_pairs by done.
    by rewrite Hnames', length_column. }
  exists mat_all, ls, (length rows1), (length rows2), (length rows3).
  split; [done|]. split; [done|].
  split; [by exists c1, rows1|]. split; [by exists c2, rows2|].
  split; [by exists c3, rows3|].
  repeat split; intros mx [r k] Hm Hshape;
    match goal with
    | Hf : matrix_frame _ _ _ ?key _ _ = Ret _,
      Hm : struct_field _ _ ?key = Ret _ |- _ =>
        destruct (matrix_frame_Ret_shape _ _ _ _ _ _ _ _ _ _ Hf Hm Hshape)
          as [Hr Hk]
    end; congruence.
Qed.

(** X11.  With [logging] bound the body does detect a flow matrix of the
    wrong shape: when the labels were read and indexed, the version and
    the year are there and the stored [Z], dense or sparse, has not as many
    rows and columns as there are monetary labels, the call raises
    [ValueError] at line 149, having built nothing. *)
Theorem parse_mat_Z_shape_mismatch
    mat_file name io_system struct σ c items ls v y m r k :
  opens_file (st_globals σ) →
  (∃ pd, lookup_name (st_globals σ) "pd" = Ret pd) →
  st_files σ (normpath mat_file) = Ret c →
  heap_dict (st_heap σ) struct = Ret items →
  parse_mat_labels items c = Ret ls →
  forallb hashable (ll_reg ls ++ ll_sec ls) = true →
  forallb hashable (ll_fd_reg ls ++ ll_fd_cat ls) = true →
  forallb hashable (ll_stress_names ls ++ ll_stress_comp ls) = true →
  struct_field items (mat_meta ls) "version" = Ret v →
  struct_field items (mat_meta ls) "year" = Ret y →
  struct_field items (mat_io ls) "Z" = Ret m →
  matrix_shape m = Some (r, k) →
  (r, k) ≠ (length (ll_reg ls), length (ll_reg ls)) →
  parse_mat mat_file name io_system struct σ
  = (Raise ValueError, read_state mat_file σ).
Proof.
  destruct σ as [G h fs ev].
  intros ([? Hos] & [? Hlog] & [? Hsp]) [? Hpd] Hfile Hitems Hls Hh1 Hh2 Hh3
    Hver Hyear HZ Hshape Hne.
  simpl in *. rewrite parse_mat_run, Hos, Hlog, Hsp, Hfile, Hitems.
  unfold parse_mat_tables. rewrite Hls. simpl.
  unfold parse_mat_frames, MultiIndex_from_arrays.
  rewrite Hpd. simpl.
  destruct (decide (length (ll_reg ls) = length (ll_sec ls))) as [Hl1|_];
    [|raised_after_read].
  rewrite Hh1. simpl.
  destruct (decide (length (ll_fd_reg ls) = length (ll_fd_cat ls)))
    as [Hl2|_]; [|raised_after_read].
  rewrite Hh2. simpl.
  destruct (decide (length (ll_stress_names ls)
                    = length (ll_stress_comp ls))) as [Hl3|_];
    [|raised_after_read].
  rewrite Hh3. simpl.
  rewrite Hver, Hyear. simpl.
  fold (mon_index ls).
  rewrite (matrix_frame_shape_mismatch G items (mat_io ls) "Z" (mon_index ls)
             (mon_index ls) m r k (length (ll_reg ls)) (length (ll_reg ls)));
    try done; eauto using index_len_pairs.
  raised_after_read.
Qed.

(** X12.  Of the loaded container the call uses the two sections the field
    map names and nothing else: two files that agree on these two give the
    same outcome, the same objects and the same trace. *)
Theorem parse_mat_reads_two_sections mat_file name io_system struct
    G h fs1 fs2 ev items c1 c2 :
  heap_dict h struct = Ret items →
  fs1 (normpath mat_file) = Ret c1 →
  fs2 (normpath mat_file) = Ret c2 →
  (∀ k, dict_get items "data" = Ret k →
        dict_getitem c1 k = dict_getitem c2 k) →
  (∀ k, dict_get items "meta" = Ret k →
        dict_getitem c1 k = dict_getitem c2 k) →
  let r1 := parse_mat mat_file name io_system struct (State G h fs1 ev) in
  let r2 := parse_mat mat_file name io_system struct (State G h fs2 ev) in
  r1.1 = r2.1 ∧ st_heap r1.2 = st_heap r2.2 ∧ st_events r1.2 = st_events r2.2.
Proof.
  intros Hitems Hf1 Hf2 Hdata Hmeta r1 r2.
  subst r1 r2. rewrite !parse_mat_run. simpl. rewrite Hf1, Hf2, Hitems.
  assert (parse_mat_tables G items c1 = parse_mat_tables G items c2) as ->.
  { unfold parse_mat_tables, parse_mat_labels.
    destruct (dict_get items "data") as [kd|]; [simpl|done].
    rewrite (Hdata kd eq_refl).
    destruct (dict_getitem c2 kd); [simpl|done].
    destruct (dict_get items "meta") as [km|]; [simpl|done].
    by rewrite (Hmeta km eq_refl). }
  repeat
    match goal with
    | |- context [match ?o with Ret _ => _ | Raise _ => _ end] =>
        destruct o
    end; done.
Qed.

(** X13.  A call that returns has read the file exactly once: the first
    two events it adds to the trace are its debug record of the read and
    the read of the normalised path, and no later event is a read.  The
    object it returns did not exist before the call. *)
Theorem parse_mat_reads_once mat_file name io_system struct σ io σ' :
  parse_mat mat_file name io_system struct σ = (Ret io, σ') →
  (∃ l, io = PRef l ∧ st_heap σ !! l = None ∧ is_Some (st_heap σ' !! l)) ∧
  ∃ rest,
    st_events σ' =
      st_events σ ++
        msg_read (normpath mat_file) :: EvLoadmat (normpath mat_file)
        :: rest ∧
    Forall (λ e, is_read e = false) rest.
Proof.
  intros Hrun. apply parse_mat_Ret in Hrun
    as (mat_all & items & ls & t & _ & _ & _ & _ & -> & ->).
  split.
  - exists (length (st_heap σ)). split; [done|].
    split; [by apply lookup_ge_None_2|].
    rewrite final_state_io. by eexists.
  - exists [msg_build; msg_extension]. split; [done|]. by repeat constructor.
Qed.

Lemma untouched_getattr σ σ' l a :
  untouched σ σ' →
  (l < length (st_heap σ))%nat →
  getattr σ' (PRef l) a = getattr σ (PRef l) a.
Proof.
  intros (_ & _ & k & Hk) Hl. unfold getattr. rewrite Hk.
  by rewrite lookup_app_l.
Qed.

(** X14.  Two calls in a row give two objects: the second call returns
    another reference than the first, and it leaves every attribute of the
    first object and of its satellite account as the first call set
    them. *)
Theorem parse_mat_twice mat_file1 name1 io_system1 struct1
    mat_file2 name2 io_system2 struct2 σ io1 σ1 io2 σ2 :
  parse_mat mat_file1 name1 io_system1 struct1 σ = (Ret io1, σ1) →
  parse_mat mat_file2 name2 io_system2 struct2 σ1 = (Ret io2, σ2) →
  io1 ≠ io2 ∧
  (∀ a, getattr σ2 io1 a = getattr σ1 io1 a) ∧
  ∃ sat, getattr σ1 io1 "satellite" = Some sat ∧
         sat ≠ io2 ∧
         ∀ a, getattr σ2 sat a = getattr σ1 sat a.
Proof.
  intros Hrun1 Hrun2.
  pose proof (parse_mat_frame mat_file2 name2 io_system2 struct2 σ1)
    as [Hun _].
  rewrite Hrun2 in Hun. simpl in Hun.
  assert (io2 = PRef (length (st_heap σ1))) as ->.
  { by apply parse_mat_Ret in Hrun2
      as (? & ? & ? & ? & _ & _ & _ & _ & -> & _). }
  apply parse_mat_Ret in Hrun1
    as (mat_all & items & ls & t & _ & _ & _ & _ & -> & ->).
  pose proof (final_state_io mat_file1 name1 io_system1 t σ) as Hio.
  assert (length (st_heap (final_state mat_file1 name1 io_system1 t σ))
          = S (S (S (length (st_heap σ))))) as Hlen.
  { unfold final_state. simpl. rewrite length_app. simpl. lia. }
  set (σ1 := final_state mat_file1 name1 io_system1 t σ) in *. clearbody σ1.
  rewrite Hlen. split; [intros [= Heq]; lia|].
  split; [intros a; apply untouched_getattr; [done|lia]|].
  exists (PRef (S (length (st_heap σ)))).
  split; [unfold getattr; rewrite Hio; apply lookup_insert_eq|].
  split; [intros [= Heq]; lia|].
  intros a. apply untouched_getattr; [done|lia].
Qed.

(** X15.  The name of a returned object is the argument [name]; its
    version and its year are the values the meta section of the file holds
    under [struct['version']] and [struct['year']]. *)
Theorem parse_mat_name_version_year mat_file name io_system struct σ io σ' :
  parse_mat mat_file name io_system struct σ = (Ret io, σ') →
  getattr σ' io "name" = Some name ∧
  ∃ mat_all items ls version year,
    st_files σ (normpath mat_file) = Ret mat_all ∧
    heap_dict (st_heap σ) struct = Ret items ∧
    parse_mat_labels items mat_all = Ret ls ∧
    struct_field items (mat_meta ls) "version" = Ret version ∧
    getattr σ' io "version" = Some version ∧
    struct_field items (mat_meta ls) "year" = Ret year ∧
    getattr σ' io "year" = Some year.
Proof.
  intros Hrun. apply parse_mat_Ret in Hrun
    as (mat_all & items & ls & t & Hfile & Hitems & Hls & Ht & -> & ->).
  destruct (parse_mat_frames_Ret _ _ _ _ Ht) as (Hver & Hyear & _).
  pose proof (final_state_io mat_file name io_system t σ) as Hio.
  set (σ' := final_state mat_file name io_system t σ) in *. clearbody σ'.
  unfold getattr. rewrite Hio. split; [done|].
  by exists mat_all, items, ls, (ss_version t), (ss_year t).
Qed.

(** ** Further properties: when the call returns *)

Lemma struct_field_stored struct d key v :
  stored_under struct d key v → struct_field struct (PStruct d) key = Ret v.
Proof.
  intros (k & Hk & Hv). unfold struct_field. simpl.
  rewrite (dict_get_Some _ _ _ Hk). simpl. by apply dict_get_Some.
Qed.

Lemma label_column_selected struct md labels slice ncols rows j :
  stored_under struct md labels (PArr2 ncols rows) →
  selects struct slice ncols j →
  label_column struct (PStruct md) labels slice = Ret (column j rows).
Proof.
  intros Ht (k & Hk & Hj). unfold label_column.
  rewrite (struct_field_stored _ _ _ _ Ht). simpl.
  rewrite (dict_get_Some _ _ _ Hk). simpl. by rewrite Hj.
Qed.

Lemma comp_fallback_returns struct units comps :
  Forall (unit_ok struct) units →
  ∃ cs,
    comp_fallback (dict_get struct "empty_comp") (zip units comps) = Ret cs.
Proof.
  intros Hu. revert comps.
  induction Hu as [|u units (n & Hn & He) _ IH]; intros [|c comps]; simpl;
    try by eexists.
  rewrite Hn. simpl. destruct (IH comps) as [cs Hcs]. rewrite Hcs.
  case_decide as H0; [|by eexists].
  destruct (He H0) as [v Hv]. rewrite (dict_get_Some _ _ _ Hv). by eexists.
Qed.

(** X16.  Lines 104-131 succeed on every container of the expected form:
    the two sections are there, the meta section holds the three label
    tables with two dimensions, every slice of the field map selects a
    column its table has, and every stressor unit has a length, the field
    map having the sentinel when one of them is empty.  The label lists
    are then the selected columns. *)
Theorem parse_mat_labels_returns struct c io md nz rz ny ry nf rf
    jsec jreg jcat jfreg jname jcomp junit :
  stored_under struct c "data" io →
  stored_under struct c "meta" (PStruct md) →
  stored_under struct md "mon_labels" (PArr2 nz rz) →
  selects struct "mon_sec_slice" nz jsec →
  selects struct "mon_reg_slice" nz jreg →
  stored_under struct md "fd_labels" (PArr2 ny ry) →
  selects struct "fd_cat_slice" ny jcat →
  selects struct "fd_reg_slice" ny jfreg →
  stored_under struct md "stress_labels" (PArr2 nf rf) →
  selects struct "stress_name_slice" nf jname →
  selects struct "stress_comp_slice" nf jcomp →
  selects struct "stress_unit_slice" nf junit →
  Forall (unit_ok struct) (column junit rf) →
  ∃ ls,
    parse_mat_labels struct c = Ret ls ∧
    mat_io ls = io ∧ mat_meta ls = PStruct md ∧
    ll_sec ls = column jsec rz ∧ ll_reg ls = column jreg rz ∧
    ll_fd_cat ls = column jcat ry ∧ ll_fd_reg ls = column jfreg ry ∧
    ll_stress_names ls = column jname rf ∧
    _ll_stress_comp ls = column jcomp rf ∧
    _ll_stress_unit ls = column junit rf.
Proof.
  intros (kd & Hkd & Hio) (km & Hkm & Hmeta) Hz Hsec Hreg Hy Hcat Hfreg
    Hf Hname Hcomp Hunit Hunits.
  destruct (comp_fallback_returns struct _ (column jcomp rf) Hunits)
    as [cs Hcs].
  unfold parse_mat_labels.
  rewrite (dict_get_Some _ _ _ Hkd). simpl.
  rewrite (dict_get_Some _ _ _ Hio). simpl.
  rewrite (dict_get_Some _ _ _ Hkm). simpl.
  rewrite (dict_get_Some _ _ _ Hmeta). simpl.
  rewrite (label_column_selected _ _ _ _ _ _ _ Hz Hsec). simpl.
  rewrite (label_column_selected _ _ _ _ _ _ _ Hz Hreg). simpl.
  rewrite (label_column_selected _ _ _ _ _ _ _ Hy Hcat). simpl.
  rewrite (label_column_selected _ _ _ _ _ _ _ Hy Hfreg). simpl.
  rewrite (label_column_selected _ _ _ _ _ _ _ Hf Hname). simpl.
  rewrite (label_column_selected _ _ _ _ _ _ _ Hf Hcomp). simpl.
  rewrite (label_column_selected _ _ _ _ _ _ _ Hf Hunit). simpl.
  rewrite Hcs. simpl. eexists. split; [done|]. by repeat split.
Qed.

Lemma length_stress_unit struct c ls :
  parse_mat_labels struct c = Ret ls →
  length (ll_stress_unit ls) = length (ll_stress_comp ls).
Proof.
  intros Hls.
  destruct (parse_mat_labels_Ret _ _ _ Hls)
    as (_ & _ & _ & _ & _ & _ & _ & _ & _ & Hfall & Hunits).
  apply comp_fallback_Ret in Hfall as [Hlen _].
  rewrite Hlen, Hunits. unfold unit_fallback. by rewrite length_fmap.
Qed.

Lemma matrix_frame_returns G struct sec key index columns m r k :
  (∃ v, lookup_name G "scipy" = Ret v) →
  (∃ v, lookup_name G "pd" = Ret v) →
  struct_field struct sec key = Ret m →
  matrix_shape m = Some (r, k) →
  index_len index = Ret r →
  index_len columns = Ret k →
  ∃ f, matrix_frame G struct sec key index columns = Ret f.
Proof.
  intros [? Hscipy] [? Hpd] Hm Hshape Hn Hq.
  unfold matrix_frame. rewrite Hm. simpl. rewrite densify_eq, Hscipy. simpl.
  rewrite Hpd. simpl. unfold DataFrame. rewrite Hn, Hq. simpl.
  destruct m as [| | | | | | |ncols rows|nrows ncols entries| | | | |];
    try done; simpl in *; injection Hshape as <- <-.
  - rewrite decide_True by done. by eexists.
  - rewrite decide_True; [by eexists|].
    unfold dense_rows. by rewrite length_fmap, length_seq.
Qed.

(** X17.  The call returns on every input of the expected form: the
    namespace binds the names the function loads to the libraries and
    classes, the file can be read, lines 104-131 gave the label lists,
    the two lists of each label pair have the same length and hold
    hashable labels, the units of the stressors are strings, the meta
    section holds the version and the year, the four matrices are stored,
    dense or sparse, with the shapes the label lists give, and the
    monetary units are an array of one dimension with one unit per
    monetary label. *)
Theorem parse_mat_returns
    mat_file name io_system struct σ c items ls v y mZ mY mF mF_hh units :
  library_names (st_globals σ) →
  st_files σ (normpath mat_file) = Ret c →
  heap_dict (st_heap σ) struct = Ret items →
  parse_mat_labels items c = Ret ls →
  length (ll_reg ls) = length (ll_sec ls) →
  length (ll_fd_reg ls) = length (ll_fd_cat ls) →
  length (ll_stress_names ls) = length (ll_stress_comp ls) →
  forallb hashable (ll_reg ls ++ ll_sec ls) = true →
  forallb hashable (ll_fd_reg ls ++ ll_fd_cat ls) = true →
  forallb hashable (ll_stress_names ls ++ ll_stress_comp ls) = true →
  Forall (λ u, type_is_str u = true) (ll_stress_unit ls) →
  struct_field items (mat_meta ls) "version" = Ret v →
  struct_field items (mat_meta ls) "year" = Ret y →
  struct_field items (mat_io ls) "Z" = Ret mZ →
  matrix_shape mZ = Some (length (ll_reg ls), length (ll_reg ls)) →
  struct_field items (mat_io ls) "Y" = Ret mY →
  matrix_shape mY = Some (length (ll_reg ls), length (ll_fd_reg ls)) →
  struct_field items (mat_io ls) "F" = Ret mF →
  matrix_shape mF = Some (length (ll_stress_names ls), length (ll_reg ls)) →
  struct_field items (mat_io ls) "F_hh" = Ret mF_hh →
  matrix_shape mF_hh
    = Some (length (ll_stress_names ls), length (ll_fd_reg ls)) →
  struct_field items (mat_meta ls) "mon_unit" = Ret (PArr1 units) →
  length units = length (ll_reg ls) →
  ∃ io σ', parse_mat mat_file name io_system struct σ = (Ret io, σ').
Proof.
  destruct σ as [G h fs ev].
  intros (Hos & Hlog & Hsp & Hpd & Hio & Hext & Hmeta) Hfile Hitems Hls
    Hl1 Hl2 Hl3 Hh1 Hh2 Hh3 _ Hver Hyear HZ HsZ HY HsY HF HsF HFhh HsFhh
    Hmon Hlen.
  simpl in *.
  pose proof (length_stress_unit _ _ _ Hls) as Hl4.
  assert (∃ w, lookup_name G "scipy" = Ret w) as Hscipy by eauto.
  assert (∃ w, lookup_name G "pd" = Ret w) as Hpandas by eauto.
  assert (index_len (mon_index ls) = Ret (length (ll_reg ls))) as Hmi
    by (by apply index_len_pairs).
  assert (index_len (fd_index ls) = Ret (length (ll_fd_reg ls))) as Hfi
    by (by apply index_len_pairs).
  assert (index_len (stress_index ls) = Ret (length (ll_stress_names ls)))
    as Hsi by (by apply index_len_pairs).
  destruct (matrix_frame_returns G items (mat_io ls) "Z" (mon_index ls)
              (mon_index ls) mZ _ _ Hscipy Hpandas HZ HsZ Hmi Hmi)
    as [fZ HfZ].
  destruct (matrix_frame_returns G items (mat_io ls) "Y" (mon_index ls)
              (fd_index ls) mY _ _ Hscipy Hpandas HY HsY Hmi Hfi)
    as [fY HfY].
  destruct (matrix_frame_returns G items (mat_io ls) "F" (stress_index ls)
              (mon_index ls) mF _ _ Hscipy Hpandas HF HsF Hsi Hmi)
    as [fF HfF].
  destruct (matrix_frame_returns G items (mat_io ls) "F_hh" (stress_index ls)
              (fd_index ls) mF_hh _ _ Hscipy Hpandas HFhh HsFhh Hsi Hfi)
    as [fFhh HfFhh].
  assert (∃ t, parse_mat_tables G items c = Ret t) as [t Ht].
  { unfold parse_mat_tables. rewrite Hls. simpl.
    unfold parse_mat_frames, MultiIndex_from_arrays.
    rewrite Hpd. simpl.
    rewrite !decide_True by done. rewrite Hh1, Hh2, Hh3. simpl.
    rewrite Hver, Hyear. simpl.
    fold (mon_index ls) (fd_index ls) (stress_index ls).
    rewrite HfZ, HfY, HfF, HfFhh. simpl. rewrite Hmon. simpl.
    unfold DataFrame. rewrite Hmi, Hsi. simpl.
    rewrite !decide_True by (split; [lia|done]). simpl. by eexists. }
  eexists _, _.
  by rewrite parse_mat_run, Hos, Hlog, Hsp, Hfile, Hitems, Ht, Hio, Hext,
    Hmeta.
Qed.

(** X18.  The call reads the field map under the twenty keys of
    [all_keys] and under no other: with two field maps that hold the same
    under these keys the call does the same, whatever else they hold. *)
Theorem parse_mat_reads_named_keys
    mat_file name io_system struct1 struct2 σ items1 items2 :
  heap_dict (st_heap σ) struct1 = Ret items1 →
  heap_dict (st_heap σ) struct2 = Ret items2 →
  same_fields items1 items2 →
  parse_mat mat_file name io_system struct1 σ
  = parse_mat mat_file name io_system struct2 σ.
Proof.
  destruct σ as [G h fs ev]. simpl. intros H1 H2 Hsame.
  assert (∀ k, k ∈ all_keys → dict_get items1 k = dict_get items2 k) as Hd.
  { intros k Hk. unfold dict_get. by rewrite (Hsame k Hk). }
  assert (∀ c, parse_mat_tables G items1 c = parse_mat_tables G items2 c)
    as Ht.
  { intros c.
    unfold parse_mat_tables, parse_mat_labels, parse_mat_frames,
      matrix_frame, label_column, struct_field.
    unfold all_keys, required_keys in Hd.
    rewrite (Hd "data"), (Hd "meta"), (Hd "mon_labels"),
      (Hd "mon_sec_slice"), (Hd "mon_reg_slice"), (Hd "fd_labels"),
      (Hd "fd_cat_slice"), (Hd "fd_reg_slice"), (Hd "stress_labels"),
      (Hd "stress_name_slice"), (Hd "stress_comp_slice"),
      (Hd "stress_unit_slice"), (Hd "empty_comp"), (Hd "version"),
      (Hd "year"), (Hd "Z"), (Hd "Y"), (Hd "F"), (Hd "F_hh"),
      (Hd "mon_unit") by (repeat constructor).
    done. }
  rewrite !parse_mat_run, H1, H2.
  destruct (lookup_name G "os"); [|done].
  destruct (lookup_name G "logging"); [|done].
  destruct (lookup_name G "scipy"); [|done].
  destruct (fs (normpath mat_file)) as [c|]; [|done].
  by rewrite Ht.
Qed.

(** X21.  With column selectors as slice specifications, as in
    [MAT_STRUCTURE], the four numeric tables of a returned object carry
    the label lists as they stand in the label tables of the file: each
    list is a column of its table in the order of the rows, and the lists
    are paired in that order to (region, sector), (region, category) and
    (stressor, compartment).  The values of each table are the rows of the
    matrix stored under its key, as they are when it is stored dense and
    cell by cell when it is stored sparse. *)
Theorem parse_mat_keeps_values_and_order
    mat_file name io_system struct σ io σ' items :
  parse_mat mat_file name io_system struct σ = (Ret io, σ') →
  heap_dict (st_heap σ) struct = Ret items →
  column_slices items →
  ∃ mat_all ls sat,
    st_files σ (normpath mat_file) = Ret mat_all ∧
    parse_mat_labels items mat_all = Ret ls ∧
    column_of_table items (mat_meta ls) "mon_labels" "mon_reg_slice"
      (ll_reg ls) ∧
    column_of_table items (mat_meta ls) "mon_labels" "mon_sec_slice"
      (ll_sec ls) ∧
    column_of_table items (mat_meta ls) "fd_labels" "fd_reg_slice"
      (ll_fd_reg ls) ∧
    column_of_table items (mat_meta ls) "fd_labels" "fd_cat_slice"
      (ll_fd_cat ls) ∧
    column_of_table items (mat_meta ls) "stress_labels" "stress_name_slice"
      (ll_stress_names ls) ∧
    getattr σ' io "satellite" = Some sat ∧
    (table_of_matrix items (mat_io ls) "Z" (getattr σ' io "Z")
       (mon_index ls) (mon_index ls) ∧
     table_of_stored items (mat_io ls) "Z" (getattr σ' io "Z")) ∧
    (table_of_matrix items (mat_io ls) "Y" (getattr σ' io "Y")
       (mon_index ls) (fd_index ls) ∧
     table_of_stored items (mat_io ls) "Y" (getattr σ' io "Y")) ∧
    (table_of_matrix items (mat_io ls) "F" (getattr σ' sat "F")
       (stress_index ls) (mon_index ls) ∧
     table_of_stored items (mat_io ls) "F" (getattr σ' sat "F")) ∧
    (table_of_matrix items (mat_io ls) "F_hh" (getattr σ' sat "F_hh")
       (stress_index ls) (fd_index ls) ∧
     table_of_stored items (mat_io ls) "F_hh" (getattr σ' sat "F_hh")).
Proof.
  intros Hrun Hitems Hcs. apply parse_mat_Ret in Hrun
    as (mat_all & items' & ls & t & Hfile & Hitems' & Hls & Ht & -> & ->).
  rewrite Hitems in Hitems'. injection Hitems' as <-.
  pose proof (parse_mat_labels_Ret _ _ _ Hls)
    as (_ & _ & Hsec & Hreg & Hcat & Hfdreg & Hnames & _).
  apply label_column_Ret in Hsec; [|apply Hcs; in_slice_keys].
  apply label_column_Ret in Hreg; [|apply Hcs; in_slice_keys].
  apply label_column_Ret in Hcat; [|apply Hcs; in_slice_keys].
  apply label_column_Ret in Hfdreg; [|apply Hcs; in_slice_keys].
  apply label_column_Ret in Hnames; [|apply Hcs; in_slice_keys].
  pose proof (parse_mat_frames_Ret _ _ _ _ Ht)
    as (_ & _ & [_ HZ] & [_ HY] & [_ HF] & [_ HFhh] & _).
  destruct (parse_mat_frames_holds _ _ _ _ Ht) as (VZ & VY & VF & VFhh).
  pose proof (final_state_io mat_file name io_system t σ) as Hio.
  pose proof (final_state_ext mat_file name io_system t σ) as Hext.
  set (σ' := final_state mat_file name io_system t σ) in *. clearbody σ'.
  exists mat_all, ls, (PRef (S (length (st_heap σ)))).
  unfold getattr. rewrite Hio, Hext.
  split; [done|]. split; [done|].
  do 5 (split; [done|]).
  split; [apply lookup_insert_eq|].
  repeat split; done.
Qed.

End extras.

(** ** Further properties: the top level of the module *)

(** X19.  The default field map of lines 22-59 has the twenty keys the
    function can read, and no other. *)
Theorem MAT_STRUCTURE_keys k :
  is_Some (MAT_STRUCTURE !! k) ↔ k ∈ all_keys.
Proof.
  rewrite <- elem_of_dom.
  assert (dom MAT_STRUCTURE = list_to_set all_keys) as ->
    by (apply (bool_decide_unpack _); vm_compute; exact I).
  apply elem_of_list_to_set.
Qed.

(** X20.  Of the global names the function loads the top level of the
    module binds all but [logging]; once [logging] is bound in the
    namespace of the module, whatever to, all of them are bound. *)
Theorem module_binds_all_but_logging h fs ev x :
  x ∈ required_names →
  ((∃ v, lookup_name (st_globals (import_module h fs ev)) x = Ret v)
   ↔ x ≠ "logging") ∧
  ∀ logging,
    ∃ v,
      lookup_name
        (st_globals (bind_global "logging" logging (import_module h fs ev))) x
      = Ret v.
Proof.
  unfold required_names. intros Hx.
  repeat (apply elem_of_cons in Hx as [->|Hx]);
    try (by apply elem_of_nil in Hx).
  all: split; [|intros v; eexists; reflexivity].
  all: split; [intros [v Hv]|intros Hne].
  all: try discriminate.
  all: try (vm_compute in Hv; discriminate).
  all: try (eexists; reflexivity).
  congruence.
Qed.

(** ** The properties on the small container *)

Import example.

(** The stressor with compartment "air" and an empty unit cell gets the
    compartment "n/a" and the unit "air". *)
Example scenario_stressor_rows :
  getattr (scenario_call 0 (patched mrio)).2 (PRef 2) "unit" =
    Some (PFrame 1 [[PStr "kg"]; [PStr "air"]; [PStr "M.EUR"]]
            (PMultiIndex ["stressor"; "compartment"]
               [PTuple [PStr "CO2"; PStr "air"];
                PTuple [PStr "CH4"; PStr "n/a"];
                PTuple [PStr "Value added"; PStr "n/a"]])
            unit_columns).
Proof. vm_compute. reflexivity. Qed.

(** In the module as it is the same call stops at line 99. *)
Lemma parse_mat_raises_NameError_witness :
  st_globals (imported mrio) = st_globals (import_module [] (files mrio) []) ∧
  scenario_call 0 (imported mrio)
  = (Raise (NameError "logging"), imported mrio).
Proof.
  split; [reflexivity|].
  exact (@parse_mat_raises_NameError posix_path basic_numpy [] (files mrio) []
           (imported mrio) "data//2007/./mrio.mat" (PStr "test") (PStr "pxp")
           (PRef 0) eq_refl).
Defined.

Lemma mrio_labels_eq :
  @parse_mat_labels basic_numpy MAT_STRUCTURE mrio = Ret mrio_labels.
Proof. vm_compute. reflexivity. Qed.


(** C4 on the small container: the record is the object at location 3,
    the call returns the object at location 1. *)
Lemma parse_mat_drops_meta_rec_witness :
  scenario_call 0 (patched mrio)
    = (Ret (PRef 1), (scenario_call 0 (patched mrio)).2) ∧
  ∃ meta_rec,
    class_of (scenario_call 0 (patched mrio)).2 meta_rec
      = Some "MRIOMetaData" ∧
    PRef 1 ≠ meta_rec ∧
    getattr (scenario_call 0 (patched mrio)).2 (PRef 1) "satellite"
      ≠ Some meta_rec ∧
    getattr (scenario_call 0 (patched mrio)).2 (PRef 1) "meta" = None.
Proof.
  assert (Hrun : scenario_call 0 (patched mrio)
                 = (Ret (PRef 1), (scenario_call 0 (patched mrio)).2))
    by (vm_compute; reflexivity).
  split; [exact Hrun|].
  destruct (@parse_mat_drops_meta_rec posix_path basic_numpy _ _ _ _ _ _ _
              Hrun)
    as (meta_rec & Hcls & _ & _ & _ & _ & _ & _ & Hne & Hsat & Hmeta & _).
  exists meta_rec.
  split; [exact Hcls|]. split; [exact Hne|]. split; [exact Hsat|exact Hmeta].
Defined.

(** C5 (what the code does).  A container whose flow matrix has three rows
    and columns for two monetary labels: in the module as it is the call
    raises [NameError] at line 99, before the file is opened; only with
    [logging] bound does it get to [pd.DataFrame], which raises
    [ValueError] for the shape. *)
Theorem shape_mismatch_raises_NameError :
  (scenario_call 0 (imported (container Z_3x3 Y_sparse labsF))).1
    = Raise (NameError "logging") ∧
  st_events (scenario_call 0 (imported (container Z_3x3 Y_sparse labsF))).2
    = [] ∧
  (scenario_call 0 (patched (container Z_3x3 Y_sparse labsF))).1
    = Raise ValueError.
Proof. repeat split; vm_compute; reflexivity. Qed.

(** C6 (what the code does).  A field map without the key ['Z']: in the
    module as it is the call raises [NameError] at line 99, before any key
    is looked up; only with [logging] bound does it get to [struct['Z']],
    which raises [KeyError]. *)
Theorem missing_key_raises_NameError :
  (scenario_call 1
     (with_object (HDict struct_without_Z) (imported mrio))).1
    = Raise (NameError "logging") ∧
  (scenario_call 1
     (with_object (HDict struct_without_Z) (patched mrio))).1
    = Raise (KeyError (PStr "Z")).
Proof. split; vm_compute; reflexivity. Qed.

(** The two data sections of the small container, with the final-demand
    matrix sparse and dense, encode the same. *)
Lemma io_section_same_logical :
  same_logical (io_section Z Y_sparse) (io_section Z Y_dense).
Proof.
  intros k. unfold io_section. simpl.
  rewrite !lookup_insert. repeat case_decide; try done; try (by left).
  right. exists (2%nat, 2%nat). split; [done|]. split; [done|].
  intros [|[|i]] [|[|j]]; reflexivity.
Qed.

Lemma container_same_elsewhere k :
  k ≠ "IO" →
  container Z Y_sparse labsF !! k = container Z Y_dense labsF !! k.
Proof.
  intros Hk. unfold container. simpl.
  rewrite !lookup_insert. repeat case_decide; done.
Qed.

(** C7 on the small container, with the final-demand matrix stored
    sparse in the one file and dense in the other: both calls return, and
    the final-demand table read from the sparse file holds the values of
    the dense matrix. *)
Lemma parse_mat_sparse_or_dense_witness :
  "IO" ≠ "meta" ∧
  same_logical (io_section Z Y_sparse) (io_section Z Y_dense) ∧
  (scenario_call 0
     (State patched_globals [HDict MAT_STRUCTURE]
        (files (container Z Y_sparse labsF)) [])).1 = Ret (PRef 1) ∧
  (scenario_call 0
     (State patched_globals [HDict MAT_STRUCTURE]
        (files (container Z Y_sparse labsF)) [])).1 =
  (scenario_call 0
     (State patched_globals [HDict MAT_STRUCTURE]
        (files (container Z Y_dense labsF)) [])).1 ∧
  table_of_stored MAT_STRUCTURE (PStruct (io_section Z Y_dense)) "Y"
    (getattr
       (scenario_call 0
          (State patched_globals [HDict MAT_STRUCTURE]
             (files (container Z Y_sparse labsF)) [])).2
       (PRef 1) "Y") ∧
  frame_cell
    (getattr
       (scenario_call 0
          (State patched_globals [HDict MAT_STRUCTURE]
             (files (container Z Y_sparse labsF)) [])).2
       (PRef 1) "Y") 1 0 = Some (PNum 7).
Proof.
  assert (Hret :
    (scenario_call 0
       (State patched_globals [HDict MAT_STRUCTURE]
          (files (container Z Y_sparse labsF)) [])).1 = Ret (PRef 1))
    by (vm_compute; reflexivity).
  pose proof
    (@parse_mat_sparse_or_dense posix_path basic_numpy
       "data//2007/./mrio.mat" (PStr "test") (PStr "pxp") (PRef 0)
       patched_globals [HDict MAT_STRUCTURE]
       (files (container Z Y_sparse labsF))
       (files (container Z Y_dense labsF)) [] MAT_STRUCTURE
       (container Z Y_sparse labsF) (container Z Y_dense labsF)
       "IO" "meta" (io_section Z Y_sparse) (io_section Z Y_dense)) as Hthm.
  cbv zeta in Hthm.
  destruct Hthm as (Hsame & _ & _ & Htables).
  - reflexivity.
  - reflexivity.
  - reflexivity.
  - discriminate.
  - vm_compute; reflexivity.
  - vm_compute; reflexivity.
  - reflexivity.
  - reflexivity.
  - exact io_section_same_logical.
  - exact container_same_elsewhere.
  - destruct (Htables (PRef 1) Hret) as (sat & _ & Hd).
    destruct (Hd (io_section Z Y_dense) (or_intror eq_refl))
      as (_ & HY & _).
    split; [discriminate|]. split; [exact io_section_same_logical|].
    split; [exact Hret|]. split; [exact Hsame|]. split; [exact HY|].
    vm_compute; reflexivity.
Defined.

Lemma parse_mat_iosystem_is_argument_witness :
  scenario_call 0 (patched mrio)
    = (Ret (PRef 1), (scenario_call 0 (patched mrio)).2) ∧
  getattr (scenario_call 0 (patched mrio)).2 (PRef 1) "iosystem"
    = Some (PStr "pxp").
Proof.
  assert (Hrun : scenario_call 0 (patched mrio)
                 = (Ret (PRef 1), (scenario_call 0 (patched mrio)).2))
    by (vm_compute; reflexivity).
  split; [exact Hrun|].
  exact (@parse_mat_iosystem_is_argument posix_path basic_numpy _ _ _ _ _ _ _
           Hrun).
Defined.

(** C9 (what the code does).  The container with the regions R1 and R2,
    the sectors S1 and S2 and the flow matrix [[1, 2], [3, 4]]: in the
    module as it is the call raises [NameError] at line 99, before the
    file is opened, and nothing is built, so no flow table is yielded.
    Only with [logging] bound does the call return, and then the flow
    table has the label pairs (R1, S1), (R2, S2) on both axes, in that
    order, and the values of the file. *)
Theorem flow_table_raises_NameError :
  (scenario_call 0 (imported mrio)).1 = Raise (NameError "logging") ∧
  st_events (scenario_call 0 (imported mrio)).2 = [] ∧
  st_heap (scenario_call 0 (imported mrio)).2 = st_heap (imported mrio) ∧
  (scenario_call 0 (patched mrio)).1 = Ret (PRef 1) ∧
  getattr (scenario_call 0 (patched mrio)).2 (PRef 1) "Z" =
    Some (PFrame 2 [[PNum 1; PNum 2]; [PNum 3; PNum 4]]
            (PMultiIndex ["region"; "sector"]
               [PTuple [PStr "R1"; PStr "S1"]; PTuple [PStr "R2"; PStr "S2"]])
            (PMultiIndex ["region"; "sector"]
               [PTuple [PStr "R1"; PStr "S1"];
                PTuple [PStr "R2"; PStr "S2"]])).
Proof.
  split; [vm_compute; reflexivity|]. split; [vm_compute; reflexivity|].
  split; [vm_compute; reflexivity|]. split; [vm_compute; reflexivity|].
  vm_compute; reflexivity.
Qed.

(** ** The further properties on small containers *)

(** The namespace after the patch binds the names lines 97-100 load,
    whatever the file holds. *)
Lemma patched_opens_file c : opens_file (st_globals (patched c)).
Proof. repeat split; eexists; vm_compute; reflexivity. Qed.

Lemma patched_pd c : ∃ pd, lookup_name (st_globals (patched c)) "pd" = Ret pd.
Proof. eexists; vm_compute; reflexivity. Qed.

Lemma scenario_returns :
  scenario_call 0 (patched mrio)
  = (Ret (PRef 1), (scenario_call 0 (patched mrio)).2).
Proof. vm_compute. reflexivity. Qed.

Lemma clean_labels_eq :
  @parse_mat_labels basic_numpy (delete "empty_comp" MAT_STRUCTURE)
    (edge.container labsZ edge.labsF_clean) = Ret edge.clean_labels.
Proof. vm_compute. reflexivity. Qed.

Lemma labels_3x3_eq :
  @parse_mat_labels basic_numpy MAT_STRUCTURE (container Z_3x3 Y_sparse labsF)
  = Ret edge.labels_3x3.
Proof. vm_compute. reflexivity. Qed.

(** X1 on a stressor table without empty cells, read with a field map that
    has no key ['empty_comp']. *)
Lemma parse_mat_labels_clean_units_witness :
  @parse_mat_labels basic_numpy (delete "empty_comp" MAT_STRUCTURE)
    (edge.container labsZ edge.labsF_clean) = Ret edge.clean_labels ∧
  Forall nonempty_str (_ll_stress_unit edge.clean_labels) ∧
  length (_ll_stress_unit edge.clean_labels)
    = length (_ll_stress_comp edge.clean_labels) ∧
  ll_stress_comp edge.clean_labels = _ll_stress_comp edge.clean_labels ∧
  ll_stress_unit edge.clean_labels = _ll_stress_unit edge.clean_labels.
Proof.
  assert (Forall nonempty_str (_ll_stress_unit edge.clean_labels)) as Hu
    by (repeat constructor; eexists _, _; reflexivity).
  split; [exact clean_labels_eq|]. split; [exact Hu|].
  split; [reflexivity|].
  exact (proj2 (proj2
    (@parse_mat_labels_clean_units basic_numpy
       (delete "empty_comp" MAT_STRUCTURE)
       (edge.container labsZ edge.labsF_clean) edge.clean_labels
       clean_labels_eq Hu)) eq_refl).
Defined.

(** X2 on two rows, the second with an empty array as unit. *)
Lemma comp_fallback_missing_sentinel_witness :
  Forall (λ r : pyval * pyval, has_items r.1) [(PStr "kg", PStr "air")] ∧
  py_len (PArr1 []) = Ret 0%nat ∧
  comp_fallback (Raise (KeyError (PStr "empty_comp")))
    ([(PStr "kg", PStr "air")] ++ (PArr1 [], PStr "air") :: [])
  = Raise (KeyError (PStr "empty_comp")).
Proof.
  assert (Forall (λ r : pyval * pyval, has_items r.1)
            [(PStr "kg", PStr "air")]) as Hpre
    by (repeat constructor; exists 1%nat; reflexivity).
  split; [exact Hpre|]. split; [reflexivity|].
  exact (comp_fallback_missing_sentinel (KeyError (PStr "empty_comp"))
           [(PStr "kg", PStr "air")] (PArr1 []) (PStr "air") []
           Hpre eq_refl).
Defined.

(** X3 on two rows, the second with a number as unit. *)
Lemma comp_fallback_unit_without_len_witness :
  Forall (λ r : pyval * pyval, has_items r.1) [(PStr "kg", PStr "air")] ∧
  py_len (PNum 5) = Raise TypeError ∧
  comp_fallback (Ret (PStr "n/a"))
    ([(PStr "kg", PStr "air")] ++ (PNum 5, PStr "air") :: [])
  = Raise TypeError.
Proof.
  assert (Forall (λ r : pyval * pyval, has_items r.1)
            [(PStr "kg", PStr "air")]) as Hpre
    by (repeat constructor; exists 1%nat; reflexivity).
  split; [exact Hpre|]. split; [reflexivity|].
  exact (comp_fallback_unit_without_len (Ret (PStr "n/a")) TypeError
           [(PStr "kg", PStr "air")] (PNum 5) (PStr "air") []
           Hpre eq_refl).
Defined.

(** X4 on the call of the scenarios, for the name [pd]. *)
Lemma parse_mat_Ret_names_witness :
  scenario_call 0 (patched mrio)
    = (Ret (PRef 1), (scenario_call 0 (patched mrio)).2) ∧
  "pd" ∈ required_names ∧
  ∃ v, lookup_name (st_globals (patched mrio)) "pd" = Ret v.
Proof.
  pose proof scenario_returns as Hrun.
  assert ("pd" ∈ required_names) as Hx by (repeat constructor).
  split; [exact Hrun|]. split; [exact Hx|].
  exact (@parse_mat_Ret_names posix_path basic_numpy _ _ _ _ (patched mrio) _ _ "pd"
           Hrun Hx).
Defined.

(** X5 on a field map without the key ['year']. *)
Lemma parse_mat_needs_every_key_witness :
  "year" ∈ required_keys ∧
  heap_dict
    (st_heap (with_object (HDict (delete "year" MAT_STRUCTURE))
                (patched mrio)))
    (PRef 1) = Ret (delete "year" MAT_STRUCTURE) ∧
  delete "year" MAT_STRUCTURE !! "year" = None ∧
  ∃ e,
    (scenario_call 1
       (with_object (HDict (delete "year" MAT_STRUCTURE))
          (patched mrio))).1 = Raise e.
Proof.
  assert ("year" ∈ required_keys) as Hk by (repeat constructor).
  assert (heap_dict
            (st_heap (with_object (HDict (delete "year" MAT_STRUCTURE))
                        (patched mrio)))
            (PRef 1) = Ret (delete "year" MAT_STRUCTURE)) as Hitems
    by reflexivity.
  assert (delete "year" MAT_STRUCTURE !! "year" = None) as Hnone
    by (vm_compute; reflexivity).
  split; [exact Hk|]. split; [exact Hitems|]. split; [exact Hnone|].
  exact (@parse_mat_needs_every_key posix_path basic_numpy "data//2007/./mrio.mat"
           (PStr "test") (PStr "pxp") (PRef 1)
           (with_object (HDict (delete "year" MAT_STRUCTURE)) (patched mrio))
           (delete "year" MAT_STRUCTURE) "year" Hk Hitems Hnone).
Defined.

(** X6 on a path no file is at. *)
Lemma parse_mat_unreadable_file_witness :
  opens_file (st_globals (patched mrio)) ∧
  st_files (patched mrio) (@normpath posix_path "data/2008/mrio.mat") = Raise OSError ∧
  @parse_mat posix_path basic_numpy "data/2008/mrio.mat" (PStr "test") (PStr "pxp")
    (PRef 0) (patched mrio)
  = (Raise OSError, @read_state posix_path "data/2008/mrio.mat" (patched mrio)).
Proof.
  assert (st_files (patched mrio) (@normpath posix_path "data/2008/mrio.mat")
          = Raise OSError) as Hfile by (vm_compute; reflexivity).
  split; [exact (patched_opens_file mrio)|]. split; [exact Hfile|].
  exact (@parse_mat_unreadable_file posix_path basic_numpy "data/2008/mrio.mat"
           (PStr "test") (PStr "pxp") (PRef 0) (patched mrio) OSError
           (patched_opens_file mrio) Hfile).
Defined.

(** X7 on a field map without the key ['data']. *)
Lemma parse_mat_missing_data_key_witness :
  delete "data" MAT_STRUCTURE !! "data" = None ∧
  scenario_call 1
    (with_object (HDict (delete "data" MAT_STRUCTURE)) (patched mrio))
  = (Raise (KeyError (PStr "data")),
     @read_state posix_path "data//2007/./mrio.mat"
       (with_object (HDict (delete "data" MAT_STRUCTURE)) (patched mrio))).
Proof.
  assert (delete "data" MAT_STRUCTURE !! "data" = None) as Hnone
    by (vm_compute; reflexivity).
  assert (st_files
            (with_object (HDict (delete "data" MAT_STRUCTURE)) (patched mrio))
            (@normpath posix_path "data//2007/./mrio.mat") = Ret mrio) as Hfile
    by (vm_compute; reflexivity).
  split; [exact Hnone|].
  exact (@parse_mat_missing_data_key posix_path basic_numpy "data//2007/./mrio.mat"
           (PStr "test") (PStr "pxp") (PRef 1)
           (with_object (HDict (delete "data" MAT_STRUCTURE)) (patched mrio))
           mrio (delete "data" MAT_STRUCTURE)
           (patched_opens_file mrio) Hfile eq_refl Hnone).
Defined.

(** X8 on a container that has only the meta section. *)
Lemma parse_mat_missing_section_witness :
  MAT_STRUCTURE !! "data" = Some (PStr "IO") ∧
  edge.container_no_data !! "IO" = None ∧
  scenario_call 0 (patched edge.container_no_data)
  = (Raise (KeyError (PStr "IO")),
     @read_state posix_path "data//2007/./mrio.mat"
       (patched edge.container_no_data)).
Proof.
  assert (MAT_STRUCTURE !! "data" = Some (PStr "IO")) as Hdata
    by (vm_compute; reflexivity).
  assert (edge.container_no_data !! "IO" = None) as Hsec
    by (vm_compute; reflexivity).
  assert (st_files (patched edge.container_no_data)
            (@normpath posix_path "data//2007/./mrio.mat") = Ret edge.container_no_data)
    as Hfile by (vm_compute; reflexivity).
  split; [exact Hdata|]. split; [exact Hsec|].
  exact (@parse_mat_missing_section posix_path basic_numpy "data//2007/./mrio.mat"
           (PStr "test") (PStr "pxp") (PRef 0)
           (patched edge.container_no_data) edge.container_no_data
           MAT_STRUCTURE "IO"
           (patched_opens_file edge.container_no_data) Hfile eq_refl
           Hdata Hsec).
Defined.

(** X9 on a container whose monetary label table has one dimension. *)
Lemma parse_mat_label_table_IndexError_witness :
  edge.meta_section edge.labsZ_single labsF !! "labsZ"
    = Some edge.labsZ_single ∧
  MAT_STRUCTURE !! "mon_sec_slice" = Some (index_exp_col 1) ∧
  scenario_call 0 (patched (edge.container edge.labsZ_single labsF))
  = (Raise IndexError,
     @read_state posix_path "data//2007/./mrio.mat"
       (patched (edge.container edge.labsZ_single labsF))).
Proof.
  assert (edge.meta_section edge.labsZ_single labsF !! "labsZ"
          = Some edge.labsZ_single) as Htable by (vm_compute; reflexivity).
  assert (MAT_STRUCTURE !! "mon_sec_slice" = Some (index_exp_col 1))
    as Hslice by (vm_compute; reflexivity).
  split; [exact Htable|]. split; [exact Hslice|].
  refine (@parse_mat_label_table_IndexError posix_path basic_numpy
            "data//2007/./mrio.mat" (PStr "test") (PStr "pxp") (PRef 0)
            (patched (edge.container edge.labsZ_single labsF))
            (edge.container edge.labsZ_single labsF) MAT_STRUCTURE
            "IO" "meta" (PStruct (io_section Z Y_sparse))
            (edge.meta_section edge.labsZ_single labsF) "labsZ"
            edge.labsZ_single 1
            (patched_opens_file _) _ eq_refl _ _ _ _ _ Htable Hslice _).
  - vm_compute; reflexivity.
  - vm_compute; reflexivity.
  - vm_compute; reflexivity.
  - vm_compute; reflexivity.
  - vm_compute; reflexivity.
  - vm_compute; reflexivity.
  - left. eexists. reflexivity.
Defined.

Lemma column_slices_default : column_slices MAT_STRUCTURE.
Proof.
  intros slice Hs. unfold slice_keys in Hs.
  repeat (apply elem_of_cons in Hs as [->|Hs]);
    try (by apply elem_of_nil in Hs); eexists; vm_compute; reflexivity.
Qed.

(** X10 on the call of the scenarios. *)
Lemma parse_mat_shapes_match_tables_witness :
  scenario_call 0 (patched mrio)
    = (Ret (PRef 1), (scenario_call 0 (patched mrio)).2) ∧
  column_slices MAT_STRUCTURE ∧
  ∃ mat_all ls n m s,
    st_files (patched mrio) (@normpath posix_path "data//2007/./mrio.mat")
      = Ret mat_all ∧
    @parse_mat_labels basic_numpy MAT_STRUCTURE mat_all = Ret ls ∧
    table_rows_is MAT_STRUCTURE (mat_meta ls) "mon_labels" n ∧
    table_rows_is MAT_STRUCTURE (mat_meta ls) "fd_labels" m ∧
    table_rows_is MAT_STRUCTURE (mat_meta ls) "stress_labels" s ∧
    stored_shape_is MAT_STRUCTURE (mat_io ls) "Z" n n ∧
    stored_shape_is MAT_STRUCTURE (mat_io ls) "Y" n m ∧
    stored_shape_is MAT_STRUCTURE (mat_io ls) "F" s n ∧
    stored_shape_is MAT_STRUCTURE (mat_io ls) "F_hh" s m.
Proof.
  pose proof scenario_returns as Hrun.
  split; [exact Hrun|]. split; [exact column_slices_default|].
  exact (@parse_mat_shapes_match_tables posix_path basic_numpy
           "data//2007/./mrio.mat" (PStr "test") (PStr "pxp") (PRef 0)
           (patched mrio) (PRef 1) (scenario_call 0 (patched mrio)).2
           MAT_STRUCTURE Hrun eq_refl column_slices_default).
Defined.

(** X11 on a container whose flow matrix has three rows and columns for
    two monetary labels. *)
Lemma parse_mat_Z_shape_mismatch_witness :
  @parse_mat_labels basic_numpy MAT_STRUCTURE (container Z_3x3 Y_sparse labsF)
    = Ret edge.labels_3x3 ∧
  struct_field MAT_STRUCTURE (mat_io edge.labels_3x3) "Z" = Ret Z_3x3 ∧
  matrix_shape Z_3x3 = Some (3%nat, 3%nat) ∧
  (3%nat, 3%nat)
    ≠ (length (ll_reg edge.labels_3x3), length (ll_reg edge.labels_3x3)) ∧
  scenario_call 0 (patched (container Z_3x3 Y_sparse labsF))
  = (Raise ValueError,
     @read_state posix_path "data//2007/./mrio.mat"
       (patched (container Z_3x3 Y_sparse labsF))).
Proof.
  assert (struct_field MAT_STRUCTURE (mat_io edge.labels_3x3) "Z"
          = Ret Z_3x3) as HZ by (vm_compute; reflexivity).
  assert ((3%nat, 3%nat)
          ≠ (length (ll_reg edge.labels_3x3),
             length (ll_reg edge.labels_3x3))) as Hne by (intros [=]).
  split; [exact labels_3x3_eq|]. split; [exact HZ|].
  split; [reflexivity|]. split; [exact Hne|].
  refine (@parse_mat_Z_shape_mismatch posix_path basic_numpy "data//2007/./mrio.mat"
            (PStr "test") (PStr "pxp") (PRef 0)
            (patched (container Z_3x3 Y_sparse labsF))
            (container Z_3x3 Y_sparse labsF) MAT_STRUCTURE edge.labels_3x3
            (PStr "2.2") (PNum 2007) Z_3x3 3%nat 3%nat
            (patched_opens_file _) (patched_pd _) _ eq_refl labels_3x3_eq
            _ _ _ _ _ HZ eq_refl Hne).
  - vm_compute; reflexivity.
  - vm_compute; reflexivity.
  - vm_compute; reflexivity.
  - vm_compute; reflexivity.
  - vm_compute; reflexivity.
  - vm_compute; reflexivity.
Defined.

(** X12 on two containers with the same two sections, one of them without
    the header entries [loadmat] adds. *)
Lemma parse_mat_reads_two_sections_witness :
  mrio !! "__header__" ≠ edge.container labsZ labsF !! "__header__" ∧
  (scenario_call 0
     (State patched_globals [HDict MAT_STRUCTURE] (files mrio) [])).1
    = Ret (PRef 1) ∧
  (scenario_call 0
     (State patched_globals [HDict MAT_STRUCTURE] (files mrio) [])).1 =
  (scenario_call 0
     (State patched_globals [HDict MAT_STRUCTURE]
        (files (edge.container labsZ labsF)) [])).1.
Proof.
  split; [vm_compute; discriminate|].
  split; [vm_compute; reflexivity|].
  refine (proj1
    (@parse_mat_reads_two_sections posix_path basic_numpy "data//2007/./mrio.mat"
       (PStr "test") (PStr "pxp") (PRef 0) patched_globals
       [HDict MAT_STRUCTURE] (files mrio)
       (files (edge.container labsZ labsF)) [] MAT_STRUCTURE mrio
       (edge.container labsZ labsF) eq_refl _ _ _ _)).
  - vm_compute; reflexivity.
  - vm_compute; reflexivity.
  - intros k Hk.
    assert (Ret k = Ret (PStr "IO")) as [= ->]
      by (rewrite <- Hk; vm_compute; reflexivity).
    vm_compute; reflexivity.
  - intros k Hk.
    assert (Ret k = Ret (PStr "meta")) as [= ->]
      by (rewrite <- Hk; vm_compute; reflexivity).
    vm_compute; reflexivity.
Defined.

(** X13 on the call of the scenarios. *)
Lemma parse_mat_reads_once_witness :
  scenario_call 0 (patched mrio)
    = (Ret (PRef 1), (scenario_call 0 (patched mrio)).2) ∧
  (∃ l,
     PRef 1 = PRef l ∧ st_heap (patched mrio) !! l = None ∧
     is_Some (st_heap (scenario_call 0 (patched mrio)).2 !! l)) ∧
  ∃ rest,
    st_events (scenario_call 0 (patched mrio)).2 =
      st_events (patched mrio) ++
        msg_read (@normpath posix_path "data//2007/./mrio.mat")
        :: EvLoadmat (@normpath posix_path "data//2007/./mrio.mat")
        :: rest ∧
    Forall (λ e, is_read e = false) rest.
Proof.
  pose proof scenario_returns as Hrun.
  split; [exact Hrun|].
  exact (@parse_mat_reads_once posix_path basic_numpy
           "data//2007/./mrio.mat" (PStr "test") (PStr "pxp") (PRef 0)
           (patched mrio) (PRef 1) (scenario_call 0 (patched mrio)).2 Hrun).
Defined.

(** X14 on the call of the scenarios made twice: the first call returns
    the object at location 1, the second the object at location 4. *)
Lemma parse_mat_twice_witness :
  scenario_call 0 (patched mrio)
    = (Ret (PRef 1), (scenario_call 0 (patched mrio)).2) ∧
  scenario_call 0 (scenario_call 0 (patched mrio)).2
    = (Ret (PRef 4), (scenario_call 0 (scenario_call 0 (patched mrio)).2).2) ∧
  PRef 1 ≠ PRef 4 ∧
  ∀ a,
    getattr (scenario_call 0 (scenario_call 0 (patched mrio)).2).2 (PRef 1) a
    = getattr (scenario_call 0 (patched mrio)).2 (PRef 1) a.
Proof.
  pose proof scenario_returns as Hrun1.
  assert (Hrun2 :
            scenario_call 0 (scenario_call 0 (patched mrio)).2
            = (Ret (PRef 4),
               (scenario_call 0 (scenario_call 0 (patched mrio)).2).2))
    by (vm_compute; reflexivity).
  split; [exact Hrun1|]. split; [exact Hrun2|].
  destruct (@parse_mat_twice posix_path basic_numpy
              "data//2007/./mrio.mat" (PStr "test") (PStr "pxp") (PRef 0)
              "data//2007/./mrio.mat" (PStr "test") (PStr "pxp") (PRef 0)
              (patched mrio) (PRef 1) (scenario_call 0 (patched mrio)).2
              (PRef 4)
              (scenario_call 0 (scenario_call 0 (patched mrio)).2).2
              Hrun1 Hrun2) as (Hne & Hsame & _).
  split; [exact Hne|exact Hsame].
Defined.

(** X15 on the call of the scenarios: the object is named "test". *)
Lemma parse_mat_name_version_year_witness :
  scenario_call 0 (patched mrio)
    = (Ret (PRef 1), (scenario_call 0 (patched mrio)).2) ∧
  getattr (scenario_call 0 (patched mrio)).2 (PRef 1) "name"
    = Some (PStr "test").
Proof.
  pose proof scenario_returns as Hrun.
  split; [exact Hrun|].
  exact (proj1
    (@parse_mat_name_version_year posix_path basic_numpy "data//2007/./mrio.mat"
       (PStr "test") (PStr "pxp") (PRef 0) (patched mrio) (PRef 1)
       (scenario_call 0 (patched mrio)).2 Hrun)).
Defined.

Lemma unit_ok_default u n : py_len u = Ret n → unit_ok MAT_STRUCTURE u.
Proof.
  intros Hn. exists n. split; [done|]. intros _. exists (PStr "n/a").
  vm_compute. reflexivity.
Qed.

(** X16 on the container of the scenarios, read with the default field
    map. *)
Lemma parse_mat_labels_returns_witness :
  Forall (unit_ok MAT_STRUCTURE) (column 2 edge.rowsF) ∧
  ∃ ls,
    @parse_mat_labels basic_numpy MAT_STRUCTURE mrio = Ret ls ∧
    mat_io ls = PStruct (io_section Z Y_sparse) ∧
    mat_meta ls = PStruct (meta_section labsF) ∧
    ll_sec ls = column 1 edge.rowsZ ∧ ll_reg ls = column 5 edge.rowsZ ∧
    ll_fd_cat ls = column 1 edge.rowsY ∧ ll_fd_reg ls = column 4 edge.rowsY ∧
    ll_stress_names ls = column 0 edge.rowsF ∧
    _ll_stress_comp ls = column 1 edge.rowsF ∧
    _ll_stress_unit ls = column 2 edge.rowsF.
Proof.
  assert (Forall (unit_ok MAT_STRUCTURE) (column 2 edge.rowsF)) as Hunits.
  { change (column 2 edge.rowsF) with [PStr "kg"; PArr1 []; PArr1 []].
    repeat constructor; eapply unit_ok_default; reflexivity. }
  split; [exact Hunits|].
  refine (@parse_mat_labels_returns basic_numpy MAT_STRUCTURE mrio
            (PStruct (io_section Z Y_sparse)) (meta_section labsF)
            6 edge.rowsZ 5 edge.rowsY 3 edge.rowsF 1 5 1 4 0 1 2
            _ _ _ _ _ _ _ _ _ _ _ _ Hunits).
  - exists "IO". split; vm_compute; reflexivity.
  - exists "meta". split; vm_compute; reflexivity.
  - exists "labsZ". split; vm_compute; reflexivity.
  - exists 1. split; vm_compute; reflexivity.
  - exists 5. split; vm_compute; reflexivity.
  - exists "labsY". split; vm_compute; reflexivity.
  - exists 1. split; vm_compute; reflexivity.
  - exists 4. split; vm_compute; reflexivity.
  - exists "labsF". split; vm_compute; reflexivity.
  - exists 0. split; vm_compute; reflexivity.
  - exists 1. split; vm_compute; reflexivity.
  - exists 2. split; vm_compute; reflexivity.
Defined.

Lemma patched_library_names c : library_names (st_globals (patched c)).
Proof. repeat split; vm_compute; reflexivity. Qed.

(** X17 on the call of the scenarios. *)
Lemma parse_mat_returns_witness :
  library_names (st_globals (patched mrio)) ∧
  @parse_mat_labels basic_numpy MAT_STRUCTURE mrio = Ret mrio_labels ∧
  Forall (λ u, type_is_str u = true) (ll_stress_unit mrio_labels) ∧
  matrix_shape Z
    = Some (length (ll_reg mrio_labels), length (ll_reg mrio_labels)) ∧
  matrix_shape Y_sparse
    = Some (length (ll_reg mrio_labels), length (ll_fd_reg mrio_labels)) ∧
  matrix_shape F
    = Some (length (ll_stress_names mrio_labels),
            length (ll_reg mrio_labels)) ∧
  matrix_shape F_hh
    = Some (length (ll_stress_names mrio_labels),
            length (ll_fd_reg mrio_labels)) ∧
  ∃ io σ', scenario_call 0 (patched mrio) = (Ret io, σ').
Proof.
  assert (Forall (λ u, type_is_str u = true) (ll_stress_unit mrio_labels))
    as Hstr by (repeat constructor).
  split; [exact (patched_library_names mrio)|].
  split; [exact mrio_labels_eq|]. split; [exact Hstr|].
  split; [reflexivity|].
  split; [reflexivity|]. split; [reflexivity|]. split; [reflexivity|].
  refine (@parse_mat_returns posix_path basic_numpy "data//2007/./mrio.mat"
            (PStr "test") (PStr "pxp") (PRef 0) (patched mrio) mrio
            MAT_STRUCTURE mrio_labels (PStr "2.2") (PNum 2007)
            Z Y_sparse F F_hh [PStr "M.EUR"; PStr "M.EUR"]
            (patched_library_names mrio) _ eq_refl mrio_labels_eq
            eq_refl eq_refl eq_refl _ _ _ Hstr
            _ _ _ eq_refl _ eq_refl _ eq_refl _ eq_refl _ eq_refl).
  - vm_compute; reflexivity.
  - vm_compute; reflexivity.
  - vm_compute; reflexivity.
  - vm_compute; reflexivity.
  - vm_compute; reflexivity.
  - vm_compute; reflexivity.
  - vm_compute; reflexivity.
  - vm_compute; reflexivity.
  - vm_compute; reflexivity.
  - vm_compute; reflexivity.
  - vm_compute; reflexivity.
Defined.

Lemma same_fields_with_comment :
  same_fields MAT_STRUCTURE edge.struct_with_comment.
Proof.
  intros k Hk. unfold edge.struct_with_comment.
  rewrite lookup_insert_ne; [done|]. intros <-.
  unfold all_keys, required_keys in Hk.
  repeat (apply elem_of_cons in Hk as [Hk|Hk]; [discriminate|]).
  by apply elem_of_nil in Hk.
Qed.

(** X18 on the default field map and the same with one more key. *)
Lemma parse_mat_reads_named_keys_witness :
  MAT_STRUCTURE !! "comment" ≠ edge.struct_with_comment !! "comment" ∧
  same_fields MAT_STRUCTURE edge.struct_with_comment ∧
  scenario_call 0
    (with_object (HDict edge.struct_with_comment) (patched mrio))
  = scenario_call 1
      (with_object (HDict edge.struct_with_comment) (patched mrio)).
Proof.
  split; [vm_compute; discriminate|].
  split; [exact same_fields_with_comment|].
  exact (@parse_mat_reads_named_keys posix_path basic_numpy "data//2007/./mrio.mat"
           (PStr "test") (PStr "pxp") (PRef 0) (PRef 1)
           (with_object (HDict edge.struct_with_comment) (patched mrio))
           MAT_STRUCTURE edge.struct_with_comment eq_refl eq_refl
           same_fields_with_comment).
Defined.

(** X20 for the name [pd]. *)
Lemma module_binds_all_but_logging_witness :
  "pd" ∈ required_names ∧
  ((∃ v, lookup_name (st_globals (imported mrio)) "pd" = Ret v)
   ↔ "pd" ≠ "logging") ∧
  ∀ logging,
    ∃ v,
      lookup_name
        (st_globals (bind_global "logging" logging (imported mrio))) "pd"
      = Ret v.
Proof.
  assert ("pd" ∈ required_names) as Hx by (repeat constructor).
  split; [exact Hx|].
  exact (module_binds_all_but_logging [] (files mrio) [] "pd" Hx).
Defined.

(** X21 on the call of the scenarios: the flow table has the label pairs
    (R1, S1), (R2, S2) on both axes, in that order, and the values of the
    file; the final-demand matrix, stored sparse, has the value 7 in row 1
    and column 0, and so has its table. *)
Lemma parse_mat_keeps_values_and_order_witness :
  scenario_call 0 (patched mrio)
    = (Ret (PRef 1), (scenario_call 0 (patched mrio)).2) ∧
  column_slices MAT_STRUCTURE ∧
  (∃ ncols,
     getattr (scenario_call 0 (patched mrio)).2 (PRef 1) "Z" =
       Some (PFrame ncols [[PNum 1; PNum 2]; [PNum 3; PNum 4]]
               (PMultiIndex ["region"; "sector"]
                  [PTuple [PStr "R1"; PStr "S1"];
                   PTuple [PStr "R2"; PStr "S2"]])
               (PMultiIndex ["region"; "sector"]
                  [PTuple [PStr "R1"; PStr "S1"];
                   PTuple [PStr "R2"; PStr "S2"]]))) ∧
  frame_cell (getattr (scenario_call 0 (patched mrio)).2 (PRef 1) "Y") 1 0
  = Some (PNum 7).
Proof.
  pose proof scenario_returns as Hrun.
  split; [exact Hrun|]. split; [exact column_slices_default|].
  destruct (@parse_mat_keeps_values_and_order posix_path basic_numpy
              "data//2007/./mrio.mat" (PStr "test") (PStr "pxp") (PRef 0)
              (patched mrio) (PRef 1) (scenario_call 0 (patched mrio)).2
              MAT_STRUCTURE Hrun eq_refl column_slices_default)
    as (mat_all & ls & sat & Hfile & Hls & _ & _ & _ & _ & _ & _
        & [(stored & ncols & rows & Hstored & HZ & Hrows) _]
        & [_ (mY & HmY & HY)] & _).
  clear Hrun.
  assert (Ret mat_all = Ret mrio) as [= ->]
    by (rewrite <- Hfile; vm_compute; reflexivity).
  assert (Ret ls = Ret mrio_labels) as [= ->]
    by (rewrite <- Hls; exact mrio_labels_eq).
  assert (Ret stored = Ret Z) as [= ->]
    by (rewrite <- Hstored; vm_compute; reflexivity).
  assert (Ret mY = Ret Y_sparse) as [= ->]
    by (rewrite <- HmY; vm_compute; reflexivity).
  split.
  - exists ncols. rewrite HZ, (Hrows _ eq_refl). reflexivity.
  - destruct (HY (2%nat, 2%nat) eq_refl) as [_ Hcells].
    rewrite Hcells. reflexivity.
Defined.
